(** * Unreal Local Server Manager: the supervision core, embedded and verified

    The development follows the two source modules:
    - [core.py]: [ServerConfig], [ServerRuntime] (with [append_log]),
      [build_command], [effective_port], [classify_log_line];
    - [main_window.py]: [LogReaderThread.run], [StopWorker.run] and the
      lifecycle slots of [MainWindow] ([_start_server], [_stop_server],
      [_stop_finalize], [_on_log_line], [_on_process_finished]).

    Python [str] values are modelled as [string]; a character is a code
    point below 256.  Python [int] is [Z], [float] is [PrimFloat.float]. *)

From Stdlib Require Import ZArith Ascii String List Bool Lia.
From Stdlib Require Import DecimalString DecimalPos.
From Stdlib Require PrimFloat.
From stdpp Require Import base option list relations gmap strings.

Local Open Scope string_scope.
Local Open Scope list_scope.
Local Open Scope Z_scope.

(** ** Python string builtins used by the code *)

Module Py.

(** Code point of a character, as [Z]. *)
Definition ord (c : ascii) : Z := Z.of_N (N_of_ascii c).

(** [str.lower] on one character.  Below 256 the only cased code points
    with a distinct lowercase are [A-Z] and [U+00C0..U+00DE] without the
    multiplication sign [U+00D7]; both shift by 32. *)
Definition lower_char (c : ascii) : ascii :=
  let n := ord c in
  if ((65 <=? n) && (n <=? 90)) || ((192 <=? n) && (n <=? 222) && negb (n =? 215))
  then ascii_of_N (Z.to_N (n + 32))
  else c.

(** [s.lower()] *)
Fixpoint lower (s : string) : string :=
  match s with
  | EmptyString => EmptyString
  | String c r => String (lower_char c) (lower r)
  end.

(** [s.startswith(p)] *)
Fixpoint startswith (p s : string) : bool :=
  match p, s with
  | EmptyString, _ => true
  | String a p', String b s' => if Ascii.eqb a b then startswith p' s' else false
  | String _ _, EmptyString => false
  end.

(** [p in s] for strings: [p] occurs at some offset of [s]. *)
Fixpoint contains (p s : string) : bool :=
  startswith p s ||
  match s with
  | EmptyString => false
  | String _ r => contains p r
  end.

(** [str.isspace] on one character (code points below 256). *)
Definition is_space (c : ascii) : bool :=
  let n := ord c in
  ((9 <=? n) && (n <=? 13)) || ((28 <=? n) && (n <=? 32)) || (n =? 133) || (n =? 160).

Fixpoint lstrip (s : string) : string :=
  match s with
  | EmptyString => EmptyString
  | String c r => if is_space c then lstrip r else s
  end.

(** [rstrip], written as a right fold: a character is dropped when it is
    white and everything after it has been dropped. *)
Fixpoint rstrip (s : string) : string :=
  match s with
  | EmptyString => EmptyString
  | String c r =>
      match rstrip r with
      | EmptyString => if is_space c then EmptyString else String c EmptyString
      | r' => String c r'
      end
  end.

(** [s.strip()] *)
Definition strip (s : string) : string := rstrip (lstrip s).

(** Truthiness of a [str]: non-empty. *)
Definition truthy (s : string) : bool :=
  match s with EmptyString => false | String _ _ => true end.

(** ASCII decimal digit. *)
Definition is_digit (c : ascii) : bool :=
  let n := ord c in (48 <=? n) && (n <=? 57).

(** The limit of the conversions between [int] and decimal [str]
    ([sys.int_info.default_max_str_digits]): [int(s)] of a numeral with
    more digits, and [str(n)] of an [int] with more digits, raise
    [ValueError]. *)
Definition max_str_digits : Z := 4300.

(** The least number with more than [max_str_digits] digits. *)
Definition str_bound : Z := Eval vm_compute in 10 ^ 4300.

(** [int(s)] for a string of ASCII digits (the only use in the code is on
    a [\d+] group).  [None] stands for [ValueError]: more than 4300
    digits, or a string that is no decimal numeral. *)
Definition int_of_digits (s : string) : option Z :=
  if max_str_digits <? Z.of_nat (String.length s) then None
  else
    match s with
    | EmptyString => None
    | String _ _ => option_map Z.of_uint (NilEmpty.uint_of_string s)
    end.

(** The decimal numeral of [n]. *)
Definition str_of_int (n : Z) : string := NilZero.string_of_int (Z.to_int n).

(** [str(n)] / [f"{n}"] for an [int]: the decimal numeral; [None] stands
    for the [ValueError] of an [int] with more than 4300 digits, that is
    with [10^4300 <= |n|]. *)
Definition str (n : Z) : option string :=
  if str_bound <=? Z.abs n then None else Some (str_of_int n).

End Py.

Arguments Py.str : simpl never.
Arguments Py.str_bound : simpl never.
Arguments Py.int_of_digits : simpl never.

(** ** core.py: data model *)

Record ServerConfig := {
  name : string;
  engine_path : string;
  project_path : string;
  port : Z;
  custom_params : string;
  id : string
}.

(** *** [ServerRuntime.append_log]

    [self.log_lines.append(text)], then, when the list is longer than
    [max_lines], [del self.log_lines[0 : len - max_lines]].  The slice
    bound is positive in that branch; a bound past the end deletes
    everything, as [skipn] does. *)
Definition append_log (text : string) (max_lines : Z) (log_lines : list string)
  : list string :=
  let l := log_lines ++ [text] in
  if Z.of_nat (length l) >? max_lines
  then skipn (Z.to_nat (Z.of_nat (length l) - max_lines)) l
  else l.

(** The default of the [max_lines] parameter. *)
Definition default_max_lines : Z := 8000.

(** *** [classify_log_line] *)
Definition classify_log_line (line : string) : string :=
  let low := Py.lower line in
  if Py.contains ": error:" low || Py.contains " error: " low || Py.startswith "error:" low
  then "error"
  else if Py.contains ": warning:" low || Py.contains " warning: " low
          || Py.startswith "warning:" low
  then "warning"
  else "info".

(** *** The pattern of [effective_port]

    [re.search(r"-(?:Port|NetPort)=(\d+)", s, flags=re.I)]: the leftmost
    offset at which the pattern matches, trying [Port] before [NetPort];
    [\d+] is greedy and nothing follows it, so the group is the longest
    run of digits.  Below 256 the class [\d] is [0-9], and under [re.I]
    the letters of the pattern match exactly their two ASCII cases. *)
Module Re.

(** One pattern character against one subject character under [re.I]. *)
Definition ieq (p c : ascii) : bool :=
  Ascii.eqb (Py.lower_char p) (Py.lower_char c).

(** A literal of the pattern at the head of [s]: the rest of [s]. *)
Fixpoint literal (p s : string) : option string :=
  match p with
  | EmptyString => Some s
  | String a p' =>
      match s with
      | EmptyString => None
      | String b s' => if ieq a b then literal p' s' else None
      end
  end.

(** The longest run of digits at the head of [s]. *)
Fixpoint digits (s : string) : string :=
  match s with
  | EmptyString => EmptyString
  | String c r => if Py.is_digit c then String c (digits r) else EmptyString
  end.

(** [=(\d+)] at the head of [s]: group 1. *)
Definition tail (s : string) : option string :=
  match literal "=" s with
  | None => None
  | Some r => let ds := digits r in if Py.truthy ds then Some ds else None
  end.

(** One branch of the alternation followed by the tail. *)
Definition branch (key s : string) : option string :=
  match literal key s with
  | None => None
  | Some r => tail r
  end.

(** The whole pattern anchored at the head of [s]: group 1. *)
Definition match_here (s : string) : option string :=
  match literal "-" s with
  | None => None
  | Some r =>
      match branch "Port" r with
      | Some ds => Some ds
      | None => branch "NetPort" r
      end
  end.

(** [re.search]: group 1 of the leftmost match. *)
Fixpoint search (s : string) : option string :=
  match match_here s with
  | Some ds => Some ds
  | None =>
      match s with
      | EmptyString => None
      | String _ r => search r
      end
  end.

End Re.

(** *** [effective_port]

    [None] when [int(m.group(1))] raises. *)
Definition effective_port (cfg : ServerConfig) : option Z :=
  match Re.search (custom_params cfg) with
  | Some g => Py.int_of_digits g
  | None => Some (port cfg)
  end.

(** *** [shlex.split] of the Python standard library

    [build_command] tokenises the custom parameters with
    [shlex.split(s)]: POSIX mode, [whitespace_split = True], no comment
    characters.  The tokenizer is the state machine of [shlex.read_token];
    [None] stands for its [ValueError] (unterminated quote or dangling
    escape). *)
Module Shlex.

Definition is_whitespace (c : ascii) : bool :=
  Ascii.eqb c " " || Ascii.eqb c "009" || Ascii.eqb c "013" || Ascii.eqb c "010".

Definition is_quote (c : ascii) : bool :=
  Ascii.eqb c "'" || Ascii.eqb c "034".

Definition is_escape (c : ascii) : bool := Ascii.eqb c "\".

(** [escapedquotes]: the quotes inside which the escape is active. *)
Definition is_escapedquote (c : ascii) : bool := Ascii.eqb c "034".

(** [self.state]: [' '], ['a'], a quote character, or the escape
    character together with [escapedstate] ([None] for ['a']). *)
Inductive state :=
| InSpace
| InWord
| InQuote (q : ascii)
| InEscape (escaped : option ascii).

Definition snoc (tok : string) (c : ascii) : string := tok +:+ String c EmptyString.

(** The end of [read_token]: an empty unquoted result is the end-of-input
    marker, anything else is a token. *)
Definition emit (quoted : bool) (tok : string) (rest : list string) : list string :=
  if Py.truthy tok || quoted then tok :: rest else rest.

Fixpoint lex (st : state) (quoted : bool) (tok : string) (cs : string)
  : option (list string) :=
  match cs with
  | EmptyString =>
      match st with
      | InSpace => Some []
      | InWord => Some (emit quoted tok [])
      | InQuote _ => None
      | InEscape _ => None
      end
  | String c r =>
      match st with
      | InSpace =>
          if is_whitespace c then lex InSpace quoted tok r
          else if is_escape c then lex (InEscape None) quoted tok r
          else if is_quote c then lex (InQuote c) quoted tok r
          else lex InWord quoted (String c EmptyString) r
      | InWord =>
          if is_whitespace c then
            match lex InSpace false EmptyString r with
            | Some rest => Some (emit quoted tok rest)
            | None => None
            end
          else if is_quote c then lex (InQuote c) quoted tok r
          else if is_escape c then lex (InEscape None) quoted tok r
          else lex InWord quoted (snoc tok c) r
      | InQuote q =>
          if Ascii.eqb c q then lex InWord true tok r
          else if is_escape c && is_escapedquote q then lex (InEscape (Some q)) true tok r
          else lex (InQuote q) true (snoc tok c) r
      | InEscape escaped =>
          match escaped with
          | Some q =>
              let tok' := if negb (is_escape c) && negb (Ascii.eqb c q)
                          then snoc tok "\" else tok in
              lex (InQuote q) quoted (snoc tok' c) r
          | None => lex InWord quoted (snoc tok c) r
          end
      end
  end.

(** [shlex.split(s)] *)
Definition split (s : string) : option (list string) :=
  lex InSpace false EmptyString s.

End Shlex.

(** *** [build_command]

    [resolved] is the result of [resolve_engine_executable(cfg.engine_path)],
    which walks the file system; [None] when the f-string of the default
    port option or [shlex.split] raises (a [ValueError] in both cases). *)
Definition fixed_flags : list string :=
  ["-server"; "-unattended"; "-stdout"; "-FullStdOutLogOutput"].

Definition no_port_override (cfg : ServerConfig) : bool :=
  let params_lower := Py.lower (custom_params cfg) in
  negb (Py.contains "-port=" params_lower) && negb (Py.contains "-netport=" params_lower).

(** The default port option, as text. *)
Definition default_port_arg (cfg : ServerConfig) : string :=
  "-Port=" +:+ Py.str_of_int (port cfg).

Definition build_command (resolved : option string) (cfg : ServerConfig)
  : option (list string) :=
  let exe := match resolved with
             | Some e => if Py.truthy e then e else engine_path cfg
             | None => engine_path cfg
             end in
  let cmd := [exe] in
  let cmd := if Py.truthy (project_path cfg) then cmd ++ [project_path cfg] else cmd in
  let cmd := cmd ++ fixed_flags in
  match (if no_port_override cfg
         then match Py.str (port cfg) with
              | Some text => Some (cmd ++ ["-Port=" +:+ text])
              | None => None
              end
         else Some cmd) with
  | None => None
  | Some cmd =>
      if Py.truthy (Py.strip (custom_params cfg)) then
        match Shlex.split (custom_params cfg) with
        | Some toks => Some (cmd ++ toks)
        | None => None
        end
      else Some cmd
  end.

(** The number a string of digits denotes. *)
Definition decimal (s : string) : Z :=
  match NilEmpty.uint_of_string s with
  | Some d => Z.of_uint d
  | None => 0
  end.

(** The port option a command carries: the options are what follows the
    executable and the project path; the first option, in order, in
    which the port pattern occurs gives the port. *)
Fixpoint first_port (args : list string) : option Z :=
  match args with
  | [] => None
  | a :: rest =>
      match Re.search a with
      | Some g => Some (decimal g)
      | None => first_port rest
      end
  end.

Definition command_options (cfg : ServerConfig) (cmd : list string) : list string :=
  skipn (if Py.truthy (project_path cfg) then 2 else 1)%nat cmd.

Definition command_port (cfg : ServerConfig) (cmd : list string) : option Z :=
  first_port (command_options cfg cmd).

(** A configuration as the add form creates it, for the scenarios. *)
Definition cfg_demo (p : Z) (custom : string) : ServerConfig :=
  {| name := "Server 1"; engine_path := "C:\UE\UnrealEditor.exe";
     project_path := "C:\Game\Game.uproject"; port := p;
     custom_params := custom; id := "a1" |}.


(** ** main_window.py: the background threads *)

(** The handle returned by [psutil.Popen]: identified by its pid. *)
Record Popen := { pid : Z }.

(** *** [LogReaderThread.run]

    One step of [for line in self.popen.stdout]: the iterator yields a
    line, observed together with the value [self._stop.is_set()] has when
    the loop body tests it, or the read raises.  The end of the list is
    the end of the stream. *)
Inductive read_step :=
| Yield (line : string) (stop_is_set : bool)
| ReadRaises.

(** What the thread sees of its [popen]: the [stdout] attribute ([None]
    when no stream is attached) and the outcome of [popen.wait()]
    ([None] when it raises). *)
Record ReaderEnv := {
  re_stdout : option (list read_step);
  re_wait : option Z
}.

(** The two Qt signals of the thread: [line_received = Signal(str, str)]
    and [process_finished = Signal(str, int)]. *)
Inductive reader_signal :=
| line_received (server_id line : string)
| process_finished (server_id : string) (rc : Z).

(** The [int] of a signal's signature is a C [int]: of the value emitted,
    the low 32 bits arrive, read in two's complement.  ([popen.wait()]
    returns an exit status of the operating system: on Windows the
    unsigned 32-bit code of the process, elsewhere its status byte or the
    negated number of the signal that ended it.) *)
Definition c_int (n : Z) : Z := (n + 2 ^ 31) mod 2 ^ 32 - 2 ^ 31.

(** The [for] loop: the signals emitted and whether an exception left it. *)
Fixpoint read_loop (server_id : string) (steps : list read_step)
  : list reader_signal * bool :=
  match steps with
  | [] => ([], false)
  | ReadRaises :: _ => ([], true)
  | Yield line stop_is_set :: rest =>
      if stop_is_set then ([], false)
      else let '(out, raised) := read_loop server_id rest in
           (line_received server_id line :: out, raised)
  end.

(** [run]: the body of the [try], then the [finally] block; the boolean
    tells whether an exception propagates out of [run]. *)
Definition LogReaderThread_run (server_id : string) (env : ReaderEnv)
  : list reader_signal * bool :=
  let '(out, raised) :=
    match re_stdout env with
    | None => ([], false)
    | Some steps => read_loop server_id steps
    end in
  let rc := match re_wait env with Some rc => rc | None => -1 end in
  (out ++ [process_finished server_id (c_int rc)], raised).

(** The lines a stream yields, in arrival order. *)
Fixpoint yielded (steps : list read_step) : list string :=
  match steps with
  | [] => []
  | ReadRaises :: _ => []
  | Yield line _ :: rest => line :: yielded rest
  end.

Definition is_finished (s : reader_signal) : bool :=
  match s with process_finished _ _ => true | line_received _ _ => false end.

(** *** [StopWorker.run]

    Every call on the process handle is recorded, with the outcome the
    operating system gives it. *)
Inductive action :=
| SendCtrlBreak            (* process.send_signal(signal.CTRL_BREAK_EVENT) *)
| Wait (timeout : Z)       (* process.wait(timeout=...) *)
| IsRunning                (* process.is_running() *)
| Terminate                (* process.terminate() *)
| Kill                     (* process.kill() *)
| CloseStdout              (* process.stdout.close() *)
| EmitDone (server_id : string).  (* self.done.emit(server_id) *)

Record WorkerEnv := {
  we_win : bool;               (* sys.platform.startswith("win") *)
  we_raises : action -> bool;  (* the call raises *)
  we_alive : bool;             (* value of is_running() when it returns *)
  we_stdout : bool             (* process.stdout is not None *)
}.

(** A computation of the worker: the calls made, and the value returned
    unless an exception was raised. *)
Definition W (A : Type) : Type := WorkerEnv -> list action * option A.

Definition wret {A} (a : A) : W A := fun _ => ([], Some a).

Definition wbind {A B} (m : W A) (k : A -> W B) : W B :=
  fun env =>
    match m env with
    | (t, Some a) => let '(t', r) := k a env in (t ++ t', r)
    | (t, None) => (t, None)
    end.

Notation "x <- m ;;; k" := (wbind m (fun x => k))
  (at level 100, m at level 99, right associativity).
Notation "m ;;; k" := (wbind m (fun _ => k))
  (at level 100, right associativity).

(** A call on the handle with no interesting result. *)
Definition call (a : action) : W unit :=
  fun env => ([a], if we_raises env a then None else Some tt).

Definition ask {A} (f : WorkerEnv -> A) : W A := fun env => ([], Some (f env)).

(** [try: body / except Exception: handler] *)
Definition try_except {A} (body handler : W A) : W A :=
  fun env =>
    match body env with
    | (t, Some a) => (t, Some a)
    | (t, None) => let '(t', r) := handler env in (t ++ t', r)
    end.

(** [try: body / finally: fin] *)
Definition try_finally {A} (body : W A) (fin : W unit) : W A :=
  fun env =>
    let '(t, r) := body env in
    match fin env with
    | (t', Some _) => (t ++ t', r)
    | (t', None) => (t ++ t', None)
    end.

Definition when (b : bool) (m : W unit) : W unit := if b then m else wret tt.

Definition pass : W unit := wret tt.

Definition is_running : W bool :=
  call IsRunning ;;; ask we_alive.

Definition StopWorker_run (server_id : string) : W unit :=
  try_finally
    ( win <- ask we_win ;;;
      when win (try_except (call SendCtrlBreak ;;; call (Wait 7)) pass) ;;;
      alive <- is_running ;;;
      when alive
        (try_except (call Terminate ;;; call (Wait 5))
                    (try_except (call Kill) pass)) ;;;
      try_except (out <- ask we_stdout ;;; when out (call CloseStdout)) pass )
    (fun _ => ([EmitDone server_id], Some tt)).

(** The order in which the worker may touch the process. *)
Definition escalation (server_id : string) : list action :=
  [SendCtrlBreak; Wait 7; IsRunning; Terminate; Wait 5; Kill; CloseStdout;
   EmitDone server_id].

Definition is_tier (a : action) : bool :=
  match a with SendCtrlBreak | Terminate | Kill => true | _ => false end.

Definition is_done (a : action) : bool :=
  match a with EmitDone _ => true | _ => false end.

(** Every tier action of a trace is preceded by a liveness probe made
    after the previous tier action. *)
Fixpoint probed_before_each_tier (probed : bool) (t : list action) : bool :=
  match t with
  | [] => true
  | IsRunning :: r => probed_before_each_tier true r
  | a :: r =>
      if is_tier a then probed && probed_before_each_tier false r
      else probed_before_each_tier probed r
  end.

(** ** main_window.py: the supervisor *)

Definition float : Set := PrimFloat.float.

(** The [LogReaderThread] object a runtime points to; [reader.stop()] sets
    its event, which the runtime's reference then shows. *)
Record LogReaderThread := {
  r_server_id : string;
  r_popen : Popen;
  r_stop : bool
}.

(** [psutil.Process(pid)] *)
Record PsProcess := { ps_pid : Z }.

(** [ServerRuntime] of core.py. *)
Record ServerRuntime := {
  config : ServerConfig;
  process : option Popen;
  ps : option PsProcess;
  reader : option LogReaderThread;
  state : string;
  private_ip : string;
  public_ip : string;
  cpu_percent : float;
  mem_mb : float;
  log_lines : list string;
  last_started_ts : float
}.

(** [ServerRuntime(config=cfg)]: the dataclass defaults. *)
Definition new_runtime (cfg : ServerConfig) : ServerRuntime :=
  {| config := cfg; process := None; ps := None; reader := None;
     state := "Offline"; private_ip := "Unknown"; public_ip := "Unknown";
     cpu_percent := PrimFloat.zero; mem_mb := PrimFloat.zero;
     log_lines := []; last_started_ts := PrimFloat.zero |}.

Definition set_process (v : option Popen) (r : ServerRuntime) : ServerRuntime :=
  {| config := config r; process := v; ps := ps r; reader := reader r;
     state := state r; private_ip := private_ip r; public_ip := public_ip r;
     cpu_percent := cpu_percent r; mem_mb := mem_mb r;
     log_lines := log_lines r; last_started_ts := last_started_ts r |}.

Definition set_ps (v : option PsProcess) (r : ServerRuntime) : ServerRuntime :=
  {| config := config r; process := process r; ps := v; reader := reader r;
     state := state r; private_ip := private_ip r; public_ip := public_ip r;
     cpu_percent := cpu_percent r; mem_mb := mem_mb r;
     log_lines := log_lines r; last_started_ts := last_started_ts r |}.

Definition set_reader (v : option LogReaderThread) (r : ServerRuntime) : ServerRuntime :=
  {| config := config r; process := process r; ps := ps r; reader := v;
     state := state r; private_ip := private_ip r; public_ip := public_ip r;
     cpu_percent := cpu_percent r; mem_mb := mem_mb r;
     log_lines := log_lines r; last_started_ts := last_started_ts r |}.

Definition set_state (v : string) (r : ServerRuntime) : ServerRuntime :=
  {| config := config r; process := process r; ps := ps r; reader := reader r;
     state := v; private_ip := private_ip r; public_ip := public_ip r;
     cpu_percent := cpu_percent r; mem_mb := mem_mb r;
     log_lines := log_lines r; last_started_ts := last_started_ts r |}.

Definition set_private_ip (v : string) (r : ServerRuntime) : ServerRuntime :=
  {| config := config r; process := process r; ps := ps r; reader := reader r;
     state := state r; private_ip := v; public_ip := public_ip r;
     cpu_percent := cpu_percent r; mem_mb := mem_mb r;
     log_lines := log_lines r; last_started_ts := last_started_ts r |}.

Definition set_public_ip (v : string) (r : ServerRuntime) : ServerRuntime :=
  {| config := config r; process := process r; ps := ps r; reader := reader r;
     state := state r; private_ip := private_ip r; public_ip := v;
     cpu_percent := cpu_percent r; mem_mb := mem_mb r;
     log_lines := log_lines r; last_started_ts := last_started_ts r |}.

Definition set_cpu_percent (v : float) (r : ServerRuntime) : ServerRuntime :=
  {| config := config r; process := process r; ps := ps r; reader := reader r;
     state := state r; private_ip := private_ip r; public_ip := public_ip r;
     cpu_percent := v; mem_mb := mem_mb r;
     log_lines := log_lines r; last_started_ts := last_started_ts r |}.

Definition set_mem_mb (v : float) (r : ServerRuntime) : ServerRuntime :=
  {| config := config r; process := process r; ps := ps r; reader := reader r;
     state := state r; private_ip := private_ip r; public_ip := public_ip r;
     cpu_percent := cpu_percent r; mem_mb := v;
     log_lines := log_lines r; last_started_ts := last_started_ts r |}.

Definition set_last_started_ts (v : float) (r : ServerRuntime) : ServerRuntime :=
  {| config := config r; process := process r; ps := ps r; reader := reader r;
     state := state r; private_ip := private_ip r; public_ip := public_ip r;
     cpu_percent := cpu_percent r; mem_mb := mem_mb r;
     log_lines := log_lines r; last_started_ts := v |}.

(** [srv.append_log(text)] with the default [max_lines]. *)
Definition runtime_append_log (text : string) (r : ServerRuntime) : ServerRuntime :=
  {| config := config r; process := process r; ps := ps r; reader := reader r;
     state := state r; private_ip := private_ip r; public_ip := public_ip r;
     cpu_percent := cpu_percent r; mem_mb := mem_mb r;
     log_lines := append_log text default_max_lines (log_lines r);
     last_started_ts := last_started_ts r |}.

(** The only [on_done] callback the window ever passes: the closure
    [really_delete] of [_delete_server], which captures the server id.
    It is kept together with what the table answers when the closure
    runs: [table.removeRow] may move the selection to another row, whose
    [itemSelectionChanged] signal calls [_on_row_selected];
    [reselected] is the server id of the row that slot then finds
    selected, [None] when the slot is not called or finds no selected
    item. *)
Inductive callback :=
| really_delete (server_id : string) (reselected : option string).

(** A [StopWorker] thread, with the [on_done] its [done] signal was
    connected with. *)
Record StopWorker := {
  w_server_id : string;
  w_process : Popen;
  w_on_done : option callback
}.

(** The part of [MainWindow] the lifecycle slots read and write.  The
    widgets are left out, and the calls that only bring them up to date
    ([_update_row], [_refresh_log_view], the texts of the buttons) are
    taken to return.  [_update_row] writes [effective_port] of the
    configuration into the cells of the row, so it returns whenever
    [effective_port] and the printing of its result do: the slots are
    modelled for that case. *)
Record MainWindow := {
  servers : gmap string ServerRuntime;
  stop_workers : gmap string StopWorker;
  active_server_id : option string;
  is_closing : bool
}.

Definition set_servers (v : gmap string ServerRuntime) (w : MainWindow) : MainWindow :=
  {| servers := v; stop_workers := stop_workers w;
     active_server_id := active_server_id w; is_closing := is_closing w |}.

Definition set_stop_workers (v : gmap string StopWorker) (w : MainWindow) : MainWindow :=
  {| servers := servers w; stop_workers := v;
     active_server_id := active_server_id w; is_closing := is_closing w |}.

Definition set_active_server_id (v : option string) (w : MainWindow) : MainWindow :=
  {| servers := servers w; stop_workers := stop_workers w; active_server_id := v;
     is_closing := is_closing w |}.

(** [self.servers[server_id] = srv], for the in-place updates of a
    runtime object found under [server_id]. *)
Definition put (server_id : string) (srv : ServerRuntime) (w : MainWindow) : MainWindow :=
  set_servers (<[server_id := srv]> (servers w)) w.

(** What a slot sets in motion outside the window's own fields. *)
Inductive effect :=
| MsgCritical (title : string)
| ThreadResolvePublicIp (server_id : string)
| AskPortInUse (eport : Z)
| SpawnProcess (cmd : list string)
| ReaderStart (server_id : string) (popen : Popen)
| ReaderStop (server_id : string)
| WorkerStart (server_id : string) (popen : Popen).

(** What the world answers during one call of [_start_server]. *)
Record StartEnv := {
  se_is_running : bool;            (* srv.process.is_running() *)
  se_resolved : option string;     (* resolve_engine_executable(engine_path) *)
  se_exists : bool;                (* os.path.exists(exe_path) *)
  se_private_ip : string;          (* get_private_ip() *)
  se_port_in_use : option bool;    (* port_in_use(eport); None: it raises *)
  se_answer_yes : bool;            (* the answer to the question box *)
  se_popen : option Popen;         (* psutil.Popen(...); None: it raises *)
  se_ps : option PsProcess;        (* psutil.Process(popen.pid); None: it raises *)
  se_now : float                   (* time.time() *)
}.

(** [' '.join(cmd)] *)
Definition join_space (cmd : list string) : string := String.concat " " cmd.

Definition newline : string := String "010" EmptyString.

Definition started_line (cmd : list string) : string :=
  newline +:+ "[Manager] Started: " +:+ join_space cmd +:+ newline.

Definition exited_line (rc : Z) : string :=
  newline +:+ "[Manager] Process exited with code " +:+ Py.str_of_int rc +:+ newline.

(** [_start_server]

    The slot is left where a call raises: [effective_port] on a port
    option of more than 4300 digits, [port_in_use], the f-string of the
    question box on a port that cannot be printed, [build_command], and
    [psutil.Process]; a failing [psutil.Popen] is reported in a message
    box. *)
Definition _start_server (env : StartEnv) (server_id : string) (w : MainWindow)
  : MainWindow * list effect :=
  match servers w !! server_id with
  | None => (w, [])
  | Some srv =>
      if match process srv with Some _ => se_is_running env | None => false end
      then (w, [])
      else
        let exe_ok := match se_resolved env with
                      | Some e => Py.truthy e && se_exists env
                      | None => false
                      end in
        if negb exe_ok then (w, [MsgCritical "Engine Executable Not Found"])
        else
          let srv := set_private_ip (se_private_ip env) srv in
          let w := put server_id srv w in
          let eff := [ThreadResolvePublicIp server_id] in
          match effective_port (config srv) with
          | None => (w, eff)
          | Some eport =>
              match se_port_in_use env with
              | None => (w, eff)
              | Some busy =>
                  match (if busy then Py.str eport else Some EmptyString) with
                  | None => (w, eff)
                  | Some _ =>
                      let eff := if busy then eff ++ [AskPortInUse eport] else eff in
                      if busy && negb (se_answer_yes env) then (w, eff)
                      else
                        match build_command (se_resolved env) (config srv) with
                        | None => (w, eff)
                        | Some cmd =>
                            let eff := eff ++ [SpawnProcess cmd] in
                            match se_popen env with
                            | None => (w, eff ++ [MsgCritical "Failed to Start"])
                            | Some popen =>
                                let srv := set_process (Some popen) srv in
                                match se_ps env with
                                | None => (put server_id srv w, eff)
                                | Some p =>
                                    let srv := set_ps (Some p) srv in
                                    let srv := set_state "Starting" srv in
                                    let srv := runtime_append_log (started_line cmd) srv in
                                    let srv := set_last_started_ts (se_now env) srv in
                                    let w := set_active_server_id (Some server_id) w in
                                    let rd := {| r_server_id := server_id; r_popen := popen;
                                                 r_stop := false |} in
                                    let srv := set_reader (Some rd) srv in
                                    (put server_id srv w,
                                     eff ++ [ReaderStart server_id popen])
                                end
                            end
                        end
                  end
              end
          end
  end.

(** [_set_active_server] *)
Definition _set_active_server (server_id : option string) (w : MainWindow) : MainWindow :=
  set_active_server_id server_id w.

(** [_on_row_selected]: [selected] is the server id of the first selected
    item's row, [None] when nothing is selected or the row has no item. *)
Definition _on_row_selected (selected : option string) (w : MainWindow) : MainWindow :=
  match selected with
  | Some sid => _set_active_server (Some sid) w
  | None => w
  end.

(** [really_delete] and the call [on_done()] when [on_done] is set: the
    row is removed, which may select another row, then the server is
    popped and the active id compared. *)
Definition run_callback (cb : callback) (w : MainWindow) : MainWindow :=
  match cb with
  | really_delete server_id reselected =>
      let w := _on_row_selected reselected w in
      let w := set_servers (delete server_id (servers w)) w in
      if decide (active_server_id w = Some server_id)
      then set_active_server_id None w else w
  end.

Definition call_on_done (on_done : option callback) (w : MainWindow) : MainWindow :=
  match on_done with
  | Some cb => run_callback cb w
  | None => w
  end.

(** [_stop_finalize] *)
Definition _stop_finalize (server_id : string) (on_done : option callback)
  (w : MainWindow) : MainWindow :=
  let w := set_stop_workers (delete server_id (stop_workers w)) w in
  match servers w !! server_id with
  | None => call_on_done on_done w
  | Some srv =>
      let srv := set_state "Stopped" srv in
      let srv := set_process None srv in
      let srv := set_ps None srv in
      let srv := set_cpu_percent PrimFloat.zero srv in
      let srv := set_mem_mb PrimFloat.zero srv in
      call_on_done on_done (put server_id srv w)
  end.

(** [_stop_server] *)
Definition _stop_server (server_id : string) (on_done : option callback)
  (w : MainWindow) : MainWindow * list effect :=
  match servers w !! server_id with
  | None => (w, [])
  | Some srv =>
      let srv := set_state "Stopping" srv in
      let '(srv, eff) :=
        match reader srv with
        | Some rd =>
            (set_reader (Some {| r_server_id := r_server_id rd;
                                 r_popen := r_popen rd; r_stop := true |}) srv,
             [ReaderStop server_id])
        | None => (srv, [])
        end in
      let w := put server_id srv w in
      match process srv with
      | None => (_stop_finalize server_id on_done w, eff)
      | Some p =>
          let worker := {| w_server_id := server_id; w_process := p;
                           w_on_done := on_done |} in
          (set_stop_workers (<[server_id := worker]> (stop_workers w)) w,
           eff ++ [WorkerStart server_id p])
      end
  end.

(** [_reader_gone] *)
Definition _reader_gone (server_id : string) (w : MainWindow) : MainWindow :=
  match servers w !! server_id with
  | None => w
  | Some srv =>
      match reader srv with
      | Some _ => put server_id (set_reader None srv) w
      | None => w
      end
  end.

(** [_on_log_line] *)
Definition _on_log_line (server_id line : string) (w : MainWindow) : MainWindow :=
  match servers w !! server_id with
  | None => w
  | Some srv =>
      let srv := if String.eqb (state srv) "Starting"
                 then set_state "Running" srv else srv in
      put server_id (runtime_append_log line srv) w
  end.

(** [_on_process_finished]

    The state is set before the line is formatted: when the f-string
    raises, on an [rc] that cannot be printed, the slot is left with the
    state set and nothing appended. *)
Definition _on_process_finished (server_id : string) (rc : Z) (w : MainWindow)
  : MainWindow :=
  match servers w !! server_id with
  | None => w
  | Some srv =>
      let srv := set_state "Stopped" srv in
      match Py.str rc with
      | Some _ => put server_id (runtime_append_log (exited_line rc) srv) w
      | None => put server_id srv w
      end
  end.

(** What one tick of the metrics timer reads for one server:
    [srv.ps.is_running()], and the two samples ([None]: the call raises). *)
Record Sample := {
  sm_is_running : bool;
  sm_cpu : option float;     (* ps.cpu_percent(...) / max(1, cpu_count) *)
  sm_mem : option float      (* ps.memory_info().rss / (1024 * 1024) *)
}.

(** The body of the loop of [_refresh_metrics] for one server. *)
Definition refresh_one (sm : Sample) (srv : ServerRuntime) : ServerRuntime :=
  if match ps srv with Some _ => sm_is_running sm | None => false end
     && String.eqb (state srv) "Running"
  then
    match sm_cpu sm with
    | None => srv
    | Some c =>
        let srv := set_cpu_percent c srv in
        match sm_mem sm with
        | None => srv
        | Some m => set_mem_mb m srv
        end
    end
  else if negb (String.eqb (state srv) "Running")
  then set_mem_mb PrimFloat.zero (set_cpu_percent PrimFloat.zero srv)
  else srv.

(** [_refresh_metrics] *)
Definition _refresh_metrics (samples : string -> Sample) (w : MainWindow) : MainWindow :=
  if is_closing w then w
  else set_servers (map_imap (fun sid srv => Some (refresh_one (samples sid) srv))
                             (servers w)) w.

(** [_restore_saved_servers]: one fresh runtime per saved configuration. *)
Definition restore_one (ip : string) (w : MainWindow) (cfg : ServerConfig) : MainWindow :=
  put (id cfg) (set_private_ip ip (new_runtime cfg)) w.

Definition empty_window : MainWindow :=
  {| servers := ∅; stop_workers := ∅; active_server_id := None;
     is_closing := false |}.

Definition _restore_saved_servers (ip : string) (cfgs : list ServerConfig) : MainWindow :=
  fold_left (restore_one ip) cfgs empty_window.

(** The operations of the supervisor, as events on the window. *)
Inductive operation :=
| OpStart (env : StartEnv) (server_id : string)
| OpStop (server_id : string) (on_done : option callback)
| OpFinalize (server_id : string) (on_done : option callback)
| OpLogLine (server_id line : string)
| OpProcessFinished (server_id : string) (rc : Z)
| OpReaderGone (server_id : string)
| OpRefreshMetrics (samples : string -> Sample).

Definition step (op : operation) (w : MainWindow) : MainWindow :=
  match op with
  | OpStart env sid => fst (_start_server env sid w)
  | OpStop sid cb => fst (_stop_server sid cb w)
  | OpFinalize sid cb => _stop_finalize sid cb w
  | OpLogLine sid line => _on_log_line sid line w
  | OpProcessFinished sid rc => _on_process_finished sid rc w
  | OpReaderGone sid => _reader_gone sid w
  | OpRefreshMetrics samples => _refresh_metrics samples w
  end.

Definition run_ops (ops : list operation) (w : MainWindow) : MainWindow :=
  fold_left (fun w op => step op w) ops w.

(** The lifecycle states that belong to a live process. *)
Definition is_active (st : string) : bool :=
  String.eqb st "Starting" || String.eqb st "Running" || String.eqb st "Stopping".

(** The invariant of the data model, as a test on one runtime. *)
Definition handle_matches_state (srv : ServerRuntime) : bool :=
  Bool.eqb (is_active (state srv)) (bool_decide (process srv <> None)).

(** ** Vocabulary of the statements *)

(** *** Log lines *)

(** The markers [classify_log_line] looks for, on the lowered line. *)
Definition error_marker (line : string) : bool :=
  let low := Py.lower line in
  Py.contains ": error:" low || Py.contains " error: " low || Py.startswith "error:" low.

Definition warning_marker (line : string) : bool :=
  let low := Py.lower line in
  Py.contains ": warning:" low || Py.contains " warning: " low
  || Py.startswith "warning:" low.

(** [p] occurs somewhere in [s]; [s] begins with [p]. *)
Definition occurs_in (p s : string) : Prop := exists pre post, s = pre +:+ p +:+ post.
Definition begins_with (p s : string) : Prop := exists post, s = p +:+ post.

(** A line names an error when, letter case apart, it holds [: error:]
    or [ error: ] or begins with [error:]; likewise for a warning. *)
Definition names_error (line : string) : Prop :=
  let low := Py.lower line in
  occurs_in ": error:" low \/ occurs_in " error: " low \/ begins_with "error:" low.

Definition names_warning (line : string) : Prop :=
  let low := Py.lower line in
  occurs_in ": warning:" low \/ occurs_in " warning: " low \/ begins_with "warning:" low.

(** *** The port pattern in a text *)

(** The pattern matches at no offset inside [pre] when [pre] is followed
    by [rest]. *)
Fixpoint unmatched (pre rest : string) : bool :=
  match pre with
  | EmptyString => true
  | String _ p =>
      match Re.match_here (pre +:+ rest) with
      | Some _ => false
      | None => unmatched p rest
      end
  end.

(** [s] begins with a digit. *)
Definition digit_head (s : string) : bool :=
  match s with
  | EmptyString => false
  | String c _ => Py.is_digit c
  end.

(** Every character of [s] is a digit. *)
Fixpoint all_digits (s : string) : bool :=
  match s with
  | EmptyString => true
  | String c r => Py.is_digit c && all_digits r
  end.

(** [key] is [Port] or [NetPort] in some letter case. *)
Definition is_port_key (key : string) : bool :=
  String.eqb (Py.lower key) "port" || String.eqb (Py.lower key) "netport".

(** The option [-key=N] as it is written in the custom parameters. *)
Definition port_option (key : string) (n : Z) : string :=
  "-" +:+ key +:+ "=" +:+ Py.str_of_int n.

(** [w] is, as a whole, an option [-Port=N] or [-NetPort=N] in some
    letter case. *)
Definition is_port_option (w : string) : bool :=
  match Re.match_here w with
  | Some g =>
      String.eqb (Py.lower w) ("-port=" +:+ g)
      || String.eqb (Py.lower w) ("-netport=" +:+ g)
  | None => false
  end.

(** [str] converts the configured port: it has at most 4300 digits. *)
Definition port_prints (cfg : ServerConfig) : bool :=
  match Py.str (port cfg) with
  | Some _ => true
  | None => false
  end.

(** A number of 4301 digits, one more than [int] converts, and a port
    option with it. *)
Definition long_digits : string :=
  string_of_list_ascii (repeat "9"%char (Z.to_nat 4301)).

Definition long_port_option : string := "-Port=" +:+ long_digits.

(** The least port that [str] does not convert. *)
Definition huge_port : Z := Py.str_bound.

(** No character of the literal [p] matches [c]. *)
Fixpoint avoids (c : ascii) (p : string) : bool :=
  match p with
  | EmptyString => true
  | String a p' => negb (Re.ieq a c) && avoids c p'
  end.

(** *** The command line *)

(** No character of [s] is a quote or the escape of the shell syntax. *)
Fixpoint plain (s : string) : bool :=
  match s with
  | EmptyString => true
  | String c r => negb (Shlex.is_quote c) && negb (Shlex.is_escape c) && plain r
  end.

(** The maximal runs of non-blank characters of [s], in order; [tok] is
    the run being read. *)
Fixpoint words_from (tok : string) (s : string) : list string :=
  match s with
  | EmptyString => if Py.truthy tok then [tok] else []
  | String c r =>
      if Shlex.is_whitespace c
      then (if Py.truthy tok then tok :: words_from EmptyString r
            else words_from EmptyString r)
      else words_from (Shlex.snoc tok c) r
  end.

Definition words (s : string) : list string := words_from EmptyString s.

(** The executable a command starts with. *)
Definition command_exe (resolved : option string) (cfg : ServerConfig) : string :=
  match resolved with
  | Some e => if Py.truthy e then e else engine_path cfg
  | None => engine_path cfg
  end.

(** The custom parameters as [build_command] tokenises them. *)
Definition custom_tokens (cfg : ServerConfig) : option (list string) :=
  if Py.truthy (Py.strip (custom_params cfg))
  then Shlex.split (custom_params cfg)
  else Some [].

(** An option that names the port: its lowered text contains [-port=]
    or [-netport=], the test of [build_command]. *)
Definition has_port_key (o : string) : bool :=
  Py.contains "-port=" (Py.lower o) || Py.contains "-netport=" (Py.lower o).

(** [first_port], before the conversion of the digits. *)
Fixpoint first_match (args : list string) : option string :=
  match args with
  | [] => None
  | a :: rest =>
      match Re.search a with
      | Some g => Some g
      | None => first_match rest
      end
  end.

(** The double quote, and custom parameters that quote the number of a
    first port option and add a second, plain one. *)
Definition dquote : string := String "034" EmptyString.

Definition quoted_then_plain : string :=
  "-Port=" +:+ dquote +:+ "1" +:+ dquote +:+ " -Port=9000".

(** *** The threads *)

(** The lines of the stream a reader is attached to; none when no
    stream is attached. *)
Definition stream_lines (env : ReaderEnv) : list string :=
  match re_stdout env with
  | Some steps => yielded steps
  | None => []
  end.

(** The exit code [run] obtains: the result of [wait], or [-1]. *)
Definition exit_code (env : ReaderEnv) : Z :=
  match re_wait env with
  | Some rc => rc
  | None => -1
  end.

(** A step at which the loop goes on: a line is read and no stop request
    is seen. *)
Definition undisturbed (st : read_step) : Prop := exists line, st = Yield line false.

(** The loop ends at the head of [rest]: the stream is at its end, the
    stop request is seen, or the read raises. *)
Definition loop_ends (rest : list read_step) : Prop :=
  match rest with
  | [] => True
  | Yield _ stop_is_set :: _ => stop_is_set = true
  | ReadRaises :: _ => True
  end.

(** The loop ends with an exception. *)
Definition read_fails (rest : list read_step) : bool :=
  match rest with
  | ReadRaises :: _ => true
  | _ => false
  end.

(** A stream on which the stop request is noticed at the third line. *)
Definition stopped_stream : list read_step :=
  [Yield "one" false; Yield "two" false; Yield "three" true; Yield "four" false].

(** The exit code of a Windows process ended by an access violation
    ([0xC0000005]). *)
Definition access_violation : Z := 3221225477.

(** [is_running()] has returned [True]. *)
Definition seen_alive (env : WorkerEnv) : bool :=
  negb (we_raises env IsRunning) && we_alive env.

(** A Windows host on which the process is already gone when the worker
    starts: the signal cannot be delivered. *)
Definition env_gone_on_windows : WorkerEnv :=
  {| we_win := true;
     we_raises := fun a => match a with SendCtrlBreak => true | _ => false end;
     we_alive := false;
     we_stdout := true |}.

(** A Windows host and a process that ignores every polite request:
    both bounded waits time out. *)
Definition env_stubborn : WorkerEnv :=
  {| we_win := true;
     we_raises := fun a => match a with Wait _ => true | _ => false end;
     we_alive := true;
     we_stdout := true |}.

(** *** The supervisor, one runtime at a time *)

(** [reader.stop()] as seen through the runtime's reference. *)
Definition flag_reader (srv : ServerRuntime) : ServerRuntime :=
  match reader srv with
  | Some rd => set_reader (Some {| r_server_id := r_server_id rd;
                                   r_popen := r_popen rd; r_stop := true |}) srv
  | None => srv
  end.

(** The last loop of [_shutdown_all_servers]: the reader of every server
    is stopped, waited for and dropped. *)
Definition drop_reader (srv : ServerRuntime) : ServerRuntime :=
  match reader srv with
  | Some _ => set_reader None srv
  | None => srv
  end.

(** The five assignments of [_stop_finalize]. *)
Definition finalized (srv : ServerRuntime) : ServerRuntime :=
  set_mem_mb PrimFloat.zero
    (set_cpu_percent PrimFloat.zero
       (set_ps None (set_process None (set_state "Stopped" srv)))).

(** Every way in which a slot rewrites the runtime it was called for. *)
Inductive srv_step : ServerRuntime -> ServerRuntime -> Prop :=
| ss_ip ip srv :
    srv_step srv (set_private_ip ip srv)
| ss_popen ip popen srv :
    srv_step srv (set_process (Some popen) (set_private_ip ip srv))
| ss_started ip popen p line now rd srv :
    srv_step srv
      (set_reader (Some rd)
         (set_last_started_ts now
            (runtime_append_log line
               (set_state "Starting"
                  (set_ps (Some p)
                     (set_process (Some popen) (set_private_ip ip srv)))))))
| ss_stopping srv :
    process srv <> None ->
    srv_step srv (flag_reader (set_state "Stopping" srv))
| ss_stop_now srv :
    srv_step srv (finalized (flag_reader (set_state "Stopping" srv)))
| ss_finalized srv :
    srv_step srv (finalized srv)
| ss_line line srv :
    srv_step srv
      (runtime_append_log line
         (if String.eqb (state srv) "Starting" then set_state "Running" srv else srv))
| ss_exited rc srv :
    srv_step srv (runtime_append_log (exited_line rc) (set_state "Stopped" srv))
| ss_exited_unprinted srv :
    srv_step srv (set_state "Stopped" srv)
| ss_reader_gone srv :
    srv_step srv (set_reader None srv)
| ss_refresh sm srv :
    srv_step srv (refresh_one sm srv)
| ss_public_ip ip srv :
    srv_step srv (set_public_ip ip srv)
| ss_reader_flagged srv :
    srv_step srv (flag_reader srv)
| ss_reader_dropped srv :
    srv_step srv (drop_reader srv).

(** A runtime as [_restore_saved_servers] and [_add_server] file it:
    new, with the private address set. *)
Definition fresh_runtime (sid : string) (srv : ServerRuntime) : Prop :=
  exists ip cfg, srv = set_private_ip ip (new_runtime cfg) /\ id cfg = sid.

(** Every runtime of [w'] is a runtime of [w] under the same id, or a
    fresh one, rewritten by the slots any number of times. *)
Definition evolved (w w' : MainWindow) : Prop :=
  forall sid srv',
    servers w' !! sid = Some srv' ->
    exists srv,
      (servers w !! sid = Some srv \/ fresh_runtime sid srv) /\
      rtc srv_step srv srv'.


(** The projection of a runtime under test. *)
Definition field {A} (f : ServerRuntime -> A) (sid : string) (w : MainWindow)
  : option A :=
  f <$> servers w !! sid.

(** *** A scenario: one saved server *)

(** The saved configuration; the server is started on a free port. *)
Definition demo_cfg : ServerConfig := cfg_demo 7777 "".

Definition demo_window : MainWindow :=
  _restore_saved_servers "192.168.1.20" [demo_cfg].

Definition demo_popen : Popen := {| pid := 4242 |}.

Definition demo_env (running : bool) : StartEnv :=
  {| se_is_running := running;
     se_resolved := Some "C:\UE\UnrealEditor.exe";
     se_exists := true;
     se_private_ip := "192.168.1.20";
     se_port_in_use := Some false;
     se_answer_yes := false;
     se_popen := Some demo_popen;
     se_ps := Some {| ps_pid := 4242 |};
     se_now := PrimFloat.one |}.

(** One tick of the metrics timer that reads the same sample for every
    server. *)
Definition demo_samples (cpu mem : float) : string -> Sample :=
  fun _ => {| sm_is_running := true; sm_cpu := Some cpu; sm_mem := Some mem |}.

(** The server started, its first output line seen, one metrics tick
    taken: the server is [Running]. *)
Definition demo_running : MainWindow :=
  run_ops [OpStart (demo_env false) "a1";
           OpLogLine "a1" "LogInit: Display: Starting Game.";
           OpRefreshMetrics (demo_samples PrimFloat.one PrimFloat.two)]
          demo_window.

(** The server exits before it prints anything. *)
Definition demo_early_exit : MainWindow :=
  run_ops [OpStart (demo_env false) "a1"; OpProcessFinished "a1" 1] demo_window.

(** ** core.py and main_window.py: the remaining helpers and slots *)

(** *** [get_private_ip]

    [addrs] is what [socket.getaddrinfo(hostname, None, AF_INET)] returns,
    reduced to the address string [sockaddr[0]] of each entry; [None]
    when the lookup raises. *)
Fixpoint first_non_loopback (addrs : list string) : option string :=
  match addrs with
  | [] => None
  | a :: rest => if negb (Py.startswith "127." a) then Some a else first_non_loopback rest
  end.

Definition get_private_ip (addrs : option (list string)) : string :=
  match addrs with
  | Some l =>
      match first_non_loopback l with
      | Some a => a
      | None => "127.0.0.1"
      end
  | None => "127.0.0.1"
  end.

(** *** [int(text)] of a [str], as [_add_server] uses it

    Blanks around the number are skipped; then an optional sign and
    decimal digits, where single underscores may separate digits; a
    numeral of more than 4300 digits is refused.  [None] stands for
    [ValueError]. *)
Definition digit_value (c : ascii) : Z := Py.ord c - 48.

(** The number of digits in [s]. *)
Fixpoint count_digits (s : string) : Z :=
  match s with
  | EmptyString => 0
  | String c r => (if Py.is_digit c then 1 else 0) + count_digits r
  end.

Fixpoint int_digits (after_digit : bool) (acc : Z) (s : string) : option Z :=
  match s with
  | EmptyString => if after_digit then Some acc else None
  | String c r =>
      if Py.is_digit c then int_digits true (10 * acc + digit_value c) r
      else if Ascii.eqb c "_" then (if after_digit then int_digits false acc r else None)
      else None
  end.

Definition py_int (text : string) : option Z :=
  if Py.max_str_digits <? count_digits (Py.strip text) then None
  else
    match Py.strip text with
    | String "+" r => int_digits false 0 r
    | String "-" r => Z.opp <$> int_digits false 0 r
    | t => int_digits false 0 t
    end.

(** [a or b] on strings. *)
Definition str_or (a b : string) : string := if Py.truthy a then a else b.

Definition set_is_closing (v : bool) (w : MainWindow) : MainWindow :=
  {| servers := servers w; stop_workers := stop_workers w;
     active_server_id := active_server_id w; is_closing := v |}.

(** *** [_add_server]

    The texts of the form, and what the world answers: whether the two
    paths exist, the private address, and the fresh [uuid4().hex]. *)
Record AddForm := {
  f_name : string;
  f_engine : string;
  f_project : string;
  f_port : string;
  f_custom : string
}.

Record AddEnv := {
  ae_engine_exists : bool;
  ae_project_exists : bool;
  ae_private_ip : string;
  ae_uuid : string
}.

(** How the slot ends: with the server added, or with one of its three
    warning boxes. *)
Inductive add_outcome :=
| Added (cfg : ServerConfig)
| InvalidPort
| InvalidEnginePath
| MissingProject.

(** The [try] block: [int(port_text)] and the [assert] on its range. *)
Definition parse_port (port_text : string) : option Z :=
  match py_int port_text with
  | Some p => if (1 <=? p) && (p <=? 65535) then Some p else None
  | None => None
  end.

Definition _add_server (env : AddEnv) (form : AddForm) (w : MainWindow)
  : MainWindow * add_outcome :=
  let name := str_or (Py.strip (f_name form))
                     ("Server " +:+ Py.str_of_int (Z.of_nat (size (servers w)) + 1)) in
  let engine := Py.strip (f_engine form) in
  let proj := Py.strip (f_project form) in
  let port_text := str_or (Py.strip (f_port form)) "7777" in
  match parse_port port_text with
  | None => (w, InvalidPort)
  | Some port =>
      let custom := Py.strip (f_custom form) in
      if negb (Py.truthy engine) || negb (ae_engine_exists env)
      then (w, InvalidEnginePath)
      else if negb (Py.truthy proj) || negb (ae_project_exists env)
      then (w, MissingProject)
      else
        let cfg := {| name := name; engine_path := engine; project_path := proj;
                      port := port; custom_params := custom; id := ae_uuid env |} in
        let runtime := set_private_ip (ae_private_ip env) (new_runtime cfg) in
        let w := put (id cfg) runtime w in
        (set_active_server_id (Some (id cfg)) w, Added cfg)
  end.

(** *** [_resolve_public_ip], once [get_public_ip()] has answered [ip] *)
Definition _resolve_public_ip (ip : string) (server_id : string) (w : MainWindow)
  : MainWindow :=
  match servers w !! server_id with
  | Some srv => put server_id (set_public_ip ip srv) w
  | None => w
  end.

(** *** [_toggle_server_from_button]

    [sid] is the [server_id] property of the button that sent the
    signal. *)
Definition _toggle_server_from_button (env : StartEnv) (sid : string) (w : MainWindow)
  : MainWindow * list effect :=
  if negb (Py.truthy sid) then (w, [])
  else
    match servers w !! sid with
    | None => (w, [])
    | Some runtime =>
        if String.eqb (state runtime) "Stopping" then (w, [])
        else if negb (String.eqb (state runtime) "Running")
        then _start_server env sid w
        else _stop_server sid None w
    end.

(** *** [_delete_server]

    [reselected] is the answer of the table when [really_delete] removes
    the row. *)
Definition _delete_server (server_id : string) (reselected : option string)
  (w : MainWindow) : MainWindow * list effect :=
  match servers w !! server_id with
  | None => (w, [])
  | Some srv =>
      if String.eqb (state srv) "Running" || String.eqb (state srv) "Starting"
      then _stop_server server_id (Some (really_delete server_id reselected)) w
      else (run_callback (really_delete server_id reselected) w, [])
  end.

(** *** The signal connections

    [reader.line_received] and [reader.process_finished] are connected
    to [_on_log_line] and [_on_process_finished]; the [done] signal of a
    stop worker is connected to [_stop_finalize] with the [on_done] the
    worker was created for. *)
Definition deliver_signal (s : reader_signal) (w : MainWindow) : MainWindow :=
  match s with
  | line_received sid line => _on_log_line sid line w
  | process_finished sid rc => _on_process_finished sid rc w
  end.

Definition deliver_signals (sigs : list reader_signal) (w : MainWindow) : MainWindow :=
  fold_left (fun w s => deliver_signal s w) sigs w.

Definition deliver_action (on_done : option callback) (a : action) (w : MainWindow)
  : MainWindow :=
  match a with
  | EmitDone sid => _stop_finalize sid on_done w
  | _ => w
  end.

Definition deliver_actions (on_done : option callback) (t : list action) (w : MainWindow)
  : MainWindow :=
  fold_left (fun w a => deliver_action on_done a w) t w.

(** *** [_shutdown_all_servers]

    [keys] is the order in which [list(self.servers.items())] lists the
    servers at entry; [events] are the slot calls that
    [app.processEvents] runs while the loop waits for the deadline. *)
Definition wants_stop (w : MainWindow) (sid : string) : bool :=
  match servers w !! sid with
  | Some srv => String.eqb (state srv) "Running" || String.eqb (state srv) "Starting"
  | None => false
  end.

(** The first loop, for the servers that are not to be stopped. *)
Definition stop_idle_reader (w : MainWindow) (sid : string) : MainWindow :=
  match servers w !! sid with
  | Some srv =>
      if String.eqb (state srv) "Running" || String.eqb (state srv) "Starting"
      then w
      else put sid (flag_reader srv) w
  | None => w
  end.

Definition _shutdown_all_servers (keys : list string) (events : list operation)
  (w : MainWindow) : MainWindow :=
  let w := set_is_closing true w in
  let servers_to_stop := filter (fun sid => wants_stop w sid = true) keys in
  let w := fold_left stop_idle_reader keys w in
  match servers_to_stop with
  | [] => w
  | _ =>
      let w := fold_left (fun w sid => fst (_stop_server sid None w)) servers_to_stop w in
      let w := run_ops events w in
      let w := set_servers (drop_reader <$> servers w) w in
      set_stop_workers ∅ w
  end.

(** *** The windows the program can reach

    From the restored list of configurations, by the slot calls and by
    the handlers of the add form, of the buttons, of the table and of
    the close event.  The relation is generous: any slot may be called
    for any server, with any answer of the world. *)
Inductive reachable : MainWindow -> Prop :=
| reach_restore ip cfgs : reachable (_restore_saved_servers ip cfgs)
| reach_step op w : reachable w -> reachable (step op w)
| reach_add env form w :
    reachable w -> reachable (fst (_add_server env form w))
| reach_public_ip ip sid w :
    reachable w -> reachable (_resolve_public_ip ip sid w)
| reach_row_selected selected w :
    reachable w -> reachable (_on_row_selected selected w)
| reach_toggle env sid w :
    reachable w -> reachable (fst (_toggle_server_from_button env sid w))
| reach_delete sid reselected w :
    reachable w -> reachable (fst (_delete_server sid reselected w))
| reach_shutdown keys events w :
    reachable w -> reachable (_shutdown_all_servers keys events w).

(** *** More vocabulary *)

(** Several appends in a row, each with the default bound. *)
Definition append_all (texts : list string) (log : list string) : list string :=
  fold_left (fun l t => append_log t default_max_lines l) texts log.

(** The five names of the lifecycle. *)
Definition is_lifecycle_state (st : string) : bool :=
  String.eqb st "Offline" || String.eqb st "Starting" || String.eqb st "Running"
  || String.eqb st "Stopping" || String.eqb st "Stopped".

(** No character of [s] is [c]. *)
Fixpoint lacks (c : ascii) (s : string) : bool :=
  match s with
  | EmptyString => true
  | String x r => negb (Ascii.eqb x c) && lacks c r
  end.

(** No character of [s] is a blank of the shell syntax. *)
Fixpoint blank_free (s : string) : bool :=
  match s with
  | EmptyString => true
  | String c r => negb (Shlex.is_whitespace c) && blank_free r
  end.

Definition is_reader_start (e : effect) : bool :=
  match e with ReaderStart _ _ => true | _ => false end.

Definition is_spawn (e : effect) : bool :=
  match e with SpawnProcess _ => true | _ => false end.



(** Two saved servers, the first one running. *)
Definition demo_cfg2 : ServerConfig :=
  {| name := "Server 2"; engine_path := "C:\UE\UnrealEditor.exe";
     project_path := "C:\Game\Game.uproject"; port := 7778;
     custom_params := "-log"; id := "b2" |}.

Definition demo_two : MainWindow :=
  run_ops [OpStart (demo_env false) "a1";
           OpLogLine "a1" "LogInit: Display: Starting Game."]
          (_restore_saved_servers "192.168.1.20" [demo_cfg; demo_cfg2]).

(** The value of a decimal numeral read from the left, [acc] being the
    value of the digits already read. *)
Fixpoint uint_value (d : Decimal.uint) (acc : Z) : Z :=
  match d with
  | Decimal.Nil => acc
  | Decimal.D0 d => uint_value d (10 * acc)
  | Decimal.D1 d => uint_value d (10 * acc + 1)
  | Decimal.D2 d => uint_value d (10 * acc + 2)
  | Decimal.D3 d => uint_value d (10 * acc + 3)
  | Decimal.D4 d => uint_value d (10 * acc + 4)
  | Decimal.D5 d => uint_value d (10 * acc + 5)
  | Decimal.D6 d => uint_value d (10 * acc + 6)
  | Decimal.D7 d => uint_value d (10 * acc + 7)
  | Decimal.D8 d => uint_value d (10 * acc + 8)
  | Decimal.D9 d => uint_value d (10 * acc + 9)
  end.

(** No character of [s] is white for [str.strip]. *)
Fixpoint space_free (s : string) : bool :=
  match s with
  | EmptyString => true
  | String c r => negb (Py.is_space c) && space_free r
  end.

(** A form filled in with existing paths, and the world that confirms
    them. *)
Definition demo_form (port_text : string) : AddForm :=
  {| f_name := "  "; f_engine := " C:\UE\UnrealEditor.exe";
     f_project := "C:\Game\Game.uproject "; f_port := port_text;
     f_custom := " -log " |}.

Definition demo_add_env : AddEnv :=
  {| ae_engine_exists := true; ae_project_exists := true;
     ae_private_ip := "192.168.1.20"; ae_uuid := "c3" |}.

(** A token of the command line: not empty, no blank inside. *)
Definition is_token (t : string) : Prop := Py.truthy t = true /\ blank_free t = true.

(** An address of the loopback network, as [get_private_ip] tests it. *)
Definition loopback (a : string) : Prop := Py.startswith "127." a = true.

(** Custom parameters with a quote that is never closed. *)
Definition unclosed_params : string := "-log -Name=" +:+ dquote +:+ "My Server".

(** *** [ServersTable]: the rows

    A row is known by the item of its first column, whose [UserRole]
    data is the server id; [None] stands for a cell without an item. *)
Fixpoint find_row_from (row : nat) (rows : list (option string)) (server_id : string)
  : option nat :=
  match rows with
  | [] => None
  | item :: rest =>
      match item with
      | Some data =>
          if String.eqb data server_id then Some row
          else find_row_from (S row) rest server_id
      | None => find_row_from (S row) rest server_id
      end
  end.

(** [find_row_by_id] *)
Definition find_row_by_id (rows : list (option string)) (server_id : string)
  : option nat :=
  find_row_from 0 rows server_id.

(** [add_server_row]: the new rows and the index returned. *)
Definition add_server_row (rows : list (option string)) (server_id : string)
  : list (option string) * nat :=
  (rows ++ [Some server_id], length rows).

(** *** [resolve_engine_executable]

    The directory [p] as [os.walk(p)] sees it: the files and the
    subdirectories of each directory, in the order in which they are
    listed. *)
#[warnings="-register-all"] Inductive Dir :=
| mkDir (files : list string) (subdirs : list (string * Dir)).

(** Induction on a directory tree, with the property known of every
    subdirectory. *)
Fixpoint Dir_tree_ind (P : Dir -> Prop)
  (step : forall files subdirs, Forall (fun s => P (snd s)) subdirs ->
                                P (mkDir files subdirs))
  (d : Dir) : P d :=
  match d with
  | mkDir files subdirs =>
      step files subdirs
        ((fix each (l : list (string * Dir)) : Forall (fun s => P (snd s)) l :=
            match l with
            | [] => @Stdlib.Lists.List.Forall_nil _ _
            | s :: rest => @Stdlib.Lists.List.Forall_cons _ _ s rest (Dir_tree_ind P step (snd s)) (each rest)
            end) subdirs)
  end.

(** The set [names]. *)
Definition engine_names : list string :=
  ["UnrealEditor.exe"; "UnrealEditor"; "UE4Editor.exe"; "UE4Editor"].

Definition is_engine_name (n : string) : bool :=
  existsb (String.eqb n) engine_names.

(** [os.path.relpath(root, p).count(os.sep)] for a directory [level]
    steps below [p]: the relative path of [p] itself is ["."], that of a
    directory below it has one separator less than it has steps. *)
Definition walk_depth (level : nat) : nat := (level - 1)%nat.

(** What the file system answers: [os.path.isfile(path)],
    [os.path.abspath(path)], [sys.platform.startswith("win")],
    [os.path.exists], and the tree that [os.walk(p)] walks ([None] when
    [p] is not a directory: the walk is empty). *)
Record FsEnv := {
  fs_isfile : bool;
  fs_abspath : string;
  fs_win : bool;
  fs_exists : string -> bool;
  fs_tree : option Dir
}.

Section Resolve.

(** [os.path.join] of two components. *)
Variable join : string -> string -> string.

(** The loop over [os.walk(p)], from the directory [root], [level] steps
    below [p]: the first file with one of the names, directories first
    come first served, nothing at a depth above 5. *)
Fixpoint walk_find (level : nat) (root : string) (d : Dir) : option string :=
  match d with
  | mkDir files subdirs =>
      if (5 <? walk_depth level)%nat then None
      else
        match List.find is_engine_name files with
        | Some n => Some (join root n)
        | None =>
            (fix each (subs : list (string * Dir)) : option string :=
               match subs with
               | [] => None
               | (dirname, sub) :: rest =>
                   match walk_find (S level) (join root dirname) sub with
                   | Some r => Some r
                   | None => each rest
                   end
               end) subdirs
        end
  end.

Definition candidates (env : FsEnv) : list string :=
  let p := fs_abspath env in
  if fs_win env
  then [join (join (join (join p "Engine") "Binaries") "Win64") "UnrealEditor.exe";
        join (join (join (join p "Engine") "Binaries") "Win64") "UE4Editor.exe"]
  else [].

Definition resolve_engine_executable (env : FsEnv) (path : string) : option string :=
  if negb (Py.truthy path) then None
  else if fs_isfile env then Some path
  else
    match List.find (fs_exists env) (candidates env) with
    | Some c => Some c
    | None =>
        match fs_tree env with
        | Some d => walk_find 0 (fs_abspath env) d
        | None => None
        end
    end.

End Resolve.

(** The file [n] lies in the directory reached from [d] along the
    subdirectory names [dirs]. *)
Inductive in_tree : list string -> string -> Dir -> Prop :=
| in_tree_here files subdirs n :
    In n files -> in_tree [] n (mkDir files subdirs)
| in_tree_below files subdirs dirname sub dirs n :
    In (dirname, sub) subdirs -> in_tree dirs n sub ->
    in_tree (dirname :: dirs) n (mkDir files subdirs).

(** An engine folder with the editor three directories down, and a join
    with the separator of Linux. *)
Definition posix_join (a b : string) : string := a +:+ "/" +:+ b.

Definition demo_tree : Dir :=
  mkDir ["README.md"]
    [("Docs", mkDir ["index.html"] []);
     ("Engine",
      mkDir []
        [("Binaries",
          mkDir [] [("Linux", mkDir ["UnrealEditor"; "UnrealEditor.debug"] [])])])].

Definition demo_fs : FsEnv := {|
  fs_isfile := false;
  fs_abspath := "/opt/UE";
  fs_win := false;
  fs_exists := fun _ => false;
  fs_tree := Some demo_tree
|}.

(** * Properties *)

(** A list is a sublist of another when its elements are met in order. *)
Ltac sublist_walk :=
  repeat first [ apply sublist_nil | apply sublist_skip | apply sublist_cons ].

(** ** Strings *)

Lemma append_nil_r (s : string) : s +:+ "" = s.
Proof. induction s as [|c s IH]; simpl; [reflexivity|]. unfold String.app in *. simpl. rewrite IH. reflexivity. Qed.

Lemma append_assoc (a b c : string) : (a +:+ b) +:+ c = a +:+ (b +:+ c).
Proof.
  induction a as [|x a IH]; simpl; [reflexivity|].
  unfold String.app in *. simpl. rewrite IH. reflexivity.
Qed.

Lemma append_nil_l (s : string) : "" +:+ s = s.
Proof. reflexivity. Qed.

Lemma append_cons (x : ascii) (a b : string) : String x a +:+ b = String x (a +:+ b).
Proof. reflexivity. Qed.

Lemma lower_append a b : Py.lower (a +:+ b) = Py.lower a +:+ Py.lower b.
Proof.
  induction a as [|x a IH]; [reflexivity|].
  rewrite ?append_cons. simpl. rewrite IH. reflexivity.
Qed.

Lemma startswith_append p x : Py.startswith p (p +:+ x) = true.
Proof.
  induction p as [|a p IH]; [reflexivity|].
  rewrite append_cons. simpl. rewrite Ascii.eqb_refl. exact IH.
Qed.

Lemma startswith_begins p s : Py.startswith p s = true <-> begins_with p s.
Proof.
  split.
  - revert s. induction p as [|a p IH]; intros s H; [exists s; reflexivity|].
    destruct s as [|b s]; [discriminate H|]. cbn [Py.startswith] in H.
    destruct (Ascii.eqb_spec a b) as [->|_]; [|discriminate H].
    destruct (IH s H) as [post ->]. exists post. reflexivity.
  - intros [post ->]. apply startswith_append.
Qed.

Lemma contains_occurs p s : Py.contains p s = true <-> occurs_in p s.
Proof.
  split.
  - induction s as [|c r IH]; cbn [Py.contains]; intros H;
      apply orb_true_iff in H; destruct H as [H|H]; try discriminate H.
    + apply startswith_begins in H. destruct H as [post ->]. exists "", post. reflexivity.
    + apply startswith_begins in H. destruct H as [post ->]. exists "", post. reflexivity.
    + destruct (IH H) as (pre & post & ->). exists (String c pre), post. reflexivity.
  - intros (pre & post & ->). induction pre as [|c pre IH].
    + change ("" +:+ p +:+ post) with (p +:+ post).
      destruct (p +:+ post) eqn:E; cbn [Py.contains]; rewrite <- ?E;
        rewrite startswith_append; reflexivity.
    + rewrite append_cons. cbn [Py.contains]. rewrite IH. apply orb_true_r.
Qed.

Lemma occurs_in_inner a p b s : occurs_in (a +:+ p +:+ b) s -> occurs_in p s.
Proof.
  intros (pre & post & ->). exists (pre +:+ a), (b +:+ post).
  rewrite !append_assoc. reflexivity.
Qed.

Lemma begins_with_occurs p s : begins_with p s -> occurs_in p s.
Proof. intros [post ->]. exists "", post. reflexivity. Qed.

(** ** The log classifier *)

Lemma classify_cases line :
  classify_log_line line =
    if error_marker line then "error"
    else if warning_marker line then "warning" else "info".
Proof. reflexivity. Qed.

Lemma error_marker_names line : error_marker line = true <-> names_error line.
Proof.
  unfold error_marker, names_error. cbv zeta.
  rewrite !orb_true_iff, !contains_occurs, startswith_begins. tauto.
Qed.

Lemma warning_marker_names line : warning_marker line = true <-> names_warning line.
Proof.
  unfold warning_marker, names_warning. cbv zeta.
  rewrite !orb_true_iff, !contains_occurs, startswith_begins. tauto.
Qed.

(** C10 counterexample: a line other than the two sample lines that is
    not classified as [info]. *)
Lemma other_line_classified_error :
  "LogNet: Error: connection lost" <> "LogTemp: Warning: something" /\
  "LogNet: Error: connection lost" <> "LogTemp: Error: failed" /\
  classify_log_line "LogNet: Error: connection lost" = "error" /\
  classify_log_line "LogNet: Error: connection lost" <> "info".
Proof. repeat split; [discriminate|discriminate|discriminate]. Qed.

(** C10 (amended): the two sample lines classify as [warning] and
    [error].  For every line, the severity is [error] exactly when the
    line names an error, [warning] exactly when it names a warning and no
    error, and [info] exactly when it names neither; so one of the three
    is given, and a line in which, letter case apart, neither [error:]
    nor [warning:] occurs is [info]. *)
Theorem classify_log_line_severity :
  classify_log_line "LogTemp: Warning: something" = "warning" /\
  classify_log_line "LogTemp: Error: failed" = "error" /\
  (forall line,
     (classify_log_line line = "error" <-> names_error line) /\
     (classify_log_line line = "warning" <-> ~ names_error line /\ names_warning line) /\
     (classify_log_line line = "info" <-> ~ names_error line /\ ~ names_warning line) /\
     (classify_log_line line = "error" \/ classify_log_line line = "warning" \/
      classify_log_line line = "info")) /\
  (forall line,
     ~ occurs_in "error:" (Py.lower line) -> ~ occurs_in "warning:" (Py.lower line) ->
     classify_log_line line = "info").
Proof.
  assert (Cases : forall line,
     (classify_log_line line = "error" <-> names_error line) /\
     (classify_log_line line = "warning" <-> ~ names_error line /\ names_warning line) /\
     (classify_log_line line = "info" <-> ~ names_error line /\ ~ names_warning line) /\
     (classify_log_line line = "error" \/ classify_log_line line = "warning" \/
      classify_log_line line = "info")).
  { intros line. rewrite classify_cases.
    rewrite <- error_marker_names, <- warning_marker_names.
    destruct (error_marker line), (warning_marker line);
      repeat split; intros; try discriminate; try tauto; try (intros [? ?]; discriminate);
      try (destruct H; congruence); auto. }
  split; [reflexivity|]. split; [reflexivity|]. split; [exact Cases|].
  intros line He Hw. apply (proj1 (proj2 (proj2 (Cases line)))). split.
  - intros [H|[H|H]]; apply He.
    + exact (occurs_in_inner ": " "error:" "" _ H).
    + exact (occurs_in_inner " " "error:" " " _ H).
    + apply begins_with_occurs, H.
  - intros [H|[H|H]]; apply Hw.
    + exact (occurs_in_inner ": " "warning:" "" _ H).
    + exact (occurs_in_inner " " "warning:" " " _ H).
    + apply begins_with_occurs, H.
Qed.

Lemma classify_log_line_severity_witness :
  names_error "LogNet: Error: connection lost".
Proof.
  apply (proj1 (proj1 (proj1 (proj2 (proj2 classify_log_line_severity))
                         "LogNet: Error: connection lost"))).
  reflexivity.
Defined.

(** ** The log buffer *)

Lemma append_log_length text log :
  Z.of_nat (length (append_log text default_max_lines log)) <= 8000.
Proof.
  unfold append_log, default_max_lines.
  set (l := log ++ [text]).
  destruct (Z.gtb_spec (Z.of_nat (length l)) 8000) as [E|E].
  - rewrite length_skipn. lia.
  - lia.
Qed.

Lemma append_log_below text log :
  Z.of_nat (length log) < 8000 ->
  append_log text default_max_lines log = log ++ [text].
Proof.
  intros H. unfold append_log, default_max_lines.
  destruct (Z.gtb_spec (Z.of_nat (length (log ++ [text]))) 8000) as [E|E];
    [|reflexivity].
  rewrite length_app in E. simpl in E. lia.
Qed.

Lemma append_log_full text log :
  Z.of_nat (length log) = 8000 ->
  append_log text default_max_lines log = tl log ++ [text].
Proof.
  intros H. unfold append_log, default_max_lines.
  assert (L : Z.of_nat (length (log ++ [text])) = 8001).
  { rewrite length_app. simpl. lia. }
  rewrite L. change (8001 >? 8000) with true. cbv iota.
  change (Z.to_nat (8001 - 8000)) with 1%nat.
  destruct log as [|x log]; [discriminate H|]. reflexivity.
Qed.

(** ** The slots, one runtime at a time *)

Lemma on_row_selected_fields selected w :
  servers (_on_row_selected selected w) = servers w /\
  stop_workers (_on_row_selected selected w) = stop_workers w /\
  is_closing (_on_row_selected selected w) = is_closing w.
Proof. destruct selected; auto. Qed.

Lemma servers_run_callback d r w :
  servers (run_callback (really_delete d r) w) = delete d (servers w).
Proof.
  unfold run_callback. destruct (decide _); simpl;
    destruct (on_row_selected_fields r w) as (-> & _); reflexivity.
Qed.

Lemma lookup_call_on_done cb w sid srv :
  servers (call_on_done cb w) !! sid = Some srv -> servers w !! sid = Some srv.
Proof.
  destruct cb as [[d r]|]; [|auto]. cbn [call_on_done]. rewrite servers_run_callback.
  intros H. apply lookup_delete_Some in H. tauto.
Qed.

Lemma lookup_put sid srv w sid' srv' :
  servers (put sid srv w) !! sid' = Some srv' ->
  (sid' = sid /\ srv' = srv) \/ (sid' <> sid /\ servers w !! sid' = Some srv').
Proof.
  simpl. intros H. apply lookup_insert_Some in H.
  destruct H as [[-> ->]|[Hn H]]; [left|right]; auto.
Qed.

Lemma flag_reader_stop srv :
  flag_reader (set_state "Stopping" srv) =
  fst (let '(srv, eff) :=
         match reader (set_state "Stopping" srv) with
         | Some rd =>
             (set_reader (Some {| r_server_id := r_server_id rd;
                                  r_popen := r_popen rd; r_stop := true |})
                (set_state "Stopping" srv), [ReaderStop "x"])
         | None => (set_state "Stopping" srv, [])
         end in (srv, eff)).
Proof. unfold flag_reader. simpl. destruct (reader srv); reflexivity. Qed.

(** A slot leaves every runtime as it was, or rewrites it by one
    [srv_step]; it never creates one. *)
Lemma step_decompose op w sid srv' :
  servers (step op w) !! sid = Some srv' ->
  exists srv, servers w !! sid = Some srv /\ (srv' = srv \/ srv_step srv srv').
Proof.
  destruct op as [env s|s cb|s cb|s line|s rc|s|samples]; simpl.
  - (* _start_server *)
    unfold _start_server.
    destruct (servers w !! s) as [srv|] eqn:Hs; [|eauto].
    destruct (match process srv with Some _ => se_is_running env | None => false end);
      [eauto|].
    destruct (negb _); [eauto|].
    assert (Hip : forall x, servers (put s (set_private_ip (se_private_ip env) srv) w)
                    !! sid = Some x ->
                  exists srv0, servers w !! sid = Some srv0 /\
                               (x = srv0 \/ srv_step srv0 x)).
    { intros x Hx. apply lookup_put in Hx. destruct Hx as [[-> ->]|[_ Hx]]; [|eauto].
      exists srv. split; [auto|right; constructor]. }
    destruct (effective_port _) as [eport|]; [|apply Hip].
    destruct (se_port_in_use env) as [busy|]; [|apply Hip].
    destruct (if busy then Py.str eport else Some "") as [shown|]; [|apply Hip].
    destruct (busy && negb (se_answer_yes env)); [apply Hip|].
    destruct (build_command _ _) as [cmd|]; [|apply Hip].
    destruct (se_popen env) as [popen|]; [|apply Hip].
    destruct (se_ps env) as [p|]; simpl; intros Hx;
      apply lookup_insert_Some in Hx; destruct Hx as [[<- <-]|[Hn Hx]].
    + exists srv. split; [auto|right; apply ss_started].
    + apply lookup_insert_Some in Hx. destruct Hx as [[<- _]|[_ Hx]]; [congruence|eauto].
    + exists srv. split; [auto|right; apply ss_popen].
    + apply lookup_insert_Some in Hx. destruct Hx as [[<- _]|[_ Hx]]; [congruence|eauto].
  - (* _stop_server *)
    unfold _stop_server.
    destruct (servers w !! s) as [srv|] eqn:Hs; [|eauto].
    pose proof (flag_reader_stop srv) as Hf.
    destruct (reader (set_state "Stopping" srv)) as [rd|] eqn:Hr; simpl in Hf |- *.
    + destruct (process srv) as [p|] eqn:Hp; simpl.
      * intros Hx. apply lookup_insert_Some in Hx. destruct Hx as [[<- <-]|[Hn Hx]]; [|eauto].
        exists srv. split; [auto|right]. rewrite <- Hf. apply ss_stopping. congruence.
      * unfold _stop_finalize. simpl. rewrite lookup_insert_eq.
        intros Hx. apply lookup_call_on_done in Hx. simpl in Hx.
        apply lookup_insert_Some in Hx. destruct Hx as [[<- <-]|[Hn Hx]].
        -- exists srv. split; [auto|right].
           change (srv_step srv (finalized (set_reader (Some {| r_server_id := r_server_id rd;
                    r_popen := r_popen rd; r_stop := true |}) (set_state "Stopping" srv)))).
           rewrite <- Hf. apply ss_stop_now.
        -- apply lookup_insert_Some in Hx. destruct Hx as [[<- _]|[_ Hx]]; [congruence|eauto].
    + destruct (process srv) as [p|] eqn:Hp; simpl.
      * intros Hx. apply lookup_insert_Some in Hx. destruct Hx as [[<- <-]|[Hn Hx]]; [|eauto].
        exists srv. split; [auto|right]. rewrite <- Hf. apply ss_stopping. congruence.
      * unfold _stop_finalize. simpl. rewrite lookup_insert_eq.
        intros Hx. apply lookup_call_on_done in Hx. simpl in Hx.
        apply lookup_insert_Some in Hx. destruct Hx as [[<- <-]|[Hn Hx]].
        -- exists srv. split; [auto|right].
           change (srv_step srv (finalized (set_state "Stopping" srv))).
           rewrite <- Hf. apply ss_stop_now.
        -- apply lookup_insert_Some in Hx. destruct Hx as [[<- _]|[_ Hx]]; [congruence|eauto].
  - (* _stop_finalize *)
    unfold _stop_finalize. simpl.
    destruct (servers w !! s) as [srv|] eqn:Hs.
    + intros Hx. apply lookup_call_on_done in Hx. apply lookup_put in Hx.
      destruct Hx as [[-> ->]|[_ Hx]]; [|eauto].
      exists srv. split; [auto|right; apply ss_finalized].
    + intros Hx. apply lookup_call_on_done in Hx. eauto.
  - (* _on_log_line *)
    unfold _on_log_line.
    destruct (servers w !! s) as [srv|] eqn:Hs; [|eauto].
    intros Hx. apply lookup_put in Hx. destruct Hx as [[-> ->]|[_ Hx]]; [|eauto].
    exists srv. split; [auto|right; apply ss_line].
  - (* _on_process_finished *)
    unfold _on_process_finished.
    destruct (servers w !! s) as [srv|] eqn:Hs; [|eauto].
    destruct (Py.str rc); intros Hx; apply lookup_put in Hx;
      destruct Hx as [[-> ->]|[_ Hx]]; eauto;
      exists srv; (split; [auto|right; constructor]).
  - (* _reader_gone *)
    unfold _reader_gone.
    destruct (servers w !! s) as [srv|] eqn:Hs; [|eauto].
    destruct (reader srv); [|eauto].
    intros Hx. apply lookup_put in Hx. destruct Hx as [[-> ->]|[_ Hx]]; [|eauto].
    exists srv. split; [auto|right; apply ss_reader_gone].
  - (* _refresh_metrics *)
    unfold _refresh_metrics. destruct (is_closing w); [eauto|]. simpl.
    rewrite map_lookup_imap. destruct (servers w !! sid) as [srv|]; simpl; [|discriminate].
    intros [= <-]. exists srv. split; [auto|right; apply ss_refresh].
Qed.

Lemma restore_fresh ip cfgs sid srv :
  servers (_restore_saved_servers ip cfgs) !! sid = Some srv ->
  exists cfg, srv = set_private_ip ip (new_runtime cfg).
Proof.
  unfold _restore_saved_servers.
  assert (G : forall w0,
             (forall x, servers w0 !! sid = Some x ->
                        exists cfg, x = set_private_ip ip (new_runtime cfg)) ->
             servers (fold_left (restore_one ip) cfgs w0) !! sid = Some srv ->
             exists cfg, srv = set_private_ip ip (new_runtime cfg)).
  { induction cfgs as [|cfg cfgs IH]; simpl; intros w0 H0 H; [eauto|].
    apply IH in H; [exact H|].
    intros x Hx. apply lookup_put in Hx. destruct Hx as [[_ ->]|[_ Hx]]; eauto. }
  apply G. simpl. intros x Hx. rewrite lookup_empty in Hx. discriminate.
Qed.

Lemma restore_fresh_id ip cfgs sid srv :
  servers (_restore_saved_servers ip cfgs) !! sid = Some srv ->
  id (config srv) = sid.
Proof.
  unfold _restore_saved_servers.
  assert (G : forall w0,
             (forall x, servers w0 !! sid = Some x -> id (config x) = sid) ->
             servers (fold_left (restore_one ip) cfgs w0) !! sid = Some srv ->
             id (config srv) = sid).
  { induction cfgs as [|cfg cfgs IH]; simpl; intros w0 H0 H; [eauto|].
    apply IH in H; [exact H|].
    intros x Hx. apply lookup_put in Hx. destruct Hx as [[-> ->]|[_ Hx]]; eauto. }
  apply G. simpl. intros x Hx. rewrite lookup_empty in Hx. discriminate.
Qed.

(** *** Every handler rewrites the runtimes by slot rewrites *)

Lemma evolved_refl w : evolved w w.
Proof. intros sid srv' H. exists srv'. split; [left; exact H|apply rtc_refl]. Qed.

Lemma evolved_trans w1 w2 w3 : evolved w1 w2 -> evolved w2 w3 -> evolved w1 w3.
Proof.
  intros H12 H23 sid srv3 H3.
  destruct (H23 sid srv3 H3) as (srv2 & [H2|F] & R23).
  - destruct (H12 sid srv2 H2) as (srv1 & H1 & R12).
    exists srv1. split; [exact H1|]. eapply rtc_trans; eassumption.
  - exists srv2. split; [right; exact F|exact R23].
Qed.

Lemma evolved_same w w' : servers w' = servers w -> evolved w w'.
Proof. intros E sid srv' H. rewrite E in H. apply (evolved_refl w sid srv' H). Qed.

Lemma evolved_fold {A} (f : MainWindow -> A -> MainWindow) l :
  (forall w a, evolved w (f w a)) -> forall w, evolved w (fold_left f l w).
Proof.
  intros Hf. induction l as [|a l IH]; intros w; [apply evolved_refl|].
  cbn [fold_left]. eapply evolved_trans; [apply Hf|apply IH].
Qed.

Lemma step_evolved op w : evolved w (step op w).
Proof.
  intros sid srv' H. apply step_decompose in H.
  destruct H as (srv & H & [->|R]); exists srv; (split; [left; exact H|]);
    [apply rtc_refl|apply rtc_once, R].
Qed.

Lemma run_ops_evolved ops w : evolved w (run_ops ops w).
Proof. apply (evolved_fold (fun w op => step op w)). intros w0 op. apply step_evolved. Qed.

Lemma put_evolved sid srv srv' w :
  servers w !! sid = Some srv -> srv_step srv srv' -> evolved w (put sid srv' w).
Proof.
  intros Hs R k x Hk. apply lookup_put in Hk. destruct Hk as [[-> ->]|[_ Hk]].
  - exists srv. split; [left; exact Hs|apply rtc_once, R].
  - apply (evolved_refl w k x Hk).
Qed.

Lemma add_server_evolved env form w : evolved w (fst (_add_server env form w)).
Proof.
  unfold _add_server.
  destruct (parse_port _) as [p|]; [|apply evolved_refl].
  destruct (negb _ || negb _); [apply evolved_refl|].
  destruct (negb _ || negb _); [apply evolved_refl|].
  intros k x Hk. cbn in Hk. apply lookup_insert_Some in Hk.
  destruct Hk as [[<- <-]|[_ Hk]]; [|apply (evolved_refl w k x Hk)].
  eexists. split; [|apply rtc_refl]. right. eexists _, _. split; reflexivity.
Qed.

Lemma resolve_public_ip_evolved ip sid w : evolved w (_resolve_public_ip ip sid w).
Proof.
  unfold _resolve_public_ip. destruct (servers w !! sid) as [srv|] eqn:E;
    [|apply evolved_refl].
  apply (put_evolved sid srv _ w E). constructor.
Qed.

Lemma on_row_selected_evolved selected w : evolved w (_on_row_selected selected w).
Proof. apply evolved_same. apply on_row_selected_fields. Qed.

Lemma toggle_evolved env sid w :
  evolved w (fst (_toggle_server_from_button env sid w)).
Proof.
  unfold _toggle_server_from_button.
  destruct (negb (Py.truthy sid)); [apply evolved_refl|].
  destruct (servers w !! sid) as [srv|]; [|apply evolved_refl].
  destruct (String.eqb (state srv) "Stopping"); [apply evolved_refl|].
  destruct (negb _).
  - apply (step_evolved (OpStart env sid)).
  - apply (step_evolved (OpStop sid None)).
Qed.

Lemma delete_server_evolved sid reselected w :
  evolved w (fst (_delete_server sid reselected w)).
Proof.
  unfold _delete_server.
  destruct (servers w !! sid) as [srv|]; [|apply evolved_refl].
  destruct (_ || _).
  - apply (step_evolved (OpStop sid (Some (really_delete sid reselected)))).
  - intros k x Hk. cbn [fst] in Hk. rewrite servers_run_callback in Hk.
    apply lookup_delete_Some in Hk. apply (evolved_refl w k x), Hk.
Qed.

Lemma stop_idle_reader_evolved w sid : evolved w (stop_idle_reader w sid).
Proof.
  unfold stop_idle_reader. destruct (servers w !! sid) as [srv|] eqn:E;
    [|apply evolved_refl].
  destruct (_ || _); [apply evolved_refl|].
  apply (put_evolved sid srv _ w E). constructor.
Qed.

Lemma drop_readers_evolved w :
  evolved w (set_stop_workers ∅ (set_servers (drop_reader <$> servers w) w)).
Proof.
  intros k x Hk. cbn in Hk. rewrite lookup_fmap in Hk.
  destruct (servers w !! k) as [srv|] eqn:E; [|discriminate Hk].
  cbn in Hk. injection Hk as <-.
  exists srv. split; [left; reflexivity|apply rtc_once; constructor].
Qed.

Lemma shutdown_evolved keys events w :
  evolved w (_shutdown_all_servers keys events w).
Proof.
  unfold _shutdown_all_servers.
  assert (H1 : evolved w (fold_left stop_idle_reader keys (set_is_closing true w))).
  { apply (evolved_trans _ (set_is_closing true w));
      [apply evolved_same; reflexivity|apply evolved_fold, stop_idle_reader_evolved]. }
  destruct (filter _ keys) as [|s l]; [exact H1|].
  eapply evolved_trans; [exact H1|].
  eapply evolved_trans;
    [apply (evolved_fold (fun w sid => fst (_stop_server sid None w)) (s :: l));
     intros w0 a; apply (step_evolved (OpStop a None))|].
  eapply evolved_trans; [apply (run_ops_evolved events)|].
  apply drop_readers_evolved.
Qed.

(** Every runtime of a reachable window is a fresh runtime, filed under
    the id of its configuration and rewritten by the slots. *)
Lemma reachable_evolved w :
  reachable w ->
  forall sid srv, servers w !! sid = Some srv ->
  exists srv0, fresh_runtime sid srv0 /\ rtc srv_step srv0 srv.
Proof.
  assert (G : forall w w', evolved w w' ->
              (forall sid srv, servers w !! sid = Some srv ->
                 exists srv0, fresh_runtime sid srv0 /\ rtc srv_step srv0 srv) ->
              forall sid srv, servers w' !! sid = Some srv ->
                exists srv0, fresh_runtime sid srv0 /\ rtc srv_step srv0 srv).
  { intros w0 w' E IH sid srv H. destruct (E sid srv H) as (srv1 & [H1|F] & R).
    - destruct (IH sid srv1 H1) as (srv0 & F & R0). exists srv0.
      split; [exact F|]. eapply rtc_trans; eassumption.
    - exists srv1. split; assumption. }
  induction 1 as [ip cfgs|op w Hw IH|env form w Hw IH|ip s w Hw IH|sel w Hw IH
                  |env s w Hw IH|s r w Hw IH|keys events w Hw IH].
  - intros sid srv H. exists srv. split; [|apply rtc_refl].
    pose proof (restore_fresh_id _ _ _ _ H) as Hid.
    apply restore_fresh in H. destruct H as [cfg ->]. eexists _, _. split; [reflexivity|exact Hid].
  - apply (G w); [apply step_evolved|exact IH].
  - apply (G w); [apply add_server_evolved|exact IH].
  - apply (G w); [apply resolve_public_ip_evolved|exact IH].
  - apply (G w); [apply on_row_selected_evolved|exact IH].
  - apply (G w); [apply toggle_evolved|exact IH].
  - apply (G w); [apply delete_server_evolved|exact IH].
  - apply (G w); [apply shutdown_evolved|exact IH].
Qed.

(** Induction over the reachable windows, runtime by runtime. *)
Lemma reachable_ind_runtime (P : ServerRuntime -> Prop) :
  (forall ip cfg, P (set_private_ip ip (new_runtime cfg))) ->
  (forall a b, P a -> srv_step a b -> P b) ->
  forall w, reachable w ->
  forall sid srv, servers w !! sid = Some srv -> P srv.
Proof.
  intros Hinit Hstep w Hw sid srv Hs.
  destruct (reachable_evolved w Hw sid srv Hs) as (srv0 & (ip & cfg & -> & _) & R).
  clear Hs. revert srv R.
  apply (rtc_ind_r P); [apply Hinit|].
  intros y z _ Hyz IH. eapply Hstep; eassumption.
Qed.

Lemma refresh_one_fields sm srv :
  config (refresh_one sm srv) = config srv /\
  process (refresh_one sm srv) = process srv /\
  ps (refresh_one sm srv) = ps srv /\
  reader (refresh_one sm srv) = reader srv /\
  state (refresh_one sm srv) = state srv /\
  log_lines (refresh_one sm srv) = log_lines srv.
Proof.
  unfold refresh_one.
  destruct (_ && _); [destruct (sm_cpu sm); [destruct (sm_mem sm)|]|destruct (negb _)];
    simpl; auto 10.
Qed.

Lemma flag_reader_fields srv :
  config (flag_reader srv) = config srv /\
  process (flag_reader srv) = process srv /\
  state (flag_reader srv) = state srv /\
  log_lines (flag_reader srv) = log_lines srv.
Proof. unfold flag_reader. destruct (reader srv); simpl; auto. Qed.

Lemma drop_reader_fields srv :
  config (drop_reader srv) = config srv /\
  process (drop_reader srv) = process srv /\
  state (drop_reader srv) = state srv /\
  log_lines (drop_reader srv) = log_lines srv.
Proof. unfold drop_reader. destruct (reader srv); simpl; auto. Qed.

(** The log buffer of every runtime of a reachable window holds at most
    8000 lines. *)
Lemma reachable_log_bounded w sid srv :
  reachable w -> servers w !! sid = Some srv ->
  Z.of_nat (length (log_lines srv)) <= 8000.
Proof.
  intros Hw. revert sid srv.
  apply (reachable_ind_runtime (fun srv => Z.of_nat (length (log_lines srv)) <= 8000));
    [simpl; lia | | exact Hw].
  intros a b Ha Hst. destruct Hst; simpl; auto using append_log_length.
  - destruct (flag_reader_fields (set_state "Stopping" srv)) as (_ & _ & _ & ->). exact Ha.
  - destruct (flag_reader_fields (set_state "Stopping" srv)) as (_ & _ & _ & ->). exact Ha.
  - destruct (refresh_one_fields sm srv) as (_ & _ & _ & _ & _ & ->). exact Ha.
  - destruct (flag_reader_fields srv) as (_ & _ & _ & ->). exact Ha.
  - destruct (drop_reader_fields srv) as (_ & _ & _ & ->). exact Ha.
Qed.


(** *** The buffer stays bounded *)

(** C3: after an append the buffer holds at most 8000 lines, for any
    buffer and in particular for the buffer of every runtime the
    supervisor can reach; appending to a buffer of exactly 8000 lines
    gives the old lines from the second on, in their order, followed by
    the new line. *)
Theorem log_buffer_fifo :
  (forall text log,
     Z.of_nat (length (append_log text default_max_lines log)) <= 8000) /\
  (forall w sid srv,
     reachable w -> servers w !! sid = Some srv ->
     Z.of_nat (length (log_lines srv)) <= 8000) /\
  (forall text log,
     Z.of_nat (length log) = 8000 ->
     append_log text default_max_lines log = tl log ++ [text]).
Proof.
  split; [exact append_log_length|].
  split; [intros; eapply reachable_log_bounded; eauto|].
  exact append_log_full.
Qed.

Lemma log_buffer_fifo_witness :
  append_log "new" default_max_lines (repeat "old" (Z.to_nat 8000))
  = tl (repeat "old" (Z.to_nat 8000)) ++ ["new"].
Proof.
  apply (proj2 (proj2 log_buffer_fifo)).
  rewrite repeat_length. vm_compute. reflexivity.
Defined.

(** ** The log reader *)

Lemma read_loop_shape server_id steps :
  exists lines,
    fst (read_loop server_id steps) = map (line_received server_id) lines /\
    lines `prefix_of` yielded steps.
Proof.
  induction steps as [|[line stop|] rest IH]; simpl.
  - exists []. split; [reflexivity|apply prefix_nil].
  - destruct stop.
    + exists []. split; [reflexivity|apply prefix_nil].
    + destruct IH as [lines [E P]]. destruct (read_loop server_id rest) as [out raised].
      simpl in *. exists (line :: lines). split; [rewrite E; reflexivity|].
      apply prefix_cons, P.
  - exists []. split; [reflexivity|apply prefix_nil].
Qed.

Lemma read_loop_all server_id steps :
  Forall (fun st => exists line, st = Yield line false) steps ->
  read_loop server_id steps = (map (line_received server_id) (yielded steps), false).
Proof.
  induction 1 as [|st rest [line ->] _ IH]; simpl; [reflexivity|].
  rewrite IH. reflexivity.
Qed.

Lemma read_loop_exact server_id pre rest :
  Forall undisturbed pre -> loop_ends rest ->
  read_loop server_id (pre ++ rest)
  = (map (line_received server_id) (yielded pre), read_fails rest).
Proof.
  intros Hpre Hrest. induction Hpre as [|st pre [line ->] _ IH].
  - destruct rest as [|[line stop|] rest]; [reflexivity| |reflexivity].
    cbn in Hrest. subst stop. reflexivity.
  - cbn [app read_loop yielded map]. rewrite IH. reflexivity.
Qed.

Lemma stream_split (steps : list read_step) :
  exists pre rest, steps = pre ++ rest /\ Forall undisturbed pre /\ loop_ends rest.
Proof.
  induction steps as [|[line stop|] steps IH].
  - exists [], []. repeat split. constructor.
  - destruct stop.
    + exists [], (Yield line true :: steps). repeat split. constructor.
    + destruct IH as (pre & rest & -> & Hpre & Hrest).
      exists (Yield line false :: pre), rest. repeat split; [|exact Hrest].
      constructor; [exists line; reflexivity|exact Hpre].
  - exists [], (ReadRaises :: steps). repeat split. constructor.
Qed.

Lemma filter_finished server_id lines x :
  filter (fun s => is_finished s = true)
         (map (line_received server_id) lines ++ [process_finished server_id x])
  = [process_finished server_id x].
Proof.
  induction lines as [|l lines IH]; simpl; [reflexivity|].
  rewrite filter_cons. simpl. destruct (decide (false = true)); [discriminate|]. apply IH.
Qed.

Lemma c_int_small n : - 2 ^ 31 <= n < 2 ^ 31 -> c_int n = n.
Proof.
  unfold c_int. change (2 ^ 31) with 2147483648. change (2 ^ 32) with 4294967296.
  intros H. rewrite Z.mod_small by lia. lia.
Qed.

Lemma c_int_high n : 2 ^ 31 <= n < 2 ^ 32 -> c_int n = n - 2 ^ 32.
Proof.
  unfold c_int. change (2 ^ 31) with 2147483648. change (2 ^ 32) with 4294967296.
  intros H.
  replace (n + 2147483648) with (n - 2147483648 + 1 * 4294967296) by lia.
  rewrite Z_mod_plus_full, Z.mod_small by lia. lia.
Qed.

Lemma c_int_range n : - 2 ^ 31 <= c_int n < 2 ^ 31.
Proof.
  unfold c_int. change (2 ^ 31) with 2147483648. change (2 ^ 32) with 4294967296.
  pose proof (Z.mod_pos_bound (n + 2147483648) 4294967296 eq_refl). lia.
Qed.

(** The signals of a run, in terms of the place where the loop ends. *)
Lemma reader_run_exact server_id pre rest w :
  Forall undisturbed pre -> loop_ends rest ->
  LogReaderThread_run server_id {| re_stdout := Some (pre ++ rest); re_wait := w |}
  = (map (line_received server_id) (yielded pre)
       ++ [process_finished server_id (c_int (default (-1) w))], read_fails rest).
Proof.
  intros Hpre Hrest. unfold LogReaderThread_run. cbn [re_stdout re_wait].
  rewrite (read_loop_exact server_id pre rest Hpre Hrest). destruct w; reflexivity.
Qed.

(** C6 counterexample: a Windows process ends with the code of an access
    violation, 3221225477; the event of the reader carries
    -1073741819. *)
Lemma log_reader_exit_code_wraps :
  LogReaderThread_run "a1" {| re_stdout := Some []; re_wait := Some access_violation |}
  = ([process_finished "a1" (-1073741819)], false) /\
  access_violation <> -1073741819.
Proof. split; [vm_compute; reflexivity|discriminate]. Qed.

(** C6 (amended): whatever the stream does (none attached, closed at
    once, a read that raises, a stop request), the signals of one run are
    one line event for each line read before the loop ends (at the end
    of the stream, at the line at which the stop request is seen, or at
    the read that raises), in arrival order, followed by one
    [process_finished] event, which is the last signal and the only one
    of its kind.  The event carries the exit code, [-1] when [wait]
    raises, as a signed 32-bit number: the code itself when it lies in
    that range, the code less [2^32] when it lies in the upper half of
    the unsigned 32-bit range. *)
Theorem log_reader_run_signals server_id env :
  let code := c_int (exit_code env) in
  (forall pre rest,
     re_stdout env = Some (pre ++ rest) ->
     Forall undisturbed pre -> loop_ends rest ->
     LogReaderThread_run server_id env
     = (map (line_received server_id) (yielded pre)
          ++ [process_finished server_id code], read_fails rest)) /\
  (re_stdout env = None ->
     LogReaderThread_run server_id env = ([process_finished server_id code], false)) /\
  (forall steps, exists pre rest,
     steps = pre ++ rest /\ Forall undisturbed pre /\ loop_ends rest) /\
  (exists lines,
     fst (LogReaderThread_run server_id env)
       = map (line_received server_id) lines ++ [process_finished server_id code] /\
     lines `prefix_of` stream_lines env /\
     filter (fun s => is_finished s = true) (fst (LogReaderThread_run server_id env))
       = [process_finished server_id code]) /\
  exit_code env = default (-1) (re_wait env) /\
  (- 2 ^ 31 <= exit_code env < 2 ^ 31 -> code = exit_code env) /\
  (2 ^ 31 <= exit_code env < 2 ^ 32 -> code = exit_code env - 2 ^ 32).
Proof.
  cbv zeta.
  assert (Ec : exit_code env = default (-1) (re_wait env))
    by (unfold exit_code; destruct (re_wait env); reflexivity).
  split; [|split; [|split; [|split; [|split; [|split]]]]].
  - intros pre rest Hs Hpre Hrest. destruct env as [out w]. cbn in Hs. subst out.
    rewrite Ec. apply reader_run_exact; assumption.
  - intros Hs. unfold LogReaderThread_run. rewrite Hs, Ec.
    destruct (re_wait env); reflexivity.
  - exact stream_split.
  - unfold LogReaderThread_run, stream_lines. rewrite Ec.
    destruct (re_stdout env) as [steps|].
    + destruct (read_loop_shape server_id steps) as [lines [E P]].
      destruct (read_loop server_id steps) as [out raised]. simpl in *. subst out.
      exists lines. rewrite filter_finished. destruct (re_wait env); auto.
    + exists []. destruct (re_wait env);
        (split; [reflexivity|split; [apply prefix_nil|reflexivity]]).
  - exact Ec.
  - apply c_int_small.
  - apply c_int_high.
Qed.

Lemma log_reader_run_signals_witness :
  LogReaderThread_run "a1" {| re_stdout := Some stopped_stream; re_wait := Some 0 |}
  = ([line_received "a1" "one"; line_received "a1" "two"; process_finished "a1" 0], false).
Proof.
  apply (proj1 (log_reader_run_signals "a1"
                  {| re_stdout := Some stopped_stream; re_wait := Some 0 |})
           [Yield "one" false; Yield "two" false]
           [Yield "three" true; Yield "four" false]);
    [reflexivity | repeat constructor; eexists; reflexivity | reflexivity].
Defined.

(** ** The stop worker *)

(** The calls of the first tier, the second and third tiers, and the
    closing of the stream, as the environment decides them. *)
Lemma stop_worker_trace server_id env :
  StopWorker_run server_id env =
    let tier1 := if we_win env
                 then SendCtrlBreak :: (if we_raises env SendCtrlBreak then [] else [Wait 7])
                 else [] in
    if we_raises env IsRunning
    then (tier1 ++ [IsRunning; EmitDone server_id], None)
    else
      let tier2 :=
        if we_alive env
        then Terminate ::
             (if we_raises env Terminate then [Kill]
              else Wait 5 :: (if we_raises env (Wait 5) then [Kill] else []))
        else [] in
      let close := if we_stdout env then [CloseStdout] else [] in
      (tier1 ++ [IsRunning] ++ tier2 ++ close ++ [EmitDone server_id], Some tt).
Proof.
  destruct env as [win raises alive out].
  cbv [StopWorker_run try_finally try_except wbind when pass wret ask
       is_running call we_win we_raises we_alive we_stdout].
  destruct win, alive, out;
    destruct (raises SendCtrlBreak), (raises (Wait 7)), (raises IsRunning),
      (raises Terminate), (raises (Wait 5)), (raises Kill), (raises CloseStdout);
    reflexivity.
Qed.

(** C5 counterexample: on Windows the worker sends the break signal first,
    with no liveness probe before it; here the process is already gone. *)
Lemma stop_worker_first_tier_unprobed :
  fst (StopWorker_run "a1" env_gone_on_windows)
    = [SendCtrlBreak; IsRunning; CloseStdout; EmitDone "a1"] /\
  probed_before_each_tier false (fst (StopWorker_run "a1" env_gone_on_windows)) = false.
Proof. split; reflexivity. Qed.

(** C5 (amended): every run touches the process in the order of the
    escalation (break signal and 7 s wait, liveness probe, terminate and
    5 s wait, kill, close of the stream) and ends with the completion
    event, emitted once.  The break signal is sent exactly on Windows,
    unprobed; terminate is sent exactly when the probe answered alive;
    kill is sent exactly when terminate or its wait raised.  When the
    probe returns, no exception leaves the run, and an attached stream is
    closed right before the completion event. *)
Theorem stop_worker_escalation server_id env :
  let t := fst (StopWorker_run server_id env) in
  sublist t (escalation server_id) /\
  (exists pre, t = pre ++ [EmitDone server_id] /\
               filter (fun a => is_done a = true) pre = []) /\
  (SendCtrlBreak ∈ t <-> we_win env = true) /\
  (Wait 7 ∈ t <-> we_win env = true /\ we_raises env SendCtrlBreak = false) /\
  IsRunning ∈ t /\
  (Terminate ∈ t <-> seen_alive env = true) /\
  (Wait 5 ∈ t <-> seen_alive env = true /\ we_raises env Terminate = false) /\
  (Kill ∈ t <-> seen_alive env = true /\
                (we_raises env Terminate = true \/ we_raises env (Wait 5) = true)) /\
  (we_raises env IsRunning = false ->
     snd (StopWorker_run server_id env) = Some tt /\
     (we_stdout env = true ->
        exists pre, t = pre ++ [CloseStdout; EmitDone server_id])).
Proof.
  rewrite stop_worker_trace. unfold seen_alive, escalation.
  destruct env as [win raises alive out].
  cbv [we_win we_raises we_alive we_stdout].
  destruct win, (raises SendCtrlBreak), (raises IsRunning), alive,
    (raises Terminate), (raises (Wait 5)), out; cbn;
    (split; [sublist_walk|]);
    (split; [match goal with
             | |- exists pre, ?l = _ /\ _ => exists (removelast l); split; reflexivity
             end|]);
    do 6 (split; [set_solver|]);
    try (intros ?; discriminate);
    try (intros _; split; [reflexivity|intros ?]);
    try discriminate;
    try match goal with
        | |- exists pre, ?l = _ => exists (removelast (removelast l)); reflexivity
        end.
Qed.

Lemma stop_worker_escalation_witness :
  exists pre,
    fst (StopWorker_run "a1" env_stubborn) = pre ++ [CloseStdout; EmitDone "a1"].
Proof.
  destruct (stop_worker_escalation "a1" env_stubborn) as (_ & _ & _ & _ & _ & _ & _ & _ & H).
  apply H; reflexivity.
Defined.


(** ** The lifecycle slots *)

Lemma on_process_finished_fields sid rc w srv :
  servers w !! sid = Some srv ->
  exists srv',
    servers (_on_process_finished sid rc w) !! sid = Some srv' /\
    state srv' = "Stopped" /\
    process srv' = process srv /\
    ps srv' = ps srv /\
    cpu_percent srv' = cpu_percent srv /\
    mem_mb srv' = mem_mb srv.
Proof.
  intros H. unfold _on_process_finished. rewrite H.
  destruct (Py.str rc); simpl; rewrite lookup_insert_eq;
    (eexists; split; [reflexivity|]); simpl; auto.
Qed.

Lemma stop_finalize_fields sid cb w srv :
  servers w !! sid = Some srv ->
  _stop_finalize sid cb w
  = call_on_done cb
      (put sid (finalized srv) (set_stop_workers (delete sid (stop_workers w)) w)).
Proof. intros H. unfold _stop_finalize. simpl. rewrite H. reflexivity. Qed.

(** C1 (the code at the failing input): the server is started and exits
    on its own; [_on_process_finished] leaves it [Stopped] with its
    process handle still attached, so the state is none of [Starting],
    [Running], [Stopping] while the handle is non-null. *)
Theorem exited_runtime_keeps_handle :
  field state "a1" demo_early_exit = Some "Stopped" /\
  field process "a1" demo_early_exit = Some (Some demo_popen) /\
  field handle_matches_state "a1" demo_early_exit = Some false /\
  reachable demo_early_exit.
Proof.
  repeat split; try (vm_compute; reflexivity).
  apply (reach_step (OpProcessFinished "a1" 1)).
  apply (reach_step (OpStart (demo_env false) "a1")).
  apply reach_restore.
Qed.

(** C2 (the code at the failing input): a [Running] server with metrics
    sampled exits on its own; after [_on_process_finished] it is
    [Stopped], and the handle and both readings are what they were.  The
    other way into [Stopped], [_stop_finalize], clears all three. *)
Theorem natural_exit_clears_nothing :
  field state "a1" demo_running = Some "Running" /\
  field state "a1" (_on_process_finished "a1" 0 demo_running) = Some "Stopped" /\
  field process "a1" (_on_process_finished "a1" 0 demo_running)
    = Some (Some demo_popen) /\
  field cpu_percent "a1" (_on_process_finished "a1" 0 demo_running)
    = Some PrimFloat.one /\
  field mem_mb "a1" (_on_process_finished "a1" 0 demo_running)
    = Some PrimFloat.two /\
  field process "a1" (_stop_finalize "a1" None demo_running) = Some None /\
  field cpu_percent "a1" (_stop_finalize "a1" None demo_running)
    = Some PrimFloat.zero /\
  field mem_mb "a1" (_stop_finalize "a1" None demo_running) = Some PrimFloat.zero.
Proof. repeat split; vm_compute; reflexivity. Qed.

(** C7: [_start_server] on a server whose process handle is attached and
    running returns at once: the window is unchanged and nothing is set
    in motion. *)
Theorem start_on_live_handle_is_noop env sid w srv p :
  servers w !! sid = Some srv ->
  process srv = Some p ->
  se_is_running env = true ->
  _start_server env sid w = (w, []).
Proof.
  intros Hs Hp Hr. unfold _start_server. rewrite Hs, Hp, Hr. reflexivity.
Qed.

Lemma start_on_live_handle_is_noop_witness :
  _start_server (demo_env true) "a1" (fst (_start_server (demo_env false) "a1" demo_window))
  = (fst (_start_server (demo_env false) "a1" demo_window), []).
Proof.
  eapply (start_on_live_handle_is_noop (demo_env true) "a1" _ _ demo_popen);
    [vm_compute; reflexivity | reflexivity | reflexivity].
Defined.




(** ** Strings and the port pattern *)

(** A literal that matches consumes a prefix equal to it up to case. *)
Lemma literal_some p s r :
  Re.literal p s = Some r ->
  exists k, s = k +:+ r /\ Py.lower k = Py.lower p.
Proof.
  revert s. induction p as [|a p IH]; simpl; intros s H.
  - injection H as ->. exists "". auto.
  - destruct s as [|b s]; [discriminate|].
    unfold Re.ieq in H. destruct (Ascii.eqb_spec (Py.lower_char a) (Py.lower_char b)) as [E|];
      [|discriminate].
    apply IH in H. destruct H as [k [-> Hk]].
    exists (String b k). split; [reflexivity|]. simpl. rewrite Hk, E. reflexivity.
Qed.

Lemma literal_append p k r :
  Py.lower k = Py.lower p -> Re.literal p (k +:+ r) = Some r.
Proof.
  revert k. induction p as [|a p IH]; intros k H.
  - destruct k; [reflexivity|discriminate].
  - destruct k as [|b k]; [discriminate|]. simpl in H. injection H as Hc Hk.
    rewrite ?append_cons. simpl. unfold Re.ieq. rewrite Hc, Ascii.eqb_refl. auto.
Qed.

Lemma digits_append ds post :
  all_digits ds = true -> digit_head post = false -> Re.digits (ds +:+ post) = ds.
Proof.
  induction ds as [|c ds IH]; simpl; intros Hd Hp.
  - destruct post as [|c post]; [reflexivity|]. simpl in *. rewrite Hp. reflexivity.
  - apply andb_true_iff in Hd. destruct Hd as [Hc Hd].
    rewrite ?append_cons. simpl. rewrite Hc, IH; auto.
Qed.

Lemma tail_token ds post :
  all_digits ds = true -> Py.truthy ds = true -> digit_head post = false ->
  Re.tail ("=" +:+ ds +:+ post) = Some ds.
Proof.
  intros Hd Hn Hp. unfold Re.tail.
  rewrite (literal_append "=" "=" _ eq_refl).
  rewrite digits_append, Hn; auto.
Qed.

Lemma port_key_cases key :
  is_port_key key = true -> Py.lower key = "port" \/ Py.lower key = "netport".
Proof.
  unfold is_port_key. intros H. apply orb_true_iff in H.
  destruct H as [H|H]; apply String.eqb_eq in H; auto.
Qed.

(** The pattern matches a well-formed option at its head. *)
Lemma match_here_token key ds post :
  is_port_key key = true ->
  all_digits ds = true -> Py.truthy ds = true -> digit_head post = false ->
  Re.match_here ("-" +:+ key +:+ "=" +:+ ds +:+ post) = Some ds.
Proof.
  intros Hk Hd Hn Hp. unfold Re.match_here.
  rewrite (literal_append "-" "-" _ eq_refl).
  destruct (port_key_cases key Hk) as [E|E].
  - unfold Re.branch at 1. rewrite (literal_append "Port" key _ E).
    rewrite tail_token; auto.
  - assert (N : Re.branch "Port" (key +:+ "=" +:+ ds +:+ post) = None).
    { destruct key as [|c key]; [discriminate|]. simpl in E. injection E as Ec _.
      rewrite ?append_cons. unfold Re.branch. simpl. unfold Re.ieq. rewrite Ec. reflexivity. }
    rewrite N. unfold Re.branch. rewrite (literal_append "NetPort" key _ E).
    rewrite tail_token; auto.
Qed.

Lemma search_unmatched pre rest :
  unmatched pre rest = true -> Re.search (pre +:+ rest) = Re.search rest.
Proof.
  induction pre as [|c pre IH]; [reflexivity|].
  cbn [unmatched]. destruct (Re.match_here (String c pre +:+ rest)) eqn:E; [discriminate|].
  intros H. rewrite ?append_cons in *. cbn [Re.search]. rewrite E. auto.
Qed.

Lemma search_head s g : Re.match_here s = Some g -> Re.search s = Some g.
Proof. intros H. destruct s; cbn [Re.search]; rewrite H; reflexivity. Qed.

(** *** Decimal numerals *)

Lemma all_digits_uint d : all_digits (NilEmpty.string_of_uint d) = true.
Proof. induction d; simpl; auto. Qed.

Lemma str_of_pos p :
  Py.str_of_int (Z.pos p) = NilEmpty.string_of_uint (Pos.to_uint p).
Proof.
  unfold Py.str_of_int. simpl. unfold NilZero.string_of_uint.
  pose proof (DecimalPos.Unsigned.to_uint_nonnil p) as Hn.
  destruct (Pos.to_uint p); congruence.
Qed.

Lemma string_of_uint_nonempty d :
  d <> Decimal.Nil -> Py.truthy (NilEmpty.string_of_uint d) = true.
Proof. destruct d; simpl; congruence. Qed.

Lemma str_of_int_digits n : 0 <= n -> all_digits (Py.str_of_int n) = true.
Proof.
  intros H. destruct n as [|p|p]; [reflexivity| |lia].
  rewrite str_of_pos. apply all_digits_uint.
Qed.

Lemma str_of_int_nonempty n : 0 <= n -> Py.truthy (Py.str_of_int n) = true.
Proof.
  intros H. destruct n as [|p|p]; [reflexivity| |lia].
  rewrite str_of_pos. apply string_of_uint_nonempty, DecimalPos.Unsigned.to_uint_nonnil.
Qed.

(** The digits of a natural denote it. *)
Lemma decimal_of_str n : 0 <= n -> decimal (Py.str_of_int n) = n.
Proof.
  intros H. destruct n as [|p|p]; [reflexivity| |lia].
  rewrite str_of_pos. unfold decimal. rewrite NilEmpty.usu.
  unfold Z.of_uint. rewrite DecimalPos.Unsigned.of_to. reflexivity.
Qed.

Lemma digit_cases c :
  Py.is_digit c = true ->
  (c = "0" \/ c = "1" \/ c = "2" \/ c = "3" \/ c = "4" \/
   c = "5" \/ c = "6" \/ c = "7" \/ c = "8" \/ c = "9")%char.
Proof.
  destruct c as [[] [] [] [] [] [] [] []]; intros H; try discriminate H; tauto.
Qed.

Lemma uint_of_digits s :
  all_digits s = true -> exists d, NilEmpty.uint_of_string s = Some d.
Proof.
  induction s as [|c s IH]; [exists Decimal.Nil; reflexivity|].
  cbn [all_digits]. intros H. apply andb_true_iff in H. destruct H as [Hc Hs].
  destruct (IH Hs) as [d Hd]. cbn [NilEmpty.uint_of_string]. rewrite Hd.
  destruct (digit_cases c Hc) as [->|[->|[->|[->|[->|[->|[->|[->|[->| ->]]]]]]]]];
    eexists; reflexivity.
Qed.

(** [int] of a group of the pattern: the number its digits denote, up to
    4300 digits, and [ValueError] beyond. *)
Lemma int_of_digits_short g :
  all_digits g = true -> Py.truthy g = true ->
  Z.of_nat (String.length g) <= 4300 ->
  Py.int_of_digits g = Some (decimal g).
Proof.
  intros Hd Hn Hl. unfold Py.int_of_digits, Py.max_str_digits, decimal.
  destruct (Z.ltb_spec 4300 (Z.of_nat (String.length g))) as [L|_]; [lia|].
  destruct g as [|c g]; [discriminate Hn|].
  destruct (uint_of_digits _ Hd) as [d ->]. reflexivity.
Qed.

Lemma int_of_digits_long g :
  4300 < Z.of_nat (String.length g) -> Py.int_of_digits g = None.
Proof.
  intros Hl. unfold Py.int_of_digits, Py.max_str_digits.
  destruct (Z.ltb_spec 4300 (Z.of_nat (String.length g))) as [_|L]; [reflexivity|lia].
Qed.

Lemma int_of_digits_decimal g v : Py.int_of_digits g = Some v -> v = decimal g.
Proof.
  unfold Py.int_of_digits, decimal. destruct (_ <? _); [discriminate|].
  destruct g as [|c g]; [discriminate|].
  destruct (NilEmpty.uint_of_string (String c g)); [|discriminate].
  intros [= <-]. reflexivity.
Qed.

Lemma decimal_nonneg g : 0 <= decimal g.
Proof.
  unfold decimal. destruct (NilEmpty.uint_of_string g); [|lia].
  unfold Z.of_uint. apply N2Z.is_nonneg.
Qed.

(** [int(str(n)) = n] for a natural [n] of at most 4300 digits. *)
Lemma int_of_str n :
  0 <= n -> Z.of_nat (String.length (Py.str_of_int n)) <= 4300 ->
  Py.int_of_digits (Py.str_of_int n) = Some n.
Proof.
  intros H Hl.
  rewrite int_of_digits_short by auto using str_of_int_digits, str_of_int_nonempty.
  rewrite decimal_of_str by exact H. reflexivity.
Qed.

(** The group of a match is a run of digits, not empty. *)
Lemma digits_all_digits s : all_digits (Re.digits s) = true.
Proof.
  induction s as [|c s IH]; [reflexivity|]. cbn [Re.digits].
  destruct (Py.is_digit c) eqn:E; [|reflexivity]. cbn [all_digits]. rewrite E. exact IH.
Qed.

Lemma match_here_group s g :
  Re.match_here s = Some g -> all_digits g = true /\ Py.truthy g = true.
Proof.
  assert (T : forall r g', Re.tail r = Some g' ->
              all_digits g' = true /\ Py.truthy g' = true).
  { intros r g'. unfold Re.tail. destruct (Re.literal "=" r) as [r'|]; [|discriminate].
    destruct (Py.truthy (Re.digits r')) eqn:E; [|discriminate].
    intros [= <-]. split; [apply digits_all_digits|exact E]. }
  assert (B : forall key r g', Re.branch key r = Some g' ->
              all_digits g' = true /\ Py.truthy g' = true).
  { intros key r g'. unfold Re.branch. destruct (Re.literal key r); [apply T|discriminate]. }
  unfold Re.match_here. destruct (Re.literal "-" s) as [r|]; [|discriminate].
  destruct (Re.branch "Port" r) as [g1|] eqn:E1.
  - intros [= <-]. apply (B _ _ _ E1).
  - apply B.
Qed.

Lemma search_group s g :
  Re.search s = Some g -> all_digits g = true /\ Py.truthy g = true.
Proof.
  induction s as [|c s IH]; cbn [Re.search].
  - destruct (Re.match_here "") eqn:E; [|discriminate].
    intros [= <-]. apply (match_here_group _ _ E).
  - destruct (Re.match_here (String c s)) eqn:E; [|exact IH].
    intros [= <-]. apply (match_here_group _ _ E).
Qed.

(** ** The effective port *)

Lemma search_of_token pre key n post :
  0 <= n ->
  is_port_key key = true ->
  digit_head post = false ->
  unmatched pre (port_option key n +:+ post) = true ->
  Re.search (pre +:+ port_option key n +:+ post) = Some (Py.str_of_int n).
Proof.
  intros Hn Hk Hp Hu. rewrite search_unmatched by exact Hu.
  unfold port_option. rewrite !append_assoc.
  apply search_head, match_here_token; auto using str_of_int_digits, str_of_int_nonempty.
Qed.

Lemma effective_port_of_token cfg pre key n post :
  0 <= n ->
  is_port_key key = true ->
  digit_head post = false ->
  custom_params cfg = pre +:+ port_option key n +:+ post ->
  unmatched pre (port_option key n +:+ post) = true ->
  (Z.of_nat (String.length (Py.str_of_int n)) <= 4300 -> effective_port cfg = Some n) /\
  (4300 < Z.of_nat (String.length (Py.str_of_int n)) -> effective_port cfg = None).
Proof.
  intros Hn Hk Hp Hc Hu. unfold effective_port.
  rewrite Hc, (search_of_token pre key n post Hn Hk Hp Hu). split.
  - apply int_of_str, Hn.
  - apply int_of_digits_long.
Qed.

(** C8 counterexample: the custom parameters contain [-Port=9000], yet
    the effective port is that of the [-NetPort=8000] before it; and on
    custom parameters that are one option [-Port=N] with an [N] of 4301
    digits, [effective_port] has no value: [int] raises [ValueError]. *)
Lemma effective_port_not_of_later_option :
  Py.contains "-Port=9000" "-NetPort=8000 -Port=9000" = true /\
  effective_port (cfg_demo 7777 "-NetPort=8000 -Port=9000") = Some 8000 /\
  Re.search long_port_option = Some long_digits /\
  String.length long_digits = Z.to_nat 4301 /\
  effective_port (cfg_demo 7777 long_port_option) = None.
Proof. repeat split; vm_compute; reflexivity. Qed.

(** C8 (amended): without custom arguments the effective port is the
    configured port (7777 stays 7777); when the custom arguments contain
    an option [-Port=N] or [-NetPort=N], in any letter case and not
    running on into further digits, and the pattern matches nowhere
    before it, the effective port is [N] whatever the configured port
    ([-Port=9000] gives 9000), provided [N] is written with at most 4300
    digits; with more digits [effective_port] raises. *)
Theorem effective_port_leftmost_option :
  (forall cfg, custom_params cfg = "" -> effective_port cfg = Some (port cfg)) /\
  effective_port (cfg_demo 7777 "") = Some 7777 /\
  (forall p, effective_port (cfg_demo p "-Port=9000") = Some 9000) /\
  (forall cfg pre key n post,
     0 <= n ->
     is_port_key key = true ->
     digit_head post = false ->
     custom_params cfg = pre +:+ port_option key n +:+ post ->
     unmatched pre (port_option key n +:+ post) = true ->
     (Z.of_nat (String.length (Py.str_of_int n)) <= 4300 ->
      effective_port cfg = Some n) /\
     (4300 < Z.of_nat (String.length (Py.str_of_int n)) ->
      effective_port cfg = None)).
Proof.
  split; [|split; [reflexivity|split; [reflexivity|]]].
  - intros cfg H. unfold effective_port. rewrite H. reflexivity.
  - exact effective_port_of_token.
Qed.

Lemma effective_port_leftmost_option_witness :
  effective_port (cfg_demo 7777 "-log -NETPORT=9000 -Port=1") = Some 9000.
Proof.
  apply (proj2 (proj2 (proj2 effective_port_leftmost_option))
           (cfg_demo 7777 "-log -NETPORT=9000 -Port=1") "-log " "NETPORT" 9000 " -Port=1");
    [lia | reflexivity | reflexivity | reflexivity | reflexivity | vm_compute; discriminate].
Defined.

(** ** The command line *)

Lemma str_some n text : Py.str n = Some text -> text = Py.str_of_int n.
Proof. unfold Py.str. destruct (_ <=? _); [discriminate|]. intros [= <-]. reflexivity. Qed.

Lemma build_command_shape resolved cfg :
  build_command resolved cfg =
    if no_port_override cfg && negb (port_prints cfg) then None
    else
      match custom_tokens cfg with
      | Some toks =>
          Some ([command_exe resolved cfg]
                  ++ (if Py.truthy (project_path cfg) then [project_path cfg] else [])
                  ++ fixed_flags
                  ++ (if no_port_override cfg then [default_port_arg cfg] else [])
                  ++ toks)
      | None => None
      end.
Proof.
  unfold build_command, custom_tokens, command_exe, port_prints, default_port_arg.
  destruct (no_port_override cfg); cbn [andb].
  - destruct (Py.str (port cfg)) as [text|] eqn:E; [|reflexivity].
    apply str_some in E. subst text. cbn [negb].
    destruct (Py.truthy (project_path cfg)), (Py.truthy (Py.strip (custom_params cfg)));
      try destruct (Shlex.split (custom_params cfg)); cbn [app];
      rewrite <- ?app_assoc, ?app_nil_r; reflexivity.
  - destruct (Py.truthy (project_path cfg)), (Py.truthy (Py.strip (custom_params cfg)));
      try destruct (Shlex.split (custom_params cfg)); cbn [app];
      rewrite <- ?app_assoc, ?app_nil_r; reflexivity.
Qed.

Lemma command_options_shape resolved cfg extra :
  command_options cfg
    ([command_exe resolved cfg]
       ++ (if Py.truthy (project_path cfg) then [project_path cfg] else [])
       ++ fixed_flags ++ extra)
  = fixed_flags ++ extra.
Proof. unfold command_options. destruct (Py.truthy (project_path cfg)); reflexivity. Qed.

Lemma first_port_match args :
  first_port args = decimal <$> first_match args.
Proof.
  induction args as [|a args IH]; simpl; [reflexivity|].
  destruct (Re.search a); simpl; auto.
Qed.

Lemma first_match_flags extra : first_match (fixed_flags ++ extra) = first_match extra.
Proof. reflexivity. Qed.

(** *** Blanks cut the pattern *)

Lemma whitespace_cases c :
  Shlex.is_whitespace c = true ->
  c = " "%char \/ c = "009"%char \/ c = "013"%char \/ c = "010"%char.
Proof.
  unfold Shlex.is_whitespace. intros H.
  repeat (apply orb_true_iff in H; destruct H as [H|H]);
    apply Ascii.eqb_eq in H; auto.
Qed.

Lemma literal_cut p x c b :
  avoids c p = true ->
  Re.literal p (x +:+ String c b) =
    match Re.literal p x with
    | Some r => Some (r +:+ String c b)
    | None => None
    end.
Proof.
  revert x. induction p as [|a p IH]; intros x H; [reflexivity|].
  cbn [avoids] in H. apply andb_true_iff in H. destruct H as [Ha Hp].
  destruct x as [|y x].
  - rewrite append_nil_l. cbn [Re.literal].
    destruct (Re.ieq a c); [discriminate|reflexivity].
  - rewrite append_cons. cbn [Re.literal]. destruct (Re.ieq a y); auto.
Qed.

Lemma digits_cut x c b :
  Py.is_digit c = false -> Re.digits (x +:+ String c b) = Re.digits x.
Proof.
  intros H. induction x as [|y x IH].
  - rewrite append_nil_l. cbn [Re.digits]. rewrite H. reflexivity.
  - rewrite append_cons. cbn [Re.digits]. rewrite IH. reflexivity.
Qed.

Lemma tail_cut x c b :
  avoids c "=" = true -> Py.is_digit c = false ->
  Re.tail (x +:+ String c b) = Re.tail x.
Proof.
  intros Ha Hd. unfold Re.tail. rewrite literal_cut by exact Ha.
  destruct (Re.literal "=" x); [|reflexivity]. rewrite digits_cut by exact Hd. reflexivity.
Qed.

Lemma branch_cut key x c b :
  avoids c key = true -> avoids c "=" = true -> Py.is_digit c = false ->
  Re.branch key (x +:+ String c b) = Re.branch key x.
Proof.
  intros Hk Ha Hd. unfold Re.branch. rewrite literal_cut by exact Hk.
  destruct (Re.literal key x); [|reflexivity]. apply tail_cut; auto.
Qed.

Lemma match_here_cut x c b :
  Shlex.is_whitespace c = true ->
  Re.match_here (x +:+ String c b) = Re.match_here x.
Proof.
  intros H.
  assert (A : avoids c "-" = true /\ avoids c "Port" = true /\
              avoids c "NetPort" = true /\ avoids c "=" = true /\
              Py.is_digit c = false).
  { destruct (whitespace_cases c H) as [-> | [-> | [-> | ->]]];
      repeat split; reflexivity. }
  destruct A as (A1 & A2 & A3 & A4 & A5).
  unfold Re.match_here. rewrite literal_cut by exact A1.
  destruct (Re.literal "-" x); [|reflexivity].
  rewrite !branch_cut by assumption. reflexivity.
Qed.

Lemma match_here_blank c b :
  Shlex.is_whitespace c = true -> Re.match_here (String c b) = None.
Proof.
  intros H. change (String c b) with ("" +:+ String c b).
  rewrite match_here_cut by exact H. reflexivity.
Qed.

Lemma search_cut a c b :
  Shlex.is_whitespace c = true ->
  Re.search (a +:+ String c b) =
    match Re.search a with
    | Some g => Some g
    | None => Re.search b
    end.
Proof.
  intros H. induction a as [|y a IH].
  - rewrite append_nil_l. cbn [Re.search].
    rewrite match_here_blank by exact H. reflexivity.
  - rewrite append_cons. cbn [Re.search]. rewrite <- append_cons.
    rewrite match_here_cut by exact H.
    destruct (Re.match_here (String y a)); [reflexivity|]. exact IH.
Qed.

Lemma snoc_append tok c r : Shlex.snoc tok c +:+ r = tok +:+ String c r.
Proof. unfold Shlex.snoc. rewrite append_assoc. reflexivity. Qed.

(** The first word in which the pattern occurs holds the leftmost match
    of the whole text. *)
Lemma first_match_words tok s :
  first_match (words_from tok s) = Re.search (tok +:+ s).
Proof.
  revert tok. induction s as [|c s IH]; intros tok.
  - rewrite append_nil_r. cbn [words_from].
    destruct tok; [reflexivity|]. cbn [Py.truthy first_match].
    destruct (Re.search (String a tok)); reflexivity.
  - cbn [words_from]. destruct (Shlex.is_whitespace c) eqn:W.
    + rewrite search_cut by exact W.
      destruct tok as [|a tok]; cbn [Py.truthy first_match]; rewrite IH.
      * reflexivity.
      * reflexivity.
    + rewrite IH, snoc_append. reflexivity.
Qed.

(** *** Plain text is split at blanks *)

Lemma lex_plain s :
  plain s = true ->
  (forall tok, Shlex.lex Shlex.InWord false tok s = Some (words_from tok s)) /\
  Shlex.lex Shlex.InSpace false "" s = Some (words_from "" s).
Proof.
  induction s as [|c s IH]; intros H.
  - split; [intros tok|]; cbn; [|reflexivity].
    unfold Shlex.emit. rewrite orb_false_r. reflexivity.
  - cbn [plain] in H. apply andb_true_iff in H. destruct H as [H Hs].
    apply andb_true_iff in H. destruct H as [Hq He].
    apply negb_true_iff in Hq, He.
    destruct (IH Hs) as [IHw IHs].
    split; [intros tok|]; cbn [Shlex.lex words_from]; rewrite ?Hq, ?He;
      destruct (Shlex.is_whitespace c); rewrite ?IHs, ?IHw; try reflexivity.
    unfold Shlex.emit. rewrite orb_false_r. reflexivity.
Qed.

Lemma split_plain s : plain s = true -> Shlex.split s = Some (words s).
Proof. intros H. apply (lex_plain s H). Qed.

(** *** A match shows in the lowered text *)

Lemma branch_some key s g :
  Re.branch key s = Some g ->
  exists k r, s = k +:+ r /\ Py.lower k = Py.lower key +:+ "=".
Proof.
  unfold Re.branch, Re.tail. intros H.
  destruct (Re.literal key s) as [r1|] eqn:E1; [|discriminate].
  destruct (Re.literal "=" r1) as [r2|] eqn:E2; [|discriminate].
  apply literal_some in E1, E2.
  destruct E1 as [k1 [-> L1]], E2 as [k2 [-> L2]].
  exists (k1 +:+ k2), r2. split; [symmetry; apply append_assoc|].
  rewrite lower_append, L1, L2. reflexivity.
Qed.

Lemma match_here_lowered s g :
  Re.match_here s = Some g ->
  Py.startswith "-port=" (Py.lower s) || Py.startswith "-netport=" (Py.lower s) = true.
Proof.
  unfold Re.match_here. intros H.
  destruct (Re.literal "-" s) as [r|] eqn:E; [|discriminate].
  apply literal_some in E. destruct E as [k0 [-> L0]].
  assert (C : forall key k r',
             r = k +:+ r' -> Py.lower k = Py.lower key +:+ "=" ->
             Py.startswith ("-" +:+ Py.lower key +:+ "=") (Py.lower (k0 +:+ r)) = true).
  { intros key k r' -> Lk. rewrite !lower_append, L0, Lk, <- !append_assoc.
    apply startswith_append. }
  destruct (Re.branch "Port" r) as [g1|] eqn:B1.
  - apply branch_some in B1. destruct B1 as (k & r' & Hr & Lk).
    pose proof (C "Port" k r' Hr Lk) as HC.
    change ("-" +:+ Py.lower "Port" +:+ "=") with "-port=" in HC.
    rewrite HC. reflexivity.
  - apply branch_some in H. destruct H as (k & r' & Hr & Lk).
    pose proof (C "NetPort" k r' Hr Lk) as HC.
    change ("-" +:+ Py.lower "NetPort" +:+ "=") with "-netport=" in HC.
    rewrite HC. apply orb_true_r.
Qed.

Lemma search_lowered s g :
  Re.search s = Some g ->
  Py.contains "-port=" (Py.lower s) || Py.contains "-netport=" (Py.lower s) = true.
Proof.
  induction s as [|c s IH]; cbn [Re.search].
  - discriminate.
  - destruct (Re.match_here (String c s)) as [g'|] eqn:E.
    + intros _. apply match_here_lowered in E.
      cbn [Py.lower Py.contains] in *.
      apply orb_true_iff in E. destruct E as [E|E]; rewrite E; cbn;
        [reflexivity|apply orb_true_r].
    + intros H. apply IH in H. cbn [Py.lower Py.contains].
      apply orb_true_iff in H. destruct H as [H|H]; rewrite H;
        rewrite ?orb_true_r; reflexivity.
Qed.

(** Without the two substrings the pattern cannot match: the default
    port option is added only where [effective_port] is the configured
    port. *)
Lemma no_override_no_match cfg :
  no_port_override cfg = true -> Re.search (custom_params cfg) = None.
Proof.
  unfold no_port_override. intros H.
  destruct (Re.search (custom_params cfg)) as [g|] eqn:E; [|reflexivity].
  apply search_lowered in E. apply andb_true_iff in H. destruct H as [H1 H2].
  apply negb_true_iff in H1, H2. rewrite H1, H2 in E. discriminate.
Qed.

(** *** Blank text *)

Lemma space_not_dash c : Py.is_space c = true -> Re.ieq "-" c = false.
Proof.
  destruct c as [[] [] [] [] [] [] [] []]; intros H; try reflexivity; discriminate H.
Qed.

Lemma lstrip_head s :
  Py.lstrip s = "" \/ exists c r, Py.lstrip s = String c r /\ Py.is_space c = false.
Proof.
  induction s as [|c s IH]; [left; reflexivity|]. cbn [Py.lstrip].
  destruct (Py.is_space c) eqn:E; [exact IH|]. right. eauto.
Qed.

Lemma rstrip_head c r : Py.is_space c = false -> Py.truthy (Py.rstrip (String c r)) = true.
Proof. intros H. cbn [Py.rstrip]. rewrite H. destruct (Py.rstrip r); reflexivity. Qed.

Lemma lstrip_empty_no_match s : Py.lstrip s = "" -> Re.search s = None.
Proof.
  induction s as [|c s IH]; [reflexivity|]. cbn [Py.lstrip].
  destruct (Py.is_space c) eqn:E; [|discriminate].
  intros H. cbn [Re.search]. unfold Re.match_here. cbn [Re.literal].
  rewrite (space_not_dash c E). auto.
Qed.

Lemma match_not_blank s g :
  Re.search s = Some g -> Py.truthy (Py.strip s) = true.
Proof.
  intros H. unfold Py.strip.
  destruct (lstrip_head s) as [E|(c & r & E & Hc)].
  - rewrite (lstrip_empty_no_match s E) in H. discriminate.
  - rewrite E. apply rstrip_head, Hc.
Qed.

(** *** The port of the command *)

Lemma search_default_arg cfg :
  0 <= port cfg -> Re.search (default_port_arg cfg) = Some (Py.str_of_int (port cfg)).
Proof.
  intros H. apply search_head. unfold default_port_arg.
  rewrite <- (append_nil_r (Py.str_of_int (port cfg))) at 1.
  apply (match_here_token "Port" (Py.str_of_int (port cfg)) "");
    auto using str_of_int_digits, str_of_int_nonempty.
Qed.

Lemma custom_tokens_plain cfg :
  plain (custom_params cfg) = true ->
  custom_tokens cfg
  = Some (if Py.truthy (Py.strip (custom_params cfg))
          then words (custom_params cfg) else []).
Proof.
  intros H. unfold custom_tokens.
  destruct (Py.truthy (Py.strip (custom_params cfg))); [|reflexivity].
  apply split_plain, H.
Qed.

Lemma contains_startswith p s : Py.startswith p s = true -> Py.contains p s = true.
Proof. intros H. destruct s; cbn [Py.contains]; rewrite H; reflexivity. Qed.

Lemma default_arg_has_key cfg : has_port_key (default_port_arg cfg) = true.
Proof.
  unfold has_port_key, default_port_arg. rewrite lower_append.
  change (Py.lower "-Port=") with "-port=".
  rewrite contains_startswith by apply startswith_append. reflexivity.
Qed.

Lemma override_has_key cfg : no_port_override cfg = negb (has_port_key (custom_params cfg)).
Proof. unfold no_port_override, has_port_key. rewrite negb_orb. reflexivity. Qed.

(** C9 counterexample: the custom parameters hold the well-formed option
    [-Port=9000], and [effective_port] is 9000; but the shell syntax
    turns the quoted option before it into [-Port=1], which the command
    carries first.  Further, on a well-formed option with a number of
    4301 digits [effective_port] raises, and with a configured port of
    4301 digits and no custom parameters [build_command] raises, while
    [effective_port] is that port. *)
Lemma quoted_option_disagrees :
  existsb is_port_option (words quoted_then_plain) = true /\
  effective_port (cfg_demo 7777 quoted_then_plain) = Some 9000 /\
  build_command None (cfg_demo 7777 quoted_then_plain)
    = Some ["C:\UE\UnrealEditor.exe"; "C:\Game\Game.uproject"; "-server";
            "-unattended"; "-stdout"; "-FullStdOutLogOutput";
            "-Port=1"; "-Port=9000"] /\
  command_port (cfg_demo 7777 quoted_then_plain)
    <$> build_command None (cfg_demo 7777 quoted_then_plain) = Some (Some 1) /\
  is_port_option long_port_option = true /\
  plain long_port_option = true /\
  effective_port (cfg_demo 7777 long_port_option) = None /\
  no_port_override (cfg_demo huge_port "") = true /\
  effective_port (cfg_demo huge_port "") = Some huge_port /\
  build_command None (cfg_demo huge_port "") = None.
Proof. repeat split; vm_compute; reflexivity. Qed.

(** C9 (amended): [build_command] appends the default option
    [-Port=<configured port>] exactly when the lowered custom parameters
    contain neither [-port=] nor [-netport=], after the fixed flags and
    before the custom tokens.  For custom parameters free of quotes and
    backslashes: when they contain neither substring and the configured
    port has at most 4300 digits, the command is built, its first option
    that names the port is the default option, which spells
    [effective_port], and for a natural port the port pattern reads that
    number back from it; when they contain a match of the port pattern
    whose number has at most 4300 digits, the command is built and the
    first port option among its options is [effective_port].  Beyond
    4300 digits the conversions of Python raise: [build_command] for
    such a configured port, [effective_port] for such a number. *)
Theorem command_port_is_effective_port :
  (forall cfg,
     no_port_override cfg = true <->
     Py.contains "-port=" (Py.lower (custom_params cfg)) = false /\
     Py.contains "-netport=" (Py.lower (custom_params cfg)) = false) /\
  (forall resolved cfg cmd,
     build_command resolved cfg = Some cmd ->
     exists toks,
       custom_tokens cfg = Some toks /\
       cmd = [command_exe resolved cfg]
               ++ (if Py.truthy (project_path cfg) then [project_path cfg] else [])
               ++ fixed_flags
               ++ (if no_port_override cfg then [default_port_arg cfg] else [])
               ++ toks) /\
  (forall resolved cfg,
     plain (custom_params cfg) = true ->
     no_port_override cfg = true ->
     port_prints cfg = true ->
     exists cmd,
       build_command resolved cfg = Some cmd /\
       effective_port cfg = Some (port cfg) /\
       List.find has_port_key (command_options cfg cmd)
         = Some ("-Port=" +:+ Py.str_of_int (port cfg)) /\
       (0 <= port cfg -> command_port cfg cmd = Some (port cfg))) /\
  (forall resolved cfg g,
     plain (custom_params cfg) = true ->
     Re.search (custom_params cfg) = Some g ->
     Z.of_nat (String.length g) <= 4300 ->
     exists cmd,
       build_command resolved cfg = Some cmd /\
       effective_port cfg = Some (decimal g) /\
       command_port cfg cmd = Some (decimal g)) /\
  (forall resolved cfg,
     no_port_override cfg = true -> port_prints cfg = false ->
     build_command resolved cfg = None) /\
  (forall cfg g,
     Re.search (custom_params cfg) = Some g ->
     4300 < Z.of_nat (String.length g) ->
     effective_port cfg = None).
Proof.
  split; [|split; [|split; [|split; [|split]]]].
  - intros cfg. unfold no_port_override.
    rewrite andb_true_iff, !negb_true_iff. reflexivity.
  - intros resolved cfg cmd H. rewrite build_command_shape in H.
    destruct (_ && _); [discriminate|].
    destruct (custom_tokens cfg) as [toks|]; [|discriminate].
    injection H as <-. eauto.
  - intros resolved cfg Hplain Hno Hpr.
    rewrite build_command_shape, (custom_tokens_plain cfg Hplain), Hno, Hpr.
    cbn [andb negb]. eexists. split; [reflexivity|].
    unfold command_port. rewrite command_options_shape.
    unfold effective_port. rewrite (no_override_no_match cfg Hno).
    split; [reflexivity|]. split.
    + cbn [fixed_flags app List.find has_port_key]. 
      change (List.find has_port_key (fixed_flags ++ [default_port_arg cfg] ++ _))
        with (List.find has_port_key ([default_port_arg cfg] ++
                (if Py.truthy (Py.strip (custom_params cfg))
                 then words (custom_params cfg) else []))).
      cbn [app List.find]. rewrite default_arg_has_key. reflexivity.
    + intros Hport. rewrite first_port_match, first_match_flags.
      cbn [app first_match]. rewrite (search_default_arg cfg Hport). cbn.
      rewrite decimal_of_str by exact Hport. reflexivity.
  - intros resolved cfg g Hplain Hg Hl.
    assert (Hno : no_port_override cfg = false).
    { destruct (no_port_override cfg) eqn:E; [|reflexivity].
      rewrite (no_override_no_match cfg E) in Hg. discriminate. }
    rewrite build_command_shape, (custom_tokens_plain cfg Hplain), Hno.
    cbn [andb]. eexists. split; [reflexivity|].
    destruct (search_group _ _ Hg) as [Hd Hn].
    split.
    + unfold effective_port. rewrite Hg. apply int_of_digits_short; assumption.
    + unfold command_port. rewrite command_options_shape, first_port_match, first_match_flags.
      rewrite (match_not_blank _ _ Hg). cbn [app]. unfold words.
      rewrite first_match_words, append_nil_l, Hg. reflexivity.
  - intros resolved cfg Hno Hpr. rewrite build_command_shape, Hno, Hpr. reflexivity.
  - intros cfg g Hg Hl. unfold effective_port. rewrite Hg. apply int_of_digits_long, Hl.
Qed.

Lemma command_port_is_effective_port_witness :
  exists cmd,
    build_command None (cfg_demo 7777 "-log   -NetPort=8000 -Port=9000") = Some cmd /\
    effective_port (cfg_demo 7777 "-log   -NetPort=8000 -Port=9000") = Some 8000 /\
    command_port (cfg_demo 7777 "-log   -NetPort=8000 -Port=9000") cmd = Some 8000.
Proof.
  apply (proj1 (proj2 (proj2 (proj2 command_port_is_effective_port))) None
           (cfg_demo 7777 "-log   -NetPort=8000 -Port=9000") "8000");
    [reflexivity | reflexivity | vm_compute; discriminate].
Defined.

(** * Further properties of the supervisor *)

(** ** Reachable windows *)

Lemma reachable_run_ops ops w : reachable w -> reachable (run_ops ops w).
Proof.
  revert w. induction ops as [|op ops IH]; intros w H; [exact H|].
  apply (IH (step op w)). apply reach_step, H.
Qed.

Lemma demo_running_reachable : reachable demo_running.
Proof. apply reachable_run_ops, reach_restore. Qed.

(** What one rewrite of a runtime does to its lifecycle state. *)
Lemma srv_step_state a b :
  srv_step a b ->
  state b = state a \/
  state b = "Starting" \/
  (state b = "Running" /\ state a = "Starting") \/
  state b = "Stopping" \/
  state b = "Stopped".
Proof.
  intros H. destruct H; simpl; auto.
  - destruct (flag_reader_fields (set_state "Stopping" srv)) as (_ & _ & -> & _).
    simpl. auto.
  - destruct (String.eqb (state srv) "Starting") eqn:E; simpl; auto.
    apply String.eqb_eq in E. auto.
  - destruct (refresh_one_fields sm srv) as (_ & _ & _ & _ & -> & _). auto.
  - destruct (flag_reader_fields srv) as (_ & _ & -> & _). auto.
  - destruct (drop_reader_fields srv) as (_ & _ & -> & _). auto.
Qed.

Lemma srv_step_config a b : srv_step a b -> config b = config a.
Proof.
  intros H. destruct H; simpl; auto.
  - destruct (flag_reader_fields (set_state "Stopping" srv)) as (-> & _). reflexivity.
  - unfold flag_reader. destruct (reader (set_state "Stopping" srv)); reflexivity.
  - destruct (String.eqb (state srv) "Starting"); reflexivity.
  - destruct (refresh_one_fields sm srv) as (-> & _). reflexivity.
  - destruct (flag_reader_fields srv) as (-> & _). reflexivity.
  - destruct (drop_reader_fields srv) as (-> & _). reflexivity.
Qed.

(** X1: in every reachable window the lifecycle state of a runtime is one
    of the five names [Offline], [Starting], [Running], [Stopping],
    [Stopped]. *)
Theorem lifecycle_state_named w sid srv :
  reachable w -> servers w !! sid = Some srv ->
  is_lifecycle_state (state srv) = true.
Proof.
  intros Hw. revert sid srv.
  apply (reachable_ind_runtime (fun srv => is_lifecycle_state (state srv) = true));
    [reflexivity | | exact Hw].
  intros a b Ha Hst.
  destruct (srv_step_state a b Hst) as [E|[E|[[E _]|[E|E]]]]; rewrite E; auto.
Qed.

Lemma lifecycle_state_named_witness :
  exists srv, servers demo_running !! "a1" = Some srv /\
              is_lifecycle_state (state srv) = true.
Proof.
  destruct (servers demo_running !! "a1") as [srv|] eqn:E;
    [|vm_compute in E; discriminate E].
  exists srv. split; [reflexivity|].
  exact (lifecycle_state_named demo_running "a1" srv demo_running_reachable E).
Defined.

(** X2: no operation takes a runtime back to [Offline]: a runtime that
    has left [Offline] is not [Offline] after any further slot call. *)
Theorem never_back_to_offline op w sid srv srv' :
  servers w !! sid = Some srv ->
  state srv <> "Offline" ->
  servers (step op w) !! sid = Some srv' ->
  state srv' <> "Offline".
Proof.
  intros Hs Hne Hs'. apply step_decompose in Hs'.
  destruct Hs' as [srv0 [H0 [->|Hst]]]; rewrite Hs in H0; injection H0 as <-; [exact Hne|].
  destruct (srv_step_state _ _ Hst) as [E|[E|[[E _]|[E|E]]]]; rewrite E;
    [exact Hne|discriminate..].
Qed.

Lemma never_back_to_offline_witness :
  field state "a1" (step (OpProcessFinished "a1" 0) demo_running) <> Some "Offline".
Proof.
  unfold field.
  destruct (servers demo_running !! "a1") as [srv|] eqn:E;
    [|vm_compute in E; discriminate E].
  destruct (servers (step (OpProcessFinished "a1" 0) demo_running) !! "a1")
    as [srv'|] eqn:E'; [|discriminate].
  intros [= H]. revert H.
  apply (never_back_to_offline (OpProcessFinished "a1" 0) demo_running "a1" srv srv' E);
    [|exact E'].
  vm_compute in E. injection E as <-. discriminate.
Defined.

(** X3: in every reachable window each runtime is filed under the id of
    its own configuration; no slot changes a configuration. *)
Theorem runtime_filed_under_config_id w sid srv :
  reachable w -> servers w !! sid = Some srv -> id (config srv) = sid.
Proof.
  intros Hw Hs.
  destruct (reachable_evolved w Hw sid srv Hs) as (srv0 & (ip & cfg & -> & Hid) & R).
  assert (C : config srv = cfg); [|rewrite C; exact Hid].
  clear Hs. revert srv R. apply rtc_ind_r; [reflexivity|].
  intros y z _ Hyz IH. rewrite (srv_step_config _ _ Hyz). exact IH.
Qed.

Lemma runtime_filed_under_config_id_witness :
  field (fun srv => id (config srv)) "a1" demo_running = Some "a1".
Proof.
  unfold field.
  destruct (servers demo_running !! "a1") as [srv|] eqn:E;
    [|vm_compute in E; discriminate E].
  simpl. f_equal.
  exact (runtime_filed_under_config_id demo_running "a1" srv demo_running_reachable E).
Defined.



(** ** The lifecycle as a state machine *)

Lemma workers_call_on_done cb w : stop_workers (call_on_done cb w) = stop_workers w.
Proof.
  destruct cb as [[d r]|]; [|reflexivity]. cbn [call_on_done run_callback].
  destruct (decide _); simpl; apply on_row_selected_fields.
Qed.

Lemma finalize_workers s cb w :
  stop_workers (_stop_finalize s cb w) = delete s (stop_workers w).
Proof.
  unfold _stop_finalize. simpl. destruct (servers w !! s); rewrite workers_call_on_done; reflexivity.
Qed.



Lemma state_flag_reader srv : state (flag_reader srv) = state srv.
Proof. apply flag_reader_fields. Qed.
Lemma process_flag_reader srv : process (flag_reader srv) = process srv.
Proof. apply flag_reader_fields. Qed.

Lemma stop_server_eq s cb w srv0 :
  servers w !! s = Some srv0 ->
  _stop_server s cb w =
    let srv1 := flag_reader (set_state "Stopping" srv0) in
    let eff := match reader srv0 with Some _ => [ReaderStop s] | None => [] end in
    let w1 := put s srv1 w in
    match process srv0 with
    | None => (_stop_finalize s cb w1, eff)
    | Some p =>
        (set_stop_workers
           (<[s := {| w_server_id := s; w_process := p; w_on_done := cb |}]>
              (stop_workers w1)) w1,
         eff ++ [WorkerStart s p])
    end.
Proof.
  intros H. unfold _stop_server, flag_reader. rewrite H. simpl.
  destruct (reader srv0); reflexivity.
Qed.


Lemma start_workers env s w :
  stop_workers (fst (_start_server env s w)) = stop_workers w.
Proof.
  unfold _start_server.
  destruct (servers w !! s) as [srv0|]; [|reflexivity].
  destruct (match process srv0 with Some _ => se_is_running env | None => false end);
    [reflexivity|].
  destruct (negb _); [reflexivity|].
  destruct (effective_port _) as [eport|]; [|reflexivity].
  destruct (se_port_in_use env) as [busy|]; [|reflexivity].
  destruct (if busy then Py.str eport else Some "") as [shown|]; [|reflexivity].
  destruct (busy && negb (se_answer_yes env)); [reflexivity|].
  destruct (build_command _ _) as [cmd|]; [|reflexivity].
  destruct (se_popen env) as [popen|]; [|reflexivity].
  destruct (se_ps env) as [p|]; reflexivity.
Qed.

Lemma step_workers_other op w sid :
  match op with
  | OpStop s _ | OpFinalize s _ => s <> sid
  | _ => True
  end ->
  stop_workers (step op w) !! sid = stop_workers w !! sid.
Proof.
  destruct op as [env s|s cb|s cb|s line|s rc|s|samples]; simpl; intros H.
  - rewrite start_workers. reflexivity.
  - destruct (servers w !! s) as [srv0|] eqn:E0;
      [|unfold _stop_server; rewrite E0; reflexivity].
    rewrite (stop_server_eq s cb w srv0 E0). cbv zeta.
    destruct (process srv0); simpl.
    + apply lookup_insert_ne, H.
    + rewrite finalize_workers. simpl. apply lookup_delete_ne, H.
  - rewrite finalize_workers. apply lookup_delete_ne, H.
  - unfold _on_log_line. destruct (servers w !! s); reflexivity.
  - unfold _on_process_finished. destruct (servers w !! s); [destruct (Py.str rc)|]; reflexivity.
  - unfold _reader_gone. destruct (servers w !! s) as [srv0|]; [|reflexivity].
    destruct (reader srv0); reflexivity.
  - unfold _refresh_metrics. destruct (is_closing w); reflexivity.
Qed.




Lemma stop_finalize_eq sid cb w :
  _stop_finalize sid cb w =
    let w0 := set_stop_workers (delete sid (stop_workers w)) w in
    match servers w !! sid with
    | Some srv => call_on_done cb (put sid (finalized srv) w0)
    | None => call_on_done cb w0
    end.
Proof. unfold _stop_finalize. simpl. destruct (servers w !! sid); reflexivity. Qed.

(** ** Unknown ids and other servers *)

(** X7: a slot called for an id that is not in [self.servers] changes
    nothing and sets nothing in motion.  The one exception is
    [_stop_finalize], which still forgets the stop worker filed under the
    id and runs the [on_done] callback. *)
Theorem slots_ignore_unknown_id env ip sid line rc cb reselected w :
  servers w !! sid = None ->
  _start_server env sid w = (w, []) /\
  _stop_server sid cb w = (w, []) /\
  _delete_server sid reselected w = (w, []) /\
  _toggle_server_from_button env sid w = (w, []) /\
  _on_log_line sid line w = w /\
  _on_process_finished sid rc w = w /\
  _reader_gone sid w = w /\
  _resolve_public_ip ip sid w = w /\
  _stop_finalize sid cb w
    = call_on_done cb (set_stop_workers (delete sid (stop_workers w)) w).
Proof.
  intros H.
  unfold _start_server, _stop_server, _delete_server, _toggle_server_from_button,
    _on_log_line, _on_process_finished, _reader_gone, _resolve_public_ip.
  rewrite stop_finalize_eq, H. destruct (negb (Py.truthy sid)); repeat split; reflexivity.
Qed.

Lemma slots_ignore_unknown_id_witness :
  _stop_server "zz" None demo_running = (demo_running, []) /\
  _on_process_finished "zz" 0 demo_running = demo_running.
Proof.
  assert (H : servers demo_running !! "zz" = None) by (vm_compute; reflexivity).
  destruct (slots_ignore_unknown_id (demo_env false) "" "zz" "" 0 None None demo_running H)
    as (_ & H2 & _ & _ & _ & H6 & _).
  split; assumption.
Defined.

Lemma start_other env s w sid :
  sid <> s -> servers (fst (_start_server env s w)) !! sid = servers w !! sid.
Proof.
  intros Hn. unfold _start_server.
  destruct (servers w !! s) as [srv0|]; [|reflexivity].
  destruct (match process srv0 with Some _ => se_is_running env | None => false end);
    [reflexivity|].
  destruct (negb _); [reflexivity|].
  destruct (effective_port _) as [eport|]; [|simpl; by rewrite lookup_insert_ne].
  destruct (se_port_in_use env) as [busy|]; [|simpl; by rewrite lookup_insert_ne].
  destruct (if busy then Py.str eport else Some "") as [shown|]; [|simpl; by rewrite lookup_insert_ne].
  destruct (busy && negb (se_answer_yes env)); [simpl; by rewrite lookup_insert_ne|].
  destruct (build_command _ _) as [cmd|]; [|simpl; by rewrite lookup_insert_ne].
  destruct (se_popen env) as [popen|]; [|simpl; by rewrite lookup_insert_ne].
  destruct (se_ps env) as [p|]; simpl; by rewrite !lookup_insert_ne.
Qed.

Lemma finalize_other s w sid :
  sid <> s -> servers (_stop_finalize s None w) !! sid = servers w !! sid.
Proof.
  intros Hn. rewrite stop_finalize_eq. cbv zeta.
  destruct (servers w !! s); simpl; [by rewrite lookup_insert_ne|reflexivity].
Qed.

Lemma stop_other s w sid :
  sid <> s -> servers (fst (_stop_server s None w)) !! sid = servers w !! sid.
Proof.
  intros Hn. destruct (servers w !! s) as [srv0|] eqn:E0;
    [|unfold _stop_server; rewrite E0; reflexivity].
  rewrite (stop_server_eq s None w srv0 E0). cbv zeta.
  destruct (process srv0); simpl.
  - by rewrite lookup_insert_ne.
  - rewrite finalize_other by exact Hn. simpl. by rewrite lookup_insert_ne.
Qed.

(** X8: a slot called for one server, without a delete callback, leaves
    the runtime and the stop worker of every other server as they
    were. *)
Theorem slots_leave_other_servers sid' op w :
  match op with
  | OpStart _ s | OpLogLine s _ | OpProcessFinished s _ | OpReaderGone s => s <> sid'
  | OpStop s cb | OpFinalize s cb => s <> sid' /\ cb = None
  | OpRefreshMetrics _ => False
  end ->
  servers (step op w) !! sid' = servers w !! sid' /\
  stop_workers (step op w) !! sid' = stop_workers w !! sid'.
Proof.
  intros H. split.
  - destruct op as [env s|s cb|s cb|s line|s rc|s|samples]; simpl.
    + apply start_other. congruence.
    + destruct H as [H ->]. apply stop_other. congruence.
    + destruct H as [H ->]. apply finalize_other. congruence.
    + unfold _on_log_line. destruct (servers w !! s); [|reflexivity].
      simpl. by rewrite lookup_insert_ne.
    + unfold _on_process_finished. destruct (servers w !! s); [|reflexivity].
      destruct (Py.str rc); simpl; by rewrite lookup_insert_ne.
    + unfold _reader_gone. destruct (servers w !! s) as [srv0|]; [|reflexivity].
      destruct (reader srv0); [|reflexivity]. simpl. by rewrite lookup_insert_ne.
    + contradiction.
  - apply step_workers_other. destruct op; try exact I; tauto.
Qed.

Lemma slots_leave_other_servers_witness :
  servers (step (OpStop "a1" None) demo_two) !! "b2" = servers demo_two !! "b2".
Proof.
  apply (slots_leave_other_servers "b2" (OpStop "a1" None) demo_two).
  split; [discriminate|reflexivity].
Defined.

(** ** Stopping *)

(** Whatever the stop worker does to the process, its run delivers
    [done] once: the window sees one call of [_stop_finalize]. *)
Lemma deliver_worker_run sid cb env w :
  deliver_actions cb (fst (StopWorker_run sid env)) w = _stop_finalize sid cb w.
Proof.
  rewrite stop_worker_trace. destruct env as [win raises alive out].
  cbv [we_win we_raises we_alive we_stdout].
  destruct win, (raises SendCtrlBreak), (raises IsRunning), alive,
    (raises Terminate), (raises (Wait 5)), out; reflexivity.
Qed.

(** X9: stopping a server that has a process handle registers a stop
    worker for that handle and leaves the server [Stopping]; once the
    worker has run, whatever the process did, the server is [Stopped]
    with no handle, the worker is forgotten, and no other server has
    changed. *)
Theorem stop_then_worker_reaches_stopped sid w srv p env :
  servers w !! sid = Some srv ->
  process srv = Some p ->
  let w1 := fst (_stop_server sid None w) in
  let w2 := deliver_actions None (fst (StopWorker_run sid env)) w1 in
  WorkerStart sid p ∈ snd (_stop_server sid None w) /\
  field state sid w1 = Some "Stopping" /\
  stop_workers w1 !! sid
    = Some {| w_server_id := sid; w_process := p; w_on_done := None |} /\
  field state sid w2 = Some "Stopped" /\
  field process sid w2 = Some None /\
  stop_workers w2 !! sid = None /\
  servers w2 = <[sid := finalized (flag_reader srv)]> (servers w).
Proof.
  intros Hs Hp. cbv zeta. rewrite deliver_worker_run.
  rewrite (stop_server_eq sid None w srv Hs). cbv zeta. rewrite Hp. simpl.
  rewrite stop_finalize_eq. unfold field.
  do 3 (simpl; rewrite ?lookup_insert_eq, ?lookup_delete_eq, ?insert_insert_eq).
  rewrite state_flag_reader. simpl.
  repeat split.
  - apply elem_of_app. right. apply list_elem_of_singleton. reflexivity.
  - unfold flag_reader, finalized. simpl. destruct (reader srv); reflexivity.
Qed.

Lemma stop_then_worker_reaches_stopped_witness :
  field state "a1"
    (deliver_actions None (fst (StopWorker_run "a1" env_stubborn))
       (fst (_stop_server "a1" None demo_running))) = Some "Stopped".
Proof.
  destruct (servers demo_running !! "a1") as [srv|] eqn:E;
    [|vm_compute in E; discriminate E].
  refine (proj1 (proj2 (proj2 (proj2
    (stop_then_worker_reaches_stopped "a1" demo_running srv demo_popen env_stubborn
       E _))))).
  vm_compute in E. injection E as <-. reflexivity.
Defined.

(** X10: a second stop request for a server that is being stopped leaves
    the window exactly as the first one left it, but starts one more stop
    worker on the same handle. *)
Theorem duplicate_stop_keeps_window sid cb w srv p :
  servers w !! sid = Some srv ->
  process srv = Some p ->
  let w1 := fst (_stop_server sid cb w) in
  fst (_stop_server sid cb w1) = w1 /\
  WorkerStart sid p ∈ snd (_stop_server sid cb w1).
Proof.
  intros Hs Hp. cbv zeta.
  rewrite (stop_server_eq sid cb w srv Hs). cbv zeta. rewrite Hp. simpl.
  set (srv1 := flag_reader (set_state "Stopping" srv)).
  set (w1 := set_stop_workers _ _).
  assert (H1 : servers w1 !! sid = Some srv1) by (simpl; apply lookup_insert_eq).
  rewrite (stop_server_eq sid cb w1 srv1 H1). cbv zeta.
  assert (Hp1 : process srv1 = Some p).
  { unfold srv1. rewrite process_flag_reader. exact Hp. }
  rewrite Hp1. simpl. split.
  - assert (E : flag_reader (set_state "Stopping" srv1) = srv1).
    { unfold srv1. clear. destruct srv as [? ? ? [rd|] ? ? ? ? ? ? ?]; reflexivity. }
    rewrite E. unfold w1, put, set_servers, set_stop_workers. simpl.
    rewrite !insert_insert_eq. reflexivity.
  - apply elem_of_app. right. apply list_elem_of_singleton. reflexivity.
Qed.

Lemma duplicate_stop_keeps_window_witness :
  fst (_stop_server "a1" None (fst (_stop_server "a1" None demo_running)))
  = fst (_stop_server "a1" None demo_running).
Proof.
  destruct (servers demo_running !! "a1") as [srv|] eqn:E;
    [|vm_compute in E; discriminate E].
  refine (proj1 (duplicate_stop_keeps_window "a1" None demo_running srv demo_popen E _)).
  vm_compute in E. injection E as <-. reflexivity.
Defined.

(** ** The buttons *)

(** X11: the start/stop button of a server does nothing while the server
    is [Stopping], and nothing while it is [Starting] with a running
    process; on a [Running] server it is a stop request, which never
    spawns a process. *)
Theorem toggle_button env sid w srv :
  Py.truthy sid = true ->
  servers w !! sid = Some srv ->
  (state srv = "Stopping" -> _toggle_server_from_button env sid w = (w, [])) /\
  (state srv = "Starting" -> process srv <> None -> se_is_running env = true ->
   _toggle_server_from_button env sid w = (w, [])) /\
  (state srv = "Running" ->
   _toggle_server_from_button env sid w = _stop_server sid None w /\
   filter (fun e => is_spawn e = true) (snd (_toggle_server_from_button env sid w)) = []).
Proof.
  intros Ht Hs. unfold _toggle_server_from_button. rewrite Ht, Hs. simpl.
  split; [|split].
  - intros ->. reflexivity.
  - intros E Hp Hr. rewrite E. simpl. unfold _start_server. rewrite Hs.
    destruct (process srv); [|congruence]. rewrite Hr. reflexivity.
  - intros E. rewrite E. simpl. split; [reflexivity|].
    rewrite (stop_server_eq sid None w srv Hs). cbv zeta.
    destruct (process srv), (reader srv); reflexivity.
Qed.

Lemma toggle_button_witness :
  _toggle_server_from_button (demo_env true) "a1"
    (fst (_start_server (demo_env false) "a1" demo_window))
  = (fst (_start_server (demo_env false) "a1" demo_window), []).
Proof.
  set (w := fst (_start_server (demo_env false) "a1" demo_window)).
  destruct (servers w !! "a1") as [srv|] eqn:E; [|vm_compute in E; discriminate E].
  refine (proj1 (proj2 (toggle_button (demo_env true) "a1" w srv eq_refl E)) _ _ eq_refl);
    vm_compute in E; injection E as <-; [reflexivity|discriminate].
Defined.

(** X12: deleting a server that is neither [Running] nor [Starting]
    removes it at once and leaves the stop workers alone.  The active
    server afterwards is the one whose row the table selects when the
    row is removed, or, when it selects none, the one that was active;
    the active id is cleared when that is the deleted server.  Deleting
    a [Running] or [Starting] server with a handle first stops it, with
    the removal as the callback of the stop worker; once the worker has
    run the server is gone, the other servers are as they were, and the
    active server is settled in the same way. *)
Theorem delete_server_removes sid reselected w srv :
  servers w !! sid = Some srv ->
  let selected := match reselected with
                  | Some s => Some s
                  | None => active_server_id w
                  end in
  (state srv <> "Running" -> state srv <> "Starting" ->
   snd (_delete_server sid reselected w) = [] /\
   servers (fst (_delete_server sid reselected w)) = delete sid (servers w) /\
   stop_workers (fst (_delete_server sid reselected w)) = stop_workers w /\
   active_server_id (fst (_delete_server sid reselected w))
     = (if decide (selected = Some sid) then None else selected)) /\
  (forall p env,
     state srv = "Running" \/ state srv = "Starting" ->
     process srv = Some p ->
     let w1 := fst (_delete_server sid reselected w) in
     let w2 := deliver_actions (Some (really_delete sid reselected))
                 (fst (StopWorker_run sid env)) w1 in
     field state sid w1 = Some "Stopping" /\
     stop_workers w1 !! sid
       = Some {| w_server_id := sid; w_process := p;
                 w_on_done := Some (really_delete sid reselected) |} /\
     servers w2 = delete sid (servers w) /\
     active_server_id w2 = (if decide (selected = Some sid) then None else selected)).
Proof.
  intros Hs. cbv zeta. unfold _delete_server. rewrite Hs. split.
  - intros H1 H2.
    destruct (String.eqb_spec (state srv) "Running") as [E|_]; [contradiction|].
    destruct (String.eqb_spec (state srv) "Starting") as [E|_]; [contradiction|].
    cbn [orb fst snd]. rewrite servers_run_callback.
    pose proof (workers_call_on_done (Some (really_delete sid reselected)) w) as Hw.
    cbn [call_on_done] in Hw. rewrite Hw.
    repeat split. unfold run_callback.
    destruct reselected as [s|]; cbn; destruct (decide _); reflexivity.
  - intros p env Hst Hp.
    assert (E : String.eqb (state srv) "Running" || String.eqb (state srv) "Starting" = true).
    { destruct Hst as [->| ->]; reflexivity. }
    rewrite E. rewrite deliver_worker_run.
    rewrite (stop_server_eq sid _ w srv Hs). cbv zeta. rewrite Hp.
    rewrite stop_finalize_eq. unfold field.
    do 3 (simpl; rewrite ?lookup_insert_eq, ?lookup_delete_eq, ?insert_insert_eq).
    rewrite state_flag_reader. simpl. repeat split.
    + destruct reselected as [s|]; cbn; destruct (decide _); simpl;
        rewrite ?insert_insert_eq, !delete_insert_eq; reflexivity.
    + destruct reselected as [s|]; cbn; destruct (decide _); reflexivity.
Qed.

Lemma delete_server_removes_witness :
  servers (deliver_actions (Some (really_delete "a1" (Some "b2")))
             (fst (StopWorker_run "a1" env_stubborn))
             (fst (_delete_server "a1" (Some "b2") demo_two)))
  = delete "a1" (servers demo_two) /\
  active_server_id
    (deliver_actions (Some (really_delete "a1" (Some "b2")))
       (fst (StopWorker_run "a1" env_stubborn))
       (fst (_delete_server "a1" (Some "b2") demo_two)))
  = Some "b2".
Proof.
  destruct (servers demo_two !! "a1") as [srv|] eqn:E;
    [|vm_compute in E; discriminate E].
  refine (proj2 (proj2 (proj2 (delete_server_removes "a1" (Some "b2") demo_two srv E)
                          demo_popen env_stubborn _ _)));
    vm_compute in E; injection E as <-; [left|]; reflexivity.
Defined.

(** ** The metrics timer *)

(** X13: a tick of the metrics timer is ignored once the window is
    closing.  Otherwise it changes nothing of a runtime but the two
    readings: a server that is not [Running] reads zero afterwards, and
    a [Running] server whose CPU sample fails keeps both readings. *)
Theorem metrics_tick samples w sid srv :
  servers w !! sid = Some srv ->
  (is_closing w = true -> _refresh_metrics samples w = w) /\
  (is_closing w = false ->
   exists srv',
     servers (_refresh_metrics samples w) !! sid = Some srv' /\
     config srv' = config srv /\ process srv' = process srv /\ ps srv' = ps srv /\
     reader srv' = reader srv /\ state srv' = state srv /\
     log_lines srv' = log_lines srv /\
     (state srv <> "Running" ->
      cpu_percent srv' = PrimFloat.zero /\ mem_mb srv' = PrimFloat.zero) /\
     (state srv = "Running" -> sm_cpu (samples sid) = None ->
      cpu_percent srv' = cpu_percent srv /\ mem_mb srv' = mem_mb srv)).
Proof.
  intros Hs. unfold _refresh_metrics. split; intros Hc; rewrite Hc; [reflexivity|].
  simpl. rewrite map_lookup_imap, Hs. simpl. eexists. split; [reflexivity|].
  destruct (refresh_one_fields (samples sid) srv) as (H1 & H2 & H3 & H4 & H5 & H6).
  do 6 (split; [assumption|]). unfold refresh_one. split.
  - intros Hn.
    destruct (String.eqb_spec (state srv) "Running") as [E|_]; [contradiction|].
    rewrite andb_false_r. simpl. auto.
  - intros E Hcpu. rewrite E, Hcpu.
    destruct (match ps srv with Some _ => sm_is_running (samples sid) | None => false end);
      simpl; auto.
Qed.

Lemma metrics_tick_witness :
  exists srv',
    servers (_refresh_metrics (demo_samples PrimFloat.one PrimFloat.two) demo_two)
      !! "b2" = Some srv' /\
    state srv' = "Offline" /\ cpu_percent srv' = PrimFloat.zero.
Proof.
  destruct (servers demo_two !! "b2") as [srv|] eqn:E;
    [|vm_compute in E; discriminate E].
  destruct (proj2 (metrics_tick (demo_samples PrimFloat.one PrimFloat.two)
                     demo_two "b2" srv E) eq_refl)
    as (srv' & E' & _ & _ & _ & _ & Hst & _ & Hz & _).
  exists srv'. split; [exact E'|].
  vm_compute in E. injection E as <-. split; [exact Hst|].
  apply Hz. discriminate.
Defined.

(** ** Log lines *)
Lemma last_append_log text log :
  last (append_log text default_max_lines log) = Some text.
Proof.
  unfold append_log, default_max_lines.
  destruct (Z.gtb_spec (Z.of_nat (length (log ++ [text]))) 8000) as [E|E];
    [|apply last_snoc].
  rewrite length_app in *. simpl in *.
  change (@skipn string) with (@drop string).
  rewrite drop_app_le by lia. apply last_snoc.
Qed.

(** X14: a log line received for a server is the last line of its buffer
    afterwards, also when the buffer was full; the server goes from
    [Starting] to [Running] and stays in any other state; its handle,
    reader and configuration are untouched. *)
Theorem log_line_recorded sid line w srv :
  servers w !! sid = Some srv ->
  exists srv',
    servers (_on_log_line sid line w) !! sid = Some srv' /\
    last (log_lines srv') = Some line /\
    state srv' = (if String.eqb (state srv) "Starting" then "Running" else state srv) /\
    process srv' = process srv /\ reader srv' = reader srv /\
    config srv' = config srv.
Proof.
  intros Hs. unfold _on_log_line. rewrite Hs. simpl. rewrite lookup_insert_eq.
  eexists. split; [reflexivity|]. simpl. split; [apply last_append_log|].
  destruct (String.eqb (state srv) "Starting"); auto.
Qed.

Lemma log_line_recorded_witness :
  exists srv',
    servers (_on_log_line "a1" "LogNet: Listening on port 7777" demo_running) !! "a1"
      = Some srv' /\
    last (log_lines srv') = Some "LogNet: Listening on port 7777".
Proof.
  destruct (servers demo_running !! "a1") as [srv|] eqn:E;
    [|vm_compute in E; discriminate E].
  destruct (log_line_recorded "a1" "LogNet: Listening on port 7777" demo_running srv E)
    as (srv' & E' & Hl & _).
  exists srv'. split; assumption.
Defined.

Lemma append_log_recent text log :
  Z.of_nat (length log) <= 8000 ->
  append_log text default_max_lines log
  = drop (length (log ++ [text]) - Z.to_nat 8000) (log ++ [text]).
Proof.
  intros H. unfold append_log, default_max_lines.
  destruct (Z.gtb_spec (Z.of_nat (length (log ++ [text]))) 8000) as [E|E].
  - f_equal. lia.
  - replace (length (log ++ [text]) - Z.to_nat 8000)%nat with 0%nat by lia. reflexivity.
Qed.

(** X15: after any number of appends to a buffer that held at most 8000
    lines, the buffer is the most recent 8000 lines of everything it was
    given, in order. *)
Theorem append_all_recent texts log :
  Z.of_nat (length log) <= 8000 ->
  append_all texts log
  = drop (length (log ++ texts) - Z.to_nat 8000) (log ++ texts).
Proof.
  revert log. induction texts as [|t texts IH]; intros log H.
  - unfold append_all. simpl. rewrite app_nil_r.
    replace (length log - Z.to_nat 8000)%nat with 0%nat by lia. reflexivity.
  - unfold append_all in *. cbn [fold_left].
    rewrite IH by apply append_log_length.
    rewrite append_log_recent by exact H.
    set (l := log ++ [t]).
    replace (log ++ t :: texts) with (l ++ texts)
      by (unfold l; rewrite <- app_assoc; reflexivity).
    assert (Hl : (length l <= S (Z.to_nat 8000))%nat).
    { unfold l. rewrite length_app. simpl. lia. }
    set (k := (length l - Z.to_nat 8000)%nat).
    assert (Hk : (k <= length l)%nat) by (unfold k; lia).
    rewrite <- (drop_app_le l texts k Hk), drop_drop.
    f_equal. rewrite length_drop, !length_app. unfold k. lia.
Qed.

Lemma append_all_recent_witness :
  append_all ["b"; "c"] ["a"]
  = drop (length (["a"] ++ ["b"; "c"]) - Z.to_nat 8000) (["a"] ++ ["b"; "c"]).
Proof. apply (append_all_recent ["b"; "c"] ["a"]). simpl. lia. Defined.

Lemma append_all_snoc texts t log :
  append_all (texts ++ [t]) log = append_log t default_max_lines (append_all texts log).
Proof. unfold append_all. rewrite fold_left_app. reflexivity. Qed.

Lemma deliver_lines sid lines w srv :
  servers w !! sid = Some srv ->
  exists srv',
    servers (deliver_signals (map (line_received sid) lines) w) !! sid = Some srv' /\
    process srv' = process srv /\
    config srv' = config srv /\
    log_lines srv' = append_all lines (log_lines srv).
Proof.
  revert w srv. induction lines as [|l lines IH]; intros w srv Hs.
  - exists srv. auto.
  - unfold deliver_signals in *. cbn [map fold_left deliver_signal].
    assert (H1 : servers (_on_log_line sid l w) !! sid
                 = Some (runtime_append_log l
                           (if String.eqb (state srv) "Starting"
                            then set_state "Running" srv else srv))).
    { unfold _on_log_line. rewrite Hs. simpl. apply lookup_insert_eq. }
    destruct (IH _ _ H1) as (srv' & E & Hp & Hc & Hl).
    exists srv'. split; [exact E|]. rewrite Hp, Hc, Hl. simpl.
    destruct (String.eqb (state srv) "Starting"); auto.
Qed.

Lemma c_int_prints n : Py.str (c_int n) = Some (Py.str_of_int (c_int n)).
Proof.
  unfold Py.str. pose proof (c_int_range n) as R.
  assert (B : 2 ^ 31 < Py.str_bound) by (vm_compute; reflexivity).
  destruct (Z.leb_spec Py.str_bound (Z.abs (c_int n))) as [L|_]; [lia|reflexivity].
Qed.

(** The signals of a run, delivered: the lines, then the exit. *)
Lemma deliver_run sid lines rc w srv :
  servers w !! sid = Some srv ->
  exists srv',
    servers (deliver_signals
               (map (line_received sid) lines ++ [process_finished sid (c_int rc)]) w)
      !! sid = Some srv' /\
    state srv' = "Stopped" /\
    process srv' = process srv /\
    log_lines srv' = append_all (lines ++ [exited_line (c_int rc)]) (log_lines srv).
Proof.
  intros Hs.
  destruct (deliver_lines sid lines w srv Hs) as (srv1 & E1 & Hp & _ & Hl).
  unfold deliver_signals in *. rewrite fold_left_app. cbn [fold_left deliver_signal].
  unfold _on_process_finished. rewrite E1, c_int_prints. simpl. rewrite lookup_insert_eq.
  eexists. split; [reflexivity|]. simpl.
  rewrite append_all_snoc, Hl. auto.
Qed.

(** X17: when the window has received all the signals of one run of a
    log reader, the server is [Stopped], its process handle is still the
    one it had, and its buffer has taken up the lines read before the
    loop ended, in order, followed by the line that reports the exit
    code as the signal carried it, in 32 bits. *)
Theorem reader_run_ends_stopped sid env w srv :
  servers w !! sid = Some srv ->
  let exit_line := exited_line (c_int (exit_code env)) in
  exists srv',
    servers (deliver_signals (fst (LogReaderThread_run sid env)) w) !! sid = Some srv' /\
    state srv' = "Stopped" /\
    process srv' = process srv /\
    (forall pre rest,
       re_stdout env = Some (pre ++ rest) ->
       Forall undisturbed pre -> loop_ends rest ->
       log_lines srv' = append_all (yielded pre ++ [exit_line]) (log_lines srv)) /\
    (re_stdout env = None ->
       log_lines srv' = append_all [exit_line] (log_lines srv)) /\
    (exists lines,
       lines `prefix_of` stream_lines env /\
       log_lines srv' = append_all (lines ++ [exit_line]) (log_lines srv)).
Proof.
  intros Hs. cbv zeta.
  assert (Ec : exit_code env = default (-1) (re_wait env))
    by (unfold exit_code; destruct (re_wait env); reflexivity).
  assert (Sh : exists lines,
             fst (LogReaderThread_run sid env)
               = map (line_received sid) lines
                   ++ [process_finished sid (c_int (exit_code env))] /\
             lines `prefix_of` stream_lines env).
  { unfold LogReaderThread_run, stream_lines. rewrite Ec.
    destruct (re_stdout env) as [steps|].
    - destruct (read_loop_shape sid steps) as [lines [E P]].
      destruct (read_loop sid steps) as [out raised]. simpl in *. subst out.
      exists lines. destruct (re_wait env); auto.
    - exists []. destruct (re_wait env); simpl; auto using prefix_nil. }
  destruct Sh as (lines & Eout & P).
  destruct (deliver_run sid lines (exit_code env) w srv Hs) as (srv' & E' & Hst & Hp & Hl).
  rewrite <- Eout in E'.
  exists srv'. do 3 (split; [assumption|]). split; [|split].
  - intros pre rest Hout Hpre Hrest.
    destruct (deliver_run sid (yielded pre) (exit_code env) w srv Hs)
      as (srv2 & E2 & _ & _ & Hl2).
    assert (Eq : fst (LogReaderThread_run sid env)
                 = map (line_received sid) (yielded pre)
                     ++ [process_finished sid (c_int (exit_code env))]).
    { destruct env as [out wt]. cbn in Hout. subst out. rewrite Ec.
      rewrite (reader_run_exact sid pre rest wt Hpre Hrest). reflexivity. }
    rewrite Eq in E'. rewrite E2 in E'. injection E' as <-. exact Hl2.
  - intros Hnone.
    destruct (deliver_run sid [] (exit_code env) w srv Hs) as (srv2 & E2 & _ & _ & Hl2).
    assert (Eq : fst (LogReaderThread_run sid env)
                 = [process_finished sid (c_int (exit_code env))]).
    { unfold LogReaderThread_run. rewrite Hnone, Ec. destruct (re_wait env); reflexivity. }
    rewrite Eq in E'. cbn [map app] in E2. rewrite E2 in E'. injection E' as <-. exact Hl2.
  - exists lines. split; assumption.
Qed.

Lemma reader_run_ends_stopped_witness :
  exists srv',
    servers (deliver_signals
               (fst (LogReaderThread_run "a1"
                       {| re_stdout := Some [Yield "one" false; Yield "two" false];
                          re_wait := Some 0 |}))
               demo_running) !! "a1" = Some srv' /\
    state srv' = "Stopped".
Proof.
  destruct (servers demo_running !! "a1") as [srv|] eqn:E;
    [|vm_compute in E; discriminate E].
  destruct (reader_run_ends_stopped "a1"
              {| re_stdout := Some [Yield "one" false; Yield "two" false];
                 re_wait := Some 0 |} demo_running srv E)
    as (srv' & E' & Hst & _).
  exists srv'. split; assumption.
Defined.

(** X16: a reader whose stream is read to its end, with no stop request
    and no failing read, emits every line of the stream, in order, then
    the exit event, which carries the wait result (or -1) in 32 bits, and
    returns normally. *)
Theorem reader_delivers_whole_stream server_id steps w :
  Forall (fun st => exists line, st = Yield line false) steps ->
  LogReaderThread_run server_id {| re_stdout := Some steps; re_wait := w |}
  = (map (line_received server_id) (yielded steps)
       ++ [process_finished server_id (c_int (default (-1) w))], false).
Proof.
  intros H. rewrite <- (app_nil_r steps) at 1.
  apply (reader_run_exact server_id steps [] w H I).
Qed.

Lemma reader_delivers_whole_stream_witness :
  LogReaderThread_run "a1"
    {| re_stdout := Some [Yield "one" false; Yield "two" false]; re_wait := Some 0 |}
  = ([line_received "a1" "one"; line_received "a1" "two"; process_finished "a1" 0],
     false).
Proof.
  apply (reader_delivers_whole_stream "a1" [Yield "one" false; Yield "two" false] (Some 0)).
  repeat constructor; eauto.
Defined.

(** ** Starting *)

(** X18: a start goes through completely or not at all.  Either the
    command was built and the process spawned, and the server is
    [Starting] with the new handle, a fresh reader, the command recorded
    as the last log line and the server made the active one; or no
    reader is started and state, log buffer, reader and active server
    are as before, and so is the handle whenever the executable is
    missing, the command cannot be built or the spawn fails. *)
Theorem start_all_or_nothing env sid w srv :
  servers w !! sid = Some srv ->
  let w' := fst (_start_server env sid w) in
  let eff := snd (_start_server env sid w) in
  exists srv',
    servers w' !! sid = Some srv' /\
    config srv' = config srv /\
    ((exists popen cmd,
        se_popen env = Some popen /\
        build_command (se_resolved env) (config srv) = Some cmd /\
        filter (fun e => is_reader_start e = true) eff = [ReaderStart sid popen] /\
        filter (fun e => is_spawn e = true) eff = [SpawnProcess cmd] /\
        state srv' = "Starting" /\
        process srv' = Some popen /\
        reader srv' = Some {| r_server_id := sid; r_popen := popen; r_stop := false |} /\
        last (log_lines srv') = Some (started_line cmd) /\
        active_server_id w' = Some sid) \/
     (filter (fun e => is_reader_start e = true) eff = [] /\
      state srv' = state srv /\
      log_lines srv' = log_lines srv /\
      reader srv' = reader srv /\
      active_server_id w' = active_server_id w /\
      (se_popen env = None \/
       build_command (se_resolved env) (config srv) = None \/
       se_resolved env = None \/ se_exists env = false ->
       process srv' = process srv))).
Proof.
  intros Hs. cbv zeta. unfold _start_server. rewrite Hs.
  destruct (match process srv with Some _ => se_is_running env | None => false end).
  { exists srv. simpl. split; [exact Hs|]. split; [reflexivity|]. right. auto 10. }
  destruct (se_resolved env) as [e|] eqn:Er; cycle 1.
  { exists srv. simpl. split; [exact Hs|]. split; [reflexivity|]. right. auto 10. }
  destruct (Py.truthy e && se_exists env) eqn:Ex; simpl; cycle 1.
  { exists srv. simpl. split; [exact Hs|]. split; [reflexivity|]. right. auto 10. }
  destruct (effective_port _) as [eport|].
  2:{ eexists. simpl. rewrite lookup_insert_eq. split; [reflexivity|]. simpl.
      split; [reflexivity|]. right. auto 10. }
  destruct (se_port_in_use env) as [busy|].
  2:{ eexists. simpl. rewrite lookup_insert_eq. split; [reflexivity|]. simpl.
      split; [reflexivity|]. right. auto 10. }
  destruct (if busy then Py.str eport else Some "") as [shown|].
  2:{ eexists. simpl. rewrite lookup_insert_eq. split; [reflexivity|]. simpl.
      split; [reflexivity|]. right. auto 10. }
  destruct (busy && negb (se_answer_yes env)).
  { eexists. simpl. rewrite lookup_insert_eq. split; [reflexivity|]. simpl.
    split; [reflexivity|]. right. destruct busy; simpl; auto 10. }
  destruct (build_command (Some e) (config srv)) as [cmd|] eqn:Eb.
  2:{ eexists. simpl. rewrite lookup_insert_eq. split; [reflexivity|]. simpl.
      split; [reflexivity|]. right. destruct busy; simpl; auto 10. }
  destruct (se_popen env) as [popen|] eqn:Ep.
  2:{ eexists. simpl. rewrite lookup_insert_eq. split; [reflexivity|]. simpl.
      split; [reflexivity|]. right. destruct busy; simpl; auto 10. }
  apply andb_true_iff in Ex. destruct Ex as [_ Ex].
  destruct (se_ps env) as [p|].
  - eexists. simpl. rewrite lookup_insert_eq. split; [reflexivity|]. simpl.
    split; [reflexivity|]. left. exists popen, cmd.
    rewrite last_append_log. destruct busy; simpl; auto 12.
  - eexists. simpl. rewrite lookup_insert_eq. split; [reflexivity|]. simpl.
    split; [reflexivity|]. right. destruct busy; simpl; repeat split; auto;
      intros [H|[H|[H|H]]]; congruence.
Qed.

Lemma start_all_or_nothing_witness :
  exists srv',
    servers (fst (_start_server (demo_env false) "a1" demo_window)) !! "a1" = Some srv' /\
    config srv' = demo_cfg.
Proof.
  destruct (servers demo_window !! "a1") as [srv|] eqn:E;
    [|vm_compute in E; discriminate E].
  destruct (start_all_or_nothing (demo_env false) "a1" demo_window srv E)
    as (srv' & E' & Hc & _).
  exists srv'. split; [exact E'|]. rewrite Hc.
  vm_compute in E. injection E as <-. reflexivity.
Defined.

(** *** Custom parameters the shell syntax rejects *)
Lemma lex_quote_open q body quoted tok :
  lacks q body = true -> lacks "\" body = true ->
  Shlex.lex (Shlex.InQuote q) quoted tok body = None.
Proof.
  revert quoted tok. induction body as [|c r IH]; intros quoted tok Hq He; [reflexivity|].
  cbn [lacks] in Hq, He. apply andb_true_iff in Hq, He.
  destruct Hq as [Hq Hq'], He as [He He']. apply negb_true_iff in Hq, He.
  cbn [Shlex.lex]. rewrite Hq. unfold Shlex.is_escape. rewrite He. simpl. auto.
Qed.

Lemma lex_plain_prefix pre rest :
  plain pre = true ->
  (forall qd tk, Shlex.lex Shlex.InSpace qd tk rest = None) ->
  (forall qd tk, Shlex.lex Shlex.InWord qd tk rest = None) ->
  (forall qd tk, Shlex.lex Shlex.InSpace qd tk (pre +:+ rest) = None) /\
  (forall qd tk, Shlex.lex Shlex.InWord qd tk (pre +:+ rest) = None).
Proof.
  intros Hp Hs Hw. induction pre as [|c pre IH]; [split; assumption|].
  cbn [plain] in Hp. apply andb_true_iff in Hp. destruct Hp as [Hp Hp'].
  apply andb_true_iff in Hp. destruct Hp as [Hq He]. apply negb_true_iff in Hq, He.
  destruct (IH Hp') as [IHs IHw].
  split; intros qd tk; rewrite append_cons; cbn [Shlex.lex]; rewrite Hq, He;
    destruct (Shlex.is_whitespace c); rewrite ?IHs, ?IHw; reflexivity.
Qed.

Lemma quote_cases q :
  Shlex.is_quote q = true -> q = "'"%char \/ q = "034"%char.
Proof.
  unfold Shlex.is_quote. intros H. apply orb_true_iff in H.
  destruct H as [H|H]; apply Ascii.eqb_eq in H; auto.
Qed.

Lemma split_unclosed pre q body :
  plain pre = true -> Shlex.is_quote q = true ->
  lacks q body = true -> lacks "\" body = true ->
  Shlex.split (pre +:+ String q body) = None.
Proof.
  intros Hp Hq Hb He. unfold Shlex.split.
  apply (lex_plain_prefix pre (String q body) Hp); intros qd tk; cbn [Shlex.lex];
    destruct (quote_cases q Hq) as [-> | ->]; simpl; apply lex_quote_open; assumption.
Qed.

Lemma truthy_strip_nonspace pre c rest :
  Py.is_space c = false -> Py.truthy (Py.strip (pre +:+ String c rest)) = true.
Proof.
  intros Hc. unfold Py.strip.
  assert (L : exists c' r', Py.lstrip (pre +:+ String c rest) = String c' r' /\
                            Py.is_space c' = false).
  { induction pre as [|x pre IH].
    - rewrite append_nil_l. cbn [Py.lstrip]. rewrite Hc. eauto.
    - rewrite append_cons. cbn [Py.lstrip]. destruct (Py.is_space x) eqn:E; eauto. }
  destruct L as (c' & r' & -> & Hc'). apply rstrip_head, Hc'.
Qed.

(** X19: custom parameters in which a quote is opened and never closed
    make [build_command] fail, whatever the port; a start of a server
    with such parameters spawns nothing and leaves state and handle as
    they were. *)
Theorem unclosed_quote_aborts_start resolved cfg pre q body :
  custom_params cfg = pre +:+ String q body ->
  plain pre = true -> Shlex.is_quote q = true ->
  lacks q body = true -> lacks "\" body = true ->
  build_command resolved cfg = None /\
  (forall env sid w srv,
     servers w !! sid = Some srv -> config srv = cfg ->
     filter (fun e => is_spawn e = true) (snd (_start_server env sid w)) = [] /\
     field state sid (fst (_start_server env sid w)) = Some (state srv) /\
     field process sid (fst (_start_server env sid w)) = Some (process srv)).
Proof.
  intros Hc Hp Hq Hb He.
  assert (B : forall r, build_command r cfg = None).
  { intros r. rewrite build_command_shape. unfold custom_tokens. rewrite Hc.
    rewrite truthy_strip_nonspace.
    - rewrite split_unclosed by assumption. destruct (_ && _); reflexivity.
    - destruct (quote_cases q Hq) as [-> | ->]; reflexivity. }
  split; [apply B|].
  intros env sid w srv Hs Hcfg. unfold _start_server, field. rewrite Hs.
  destruct (match process srv with Some _ => se_is_running env | None => false end).
  { simpl. rewrite Hs. auto. }
  destruct (negb _). { simpl. rewrite Hs. auto. }
  destruct (effective_port _) as [eport|].
  2:{ simpl. rewrite lookup_insert_eq. auto. }
  destruct (se_port_in_use env) as [busy|].
  2:{ simpl. rewrite lookup_insert_eq. auto. }
  destruct (if busy then Py.str eport else Some "") as [shown|].
  2:{ simpl. rewrite lookup_insert_eq. auto. }
  destruct (busy && negb (se_answer_yes env)).
  { simpl. rewrite lookup_insert_eq. destruct busy; auto. }
  cbn [config set_private_ip]. rewrite Hcfg, B.
  simpl. rewrite lookup_insert_eq. destruct busy; auto.
Qed.

Lemma unclosed_quote_aborts_start_witness :
  build_command None (cfg_demo 7777 unclosed_params) = None.
Proof.
  refine (proj1 (unclosed_quote_aborts_start None (cfg_demo 7777 unclosed_params)
                   "-log -Name=" "034" "My Server" _ _ _ _ _)); reflexivity.
Defined.


(** *** Custom parameters without quotes *)
Lemma blank_free_snoc tok c :
  blank_free tok = true -> Shlex.is_whitespace c = false ->
  blank_free (Shlex.snoc tok c) = true.
Proof.
  intros Ht Hc. unfold Shlex.snoc. induction tok as [|x tok IH].
  - rewrite append_nil_l. simpl. rewrite Hc. reflexivity.
  - rewrite append_cons. cbn [blank_free] in *. apply andb_true_iff in Ht.
    destruct Ht as [-> Ht]. simpl. auto.
Qed.

Lemma words_from_tokens tok s :
  blank_free tok = true -> Forall is_token (words_from tok s).
Proof.
  revert tok. induction s as [|c s IH]; intros tok Ht; cbn [words_from].
  - destruct (Py.truthy tok) eqn:E; constructor; [split; assumption|constructor].
  - destruct (Shlex.is_whitespace c) eqn:W.
    + destruct (Py.truthy tok) eqn:E; [constructor; [split; assumption|]|]; apply IH; reflexivity.
    + apply IH, blank_free_snoc; assumption.
Qed.

Lemma words_from_token tok t s :
  blank_free t = true -> words_from tok (t +:+ s) = words_from (tok +:+ t) s.
Proof.
  revert tok. induction t as [|c t IH]; intros tok Ht.
  - rewrite append_nil_l, append_nil_r. reflexivity.
  - cbn [blank_free] in Ht. apply andb_true_iff in Ht. destruct Ht as [Hc Ht].
    apply negb_true_iff in Hc.
    rewrite append_cons. cbn [words_from]. rewrite Hc, IH by exact Ht.
    unfold Shlex.snoc. rewrite append_assoc. reflexivity.
Qed.

Lemma words_join toks :
  Forall is_token toks -> words (join_space toks) = toks.
Proof.
  unfold words, join_space. induction 1 as [|t toks [Hn Hb] Hall IH]; [reflexivity|].
  cbn [String.concat]. destruct toks as [|u toks].
  - rewrite <- (append_nil_r t) at 1. rewrite words_from_token, append_nil_l by exact Hb.
    cbn [words_from]. rewrite Hn. reflexivity.
  - rewrite words_from_token, append_nil_l by exact Hb.
    change (" " +:+ String.concat " " (u :: toks))
      with (String " " (String.concat " " (u :: toks))).
    cbn [words_from]. change (Shlex.is_whitespace " ") with true. cbv iota.
    rewrite Hn, IH. reflexivity.
Qed.

(** X20: for custom parameters without quotes and backslashes
    [build_command] fails in one case only, when it has to print, for
    the default port option, a configured port of more than 4300 digits;
    what it appends after the flags (and the default port option) are
    the blank-separated words of the parameters, in order, each
    non-empty and free of blanks, so that joining them with single
    blanks and splitting again gives the same words. *)
Theorem plain_params_pass_as_words resolved cfg :
  plain (custom_params cfg) = true ->
  exists toks,
    custom_tokens cfg = Some toks /\
    toks = (if Py.truthy (Py.strip (custom_params cfg))
            then words (custom_params cfg) else []) /\
    build_command resolved cfg
      = (if no_port_override cfg && negb (port_prints cfg) then None
         else Some ([command_exe resolved cfg]
                      ++ (if Py.truthy (project_path cfg) then [project_path cfg] else [])
                      ++ fixed_flags
                      ++ (if no_port_override cfg then [default_port_arg cfg] else [])
                      ++ toks)) /\
    Forall (fun t => Py.truthy t = true /\ blank_free t = true) toks /\
    words (join_space toks) = toks.
Proof.
  intros Hp. eexists. split; [apply custom_tokens_plain, Hp|]. split; [reflexivity|].
  rewrite build_command_shape, (custom_tokens_plain cfg Hp). split; [reflexivity|].
  assert (T : Forall is_token
                (if Py.truthy (Py.strip (custom_params cfg))
                 then words (custom_params cfg) else [])).
  { destruct (Py.truthy _); [apply words_from_tokens; reflexivity|constructor]. }
  split; [exact T|apply words_join, T].
Qed.

Lemma plain_params_pass_as_words_witness :
  exists toks,
    custom_tokens (cfg_demo 7777 " -log   -NoSteam ") = Some toks /\
    words (join_space toks) = toks.
Proof.
  destruct (plain_params_pass_as_words None (cfg_demo 7777 " -log   -NoSteam ") eq_refl)
    as (toks & Ht & _ & _ & _ & Hj).
  exists toks. split; assumption.
Defined.

(** X21: the effective port is the configured port whenever the lowered
    custom parameters contain neither [-port=] nor [-netport=], and it
    is never negative when the configured port is not. *)
Theorem effective_port_override_only cfg :
  (no_port_override cfg = true -> effective_port cfg = Some (port cfg)) /\
  (0 <= port cfg -> forall p, effective_port cfg = Some p -> 0 <= p).
Proof.
  split.
  - intros H. unfold effective_port. rewrite (no_override_no_match cfg H). reflexivity.
  - intros H p. unfold effective_port. destruct (Re.search _) as [g|].
    + intros E. apply int_of_digits_decimal in E. subst p. apply decimal_nonneg.
    + intros [= <-]. exact H.
Qed.

Lemma effective_port_override_only_witness :
  effective_port (cfg_demo 7777 "-log -Portal=3") = Some 7777.
Proof.
  apply (proj1 (effective_port_override_only (cfg_demo 7777 "-log -Portal=3"))).
  reflexivity.
Defined.

(** ** Adding a server *)
Lemma int_digits_uint d b acc :
  d <> Decimal.Nil \/ b = true ->
  int_digits b acc (NilEmpty.string_of_uint d) = Some (uint_value d acc).
Proof.
  revert b acc. induction d; intros b acc H; cbn [NilEmpty.string_of_uint uint_value int_digits];
    try (match goal with
         | |- context [Py.is_digit ?c] =>
             let v := eval vm_compute in (digit_value c) in
             change (Py.is_digit c) with true; change (digit_value c) with v
         end;
         cbv iota; rewrite IHd by (right; reflexivity); f_equal; f_equal; lia).
  destruct H as [H| ->]; [congruence|reflexivity].
Qed.

Lemma uint_value_acc d acc :
  Z.pos (Pos.of_uint_acc d acc) = uint_value d (Z.pos acc).
Proof.
  revert acc. induction d; intros acc; cbn [Pos.of_uint_acc uint_value];
    try reflexivity; rewrite IHd; f_equal; lia.
Qed.

Lemma uint_value_of_uint d : Z.of_uint d = uint_value d 0.
Proof.
  unfold Z.of_uint. induction d; cbn [Pos.of_uint uint_value]; try reflexivity;
    try (cbn [Z.of_N]; rewrite uint_value_acc; reflexivity).
  exact IHd.
Qed.

Lemma rstrip_space_free s : space_free s = true -> Py.rstrip s = s.
Proof.
  induction s as [|c r IH]; [reflexivity|]. cbn [space_free Py.rstrip].
  intros H. apply andb_true_iff in H. destruct H as [Hc Hr].
  apply negb_true_iff in Hc. rewrite (IH Hr), Hc. destruct r; reflexivity.
Qed.

Lemma strip_space_free s : space_free s = true -> Py.strip s = s.
Proof.
  intros H. unfold Py.strip.
  assert (L : Py.lstrip s = s).
  { destruct s as [|c r]; [reflexivity|]. cbn [space_free] in H.
    apply andb_true_iff in H. destruct H as [Hc _]. apply negb_true_iff in Hc.
    cbn [Py.lstrip]. rewrite Hc. reflexivity. }
  rewrite L. apply rstrip_space_free, H.
Qed.

Lemma digit_not_space c : Py.is_digit c = true -> Py.is_space c = false.
Proof.
  destruct c as [[] [] [] [] [] [] [] []]; intros H; try reflexivity; discriminate H.
Qed.

Lemma digits_space_free s : all_digits s = true -> space_free s = true.
Proof.
  induction s as [|c r IH]; [reflexivity|]. cbn [all_digits space_free].
  intros H. apply andb_true_iff in H. destruct H as [Hc Hr].
  rewrite (digit_not_space c Hc), (IH Hr). reflexivity.
Qed.

Lemma py_int_digits s :
  all_digits s = true ->
  py_int s = if Py.max_str_digits <? count_digits s then None
             else int_digits false 0 s.
Proof.
  intros H. unfold py_int. rewrite strip_space_free by apply digits_space_free, H.
  destruct (Py.max_str_digits <? count_digits s); [reflexivity|].
  destruct s as [|c r]; [reflexivity|]. cbn [all_digits] in H.
  apply andb_true_iff in H. destruct H as [Hc _].
  destruct c as [[] [] [] [] [] [] [] []]; try discriminate Hc; reflexivity.
Qed.

(** [int(str(n))] is [n] as long as the numeral has at most 4300
    digits; beyond that [int] raises. *)
Lemma py_int_of_str n :
  py_int (Py.str_of_int n)
  = if Py.max_str_digits <? count_digits (Py.str_of_int n) then None else Some n.
Proof.
  destruct n as [|p|p]; [reflexivity| |].
  - rewrite py_int_digits by (apply str_of_int_digits; lia).
    destruct (Py.max_str_digits <? count_digits _); [reflexivity|].
    rewrite str_of_pos, int_digits_uint
      by (left; apply DecimalPos.Unsigned.to_uint_nonnil).
    rewrite <- uint_value_of_uint. unfold Z.of_uint.
    rewrite DecimalPos.Unsigned.of_to. reflexivity.
  - assert (E : Py.str_of_int (Z.neg p)
                = String "-" (NilEmpty.string_of_uint (Pos.to_uint p))).
    { unfold Py.str_of_int. simpl. unfold NilZero.string_of_uint.
      pose proof (DecimalPos.Unsigned.to_uint_nonnil p) as Hn.
      destruct (Pos.to_uint p); congruence. }
    rewrite E. unfold py_int. rewrite strip_space_free.
    + destruct (Py.max_str_digits <? count_digits _); [reflexivity|].
      rewrite int_digits_uint by (left; apply DecimalPos.Unsigned.to_uint_nonnil).
      rewrite <- uint_value_of_uint. unfold Z.of_uint.
      rewrite DecimalPos.Unsigned.of_to. reflexivity.
    + cbn [space_free]. rewrite digits_space_free by apply all_digits_uint. reflexivity.
Qed.

(** A numeral has no more digits than the number has bits. *)
Lemma count_digits_length s : count_digits s <= Z.of_nat (String.length s).
Proof.
  induction s as [|c r IH]; [reflexivity|]. cbn [count_digits String.length].
  destruct (Py.is_digit c); lia.
Qed.

Lemma length_string_of_uint d :
  String.length (NilEmpty.string_of_uint d) = Decimal.nb_digits d.
Proof. induction d; simpl; congruence. Qed.

Lemma nb_digits_double d :
  (Decimal.nb_digits (Decimal.Little.double d) <= S (Decimal.nb_digits d))%nat /\
  (Decimal.nb_digits (Decimal.Little.succ_double d) <= S (Decimal.nb_digits d))%nat.
Proof. induction d; simpl; lia. Qed.

Lemma nb_digits_little p :
  (Decimal.nb_digits (Pos.to_little_uint p) <= Pos.size_nat p)%nat.
Proof.
  induction p as [p IH|p IH|]; simpl; [| |lia].
  - pose proof (proj2 (nb_digits_double (Pos.to_little_uint p))). lia.
  - pose proof (proj1 (nb_digits_double (Pos.to_little_uint p))). lia.
Qed.

Lemma size_nat_bound p : forall n, Z.pos p < 2 ^ Z.of_nat n -> (Pos.size_nat p <= n)%nat.
Proof.
  induction p as [p IH|p IH|]; intros [|n] H; simpl in H; try lia;
    rewrite ?Nat2Z.inj_succ, ?Z.pow_succ_r in H by lia; simpl.
  - specialize (IH n). lia.
  - specialize (IH n). lia.
  - lia.
Qed.

Lemma count_digits_port p : 1 <= p <= 65535 -> count_digits (Py.str_of_int p) <= 16.
Proof.
  intros H. destruct p as [|q|q]; try lia.
  rewrite str_of_pos. etransitivity; [apply count_digits_length|].
  rewrite length_string_of_uint. unfold Pos.to_uint.
  rewrite DecimalFacts.nb_digits_rev.
  pose proof (nb_digits_little q). pose proof (size_nat_bound q 16).
  change (2 ^ Z.of_nat 16) with 65536 in *. lia.
Qed.

Lemma parse_port_bounds text q : parse_port text = Some q -> 1 <= q <= 65535.
Proof.
  unfold parse_port. destruct (py_int text) as [x|]; [|discriminate].
  destruct (Z.leb_spec 1 x), (Z.leb_spec x 65535); simpl; intros [= <-]; lia.
Qed.

(** X22: a port typed as a decimal number is accepted exactly when it
    lies between 1 and 65535, and whatever text is accepted stands for a
    port in that range. *)
Theorem parse_port_range p :
  (1 <= p <= 65535 -> parse_port (Py.str_of_int p) = Some p) /\
  (p < 1 \/ 65535 < p -> parse_port (Py.str_of_int p) = None) /\
  (forall text q, parse_port text = Some q -> 1 <= q <= 65535).
Proof.
  split; [|split].
  - intros [H1 H2]. unfold parse_port. rewrite py_int_of_str.
    pose proof (count_digits_port p (conj H1 H2)) as Hd.
    destruct (Z.ltb_spec Py.max_str_digits (count_digits (Py.str_of_int p)));
      [unfold Py.max_str_digits in *; lia|].
    destruct (Z.leb_spec 1 p), (Z.leb_spec p 65535); simpl; auto; lia.
  - intros H. unfold parse_port. rewrite py_int_of_str.
    destruct (Py.max_str_digits <? count_digits (Py.str_of_int p)); [reflexivity|].
    destruct (Z.leb_spec 1 p), (Z.leb_spec p 65535); simpl; auto; lia.
  - exact parse_port_bounds.
Qed.

Lemma parse_port_range_witness :
  parse_port (Py.str_of_int 8080) = Some 8080 /\
  parse_port (Py.str_of_int 70000) = None.
Proof.
  split.
  - apply (proj1 (parse_port_range 8080)). lia.
  - apply (proj1 (proj2 (parse_port_range 70000))). lia.
Defined.

Lemma truthy_append a b : Py.truthy a = true -> Py.truthy (a +:+ b) = true.
Proof. destruct a; [discriminate|reflexivity]. Qed.

(** X23: [_add_server] either leaves the window as it is (one of the
    three warnings) or files one new runtime under the fresh id: a
    configuration with a port between 1 and 65535 (7777 when the port
    field is blank), a non-empty name, engine path and project path, and
    the stripped custom parameters; the runtime is [Offline] with no
    handle, and it becomes the active server. *)
Theorem add_server_outcome env form w :
  match snd (_add_server env form w) with
  | Added cfg =>
      1 <= port cfg <= 65535 /\
      (Py.strip (f_port form) = "" -> port cfg = 7777) /\
      id cfg = ae_uuid env /\
      Py.truthy (name cfg) = true /\
      Py.truthy (engine_path cfg) = true /\
      Py.truthy (project_path cfg) = true /\
      custom_params cfg = Py.strip (f_custom form) /\
      servers (fst (_add_server env form w))
        = <[id cfg := set_private_ip (ae_private_ip env) (new_runtime cfg)]> (servers w) /\
      stop_workers (fst (_add_server env form w)) = stop_workers w /\
      active_server_id (fst (_add_server env form w)) = Some (id cfg)
  | _ => fst (_add_server env form w) = w
  end.
Proof.
  unfold _add_server.
  destruct (parse_port (str_or (Py.strip (f_port form)) "7777")) as [p|] eqn:Ep;
    [|reflexivity].
  destruct (Py.truthy (Py.strip (f_engine form))) eqn:Te; [|reflexivity].
  destruct (ae_engine_exists env); [|reflexivity].
  destruct (Py.truthy (Py.strip (f_project form))) eqn:Tp; [|reflexivity].
  destruct (ae_project_exists env); [|reflexivity].
  simpl. repeat split; auto.
  - apply (parse_port_bounds _ _ Ep).
  - apply (parse_port_bounds _ _ Ep).
  - intros E. rewrite E in Ep. vm_compute in Ep. congruence.
  - unfold str_or. destruct (Py.truthy (Py.strip (f_name form))) eqn:Tn; [exact Tn|].
    apply truthy_append. reflexivity.
Qed.

Lemma add_server_outcome_witness :
  match snd (_add_server demo_add_env (demo_form "  ") demo_window) with
  | Added cfg => port cfg = 7777
  | _ => False
  end.
Proof.
  pose proof (add_server_outcome demo_add_env (demo_form "  ") demo_window) as H.
  destruct (snd (_add_server demo_add_env (demo_form "  ") demo_window)) eqn:E;
    try (vm_compute in E; discriminate E).
  apply (proj1 (proj2 H)). reflexivity.
Defined.


(** ** The private address *)
Lemma first_non_loopback_spec l :
  match first_non_loopback l with
  | Some a => exists pre post, l = pre ++ a :: post /\ Forall loopback pre /\
                               Py.startswith "127." a = false
  | None => Forall loopback l
  end.
Proof.
  induction l as [|x l IH]; cbn [first_non_loopback]; [constructor|].
  destruct (Py.startswith "127." x) eqn:E; cbn [negb].
  - destruct (first_non_loopback l) as [a|].
    + destruct IH as (pre & post & Hl & Hp & Ha). exists (x :: pre), post.
      rewrite Hl. repeat split; auto; constructor; assumption.
    + constructor; assumption.
  - exists [], l. repeat split; auto; constructor.
Qed.

(** X24: [get_private_ip] returns the first address of the host that
    does not start with [127.], and [127.0.0.1] when there is none or
    the lookup fails; it never returns another loopback address. *)
Theorem private_ip_first_non_loopback addrs :
  (Py.startswith "127." (get_private_ip addrs) = true ->
   get_private_ip addrs = "127.0.0.1") /\
  match addrs with
  | None => get_private_ip addrs = "127.0.0.1"
  | Some l =>
      (Forall (fun a => Py.startswith "127." a = true) l /\
       get_private_ip addrs = "127.0.0.1") \/
      (exists pre post,
         l = pre ++ get_private_ip addrs :: post /\
         Forall (fun a => Py.startswith "127." a = true) pre /\
         Py.startswith "127." (get_private_ip addrs) = false)
  end.
Proof.
  unfold get_private_ip. destruct addrs as [l|]; [|split; reflexivity].
  pose proof (first_non_loopback_spec l) as H.
  destruct (first_non_loopback l) as [a|]; cbv beta iota in H.
  - destruct H as (pre & post & -> & Hp & Ha). split; [intros; congruence|]. right. eauto.
  - split; [reflexivity|]. left. auto.
Qed.

Lemma private_ip_first_non_loopback_witness :
  get_private_ip (Some ["127.0.1.1"; "127.0.0.53"]) = "127.0.0.1".
Proof.
  apply (proj1 (private_ip_first_non_loopback (Some ["127.0.1.1"; "127.0.0.53"]))).
  reflexivity.
Defined.

(** ** Shutting down *)
Lemma start_is_closing env s w :
  is_closing (fst (_start_server env s w)) = is_closing w.
Proof.
  unfold _start_server.
  destruct (servers w !! s) as [srv0|]; [|reflexivity].
  destruct (match process srv0 with Some _ => se_is_running env | None => false end);
    [reflexivity|].
  destruct (negb _); [reflexivity|].
  destruct (effective_port _) as [eport|]; [|reflexivity].
  destruct (se_port_in_use env) as [busy|]; [|reflexivity].
  destruct (if busy then Py.str eport else Some "") as [shown|]; [|reflexivity].
  destruct (busy && negb (se_answer_yes env)); [reflexivity|].
  destruct (build_command _ _) as [cmd|]; [|reflexivity].
  destruct (se_popen env) as [popen|]; [|reflexivity].
  destruct (se_ps env) as [p|]; reflexivity.
Qed.

Lemma call_on_done_is_closing cb w : is_closing (call_on_done cb w) = is_closing w.
Proof.
  destruct cb as [[d r]|]; [|reflexivity]. cbn [call_on_done run_callback].
  destruct (decide _); simpl; apply on_row_selected_fields.
Qed.

Lemma finalize_is_closing s cb w : is_closing (_stop_finalize s cb w) = is_closing w.
Proof.
  rewrite stop_finalize_eq. cbv zeta.
  destruct (servers w !! s); rewrite call_on_done_is_closing; reflexivity.
Qed.

Lemma stop_is_closing s cb w : is_closing (fst (_stop_server s cb w)) = is_closing w.
Proof.
  destruct (servers w !! s) as [srv0|] eqn:E0;
    [|unfold _stop_server; rewrite E0; reflexivity].
  rewrite (stop_server_eq s cb w srv0 E0). cbv zeta.
  destruct (process srv0); simpl; [reflexivity|]. rewrite finalize_is_closing. reflexivity.
Qed.

Lemma step_is_closing op w : is_closing (step op w) = is_closing w.
Proof.
  destruct op as [env s|s cb|s cb|s line|s rc|s|samples]; simpl.
  - apply start_is_closing.
  - apply stop_is_closing.
  - apply finalize_is_closing.
  - unfold _on_log_line. destruct (servers w !! s); reflexivity.
  - unfold _on_process_finished. destruct (servers w !! s); [destruct (Py.str rc)|]; reflexivity.
  - unfold _reader_gone. destruct (servers w !! s) as [srv0|]; [|reflexivity].
    destruct (reader srv0); reflexivity.
  - unfold _refresh_metrics. destruct (is_closing w) eqn:E; [exact E|simpl; exact E].
Qed.

Lemma run_ops_is_closing ops w : is_closing (run_ops ops w) = is_closing w.
Proof.
  revert w. induction ops as [|op ops IH]; intros w; [reflexivity|].
  unfold run_ops in *. cbn [fold_left]. rewrite IH. apply step_is_closing.
Qed.

Lemma stop_idle_reader_fields keys w :
  is_closing (fold_left stop_idle_reader keys w) = is_closing w /\
  stop_workers (fold_left stop_idle_reader keys w) = stop_workers w /\
  active_server_id (fold_left stop_idle_reader keys w) = active_server_id w.
Proof.
  revert w. induction keys as [|k keys IH]; intros w; [auto|].
  cbn [fold_left]. destruct (IH (stop_idle_reader w k)) as (-> & -> & ->).
  unfold stop_idle_reader. destruct (servers w !! k) as [srv|]; [|auto].
  destruct (_ || _); auto.
Qed.

Lemma stop_fold_is_closing sids w :
  is_closing (fold_left (fun w sid => fst (_stop_server sid None w)) sids w)
  = is_closing w.
Proof.
  revert w. induction sids as [|s sids IH]; intros w; [reflexivity|].
  cbn [fold_left]. rewrite IH. apply stop_is_closing.
Qed.

Lemma filter_wants_stop_none keys w :
  (forall sid, sid ∈ keys -> wants_stop w sid = false) ->
  filter (fun sid => wants_stop (set_is_closing true w) sid = true) keys = [].
Proof.
  induction keys as [|k keys IH]; intros Hnone; [reflexivity|].
  rewrite filter_cons. destruct (decide _) as [E|E].
  - change (wants_stop w k = true) in E. rewrite Hnone in E; [discriminate|].
    apply elem_of_cons. auto.
  - apply IH. intros x Hx. apply Hnone, elem_of_cons. auto.
Qed.

Lemma shutdown_is_closing keys events w :
  is_closing (_shutdown_all_servers keys events w) = true.
Proof.
  unfold _shutdown_all_servers.
  destruct (filter _ keys); simpl;
    [apply stop_idle_reader_fields|].
  rewrite run_ops_is_closing.
  change (is_closing (fold_left (fun w sid => fst (_stop_server sid None w)) (s :: l)
                        (fold_left stop_idle_reader keys (set_is_closing true w))) = true).
  rewrite stop_fold_is_closing. apply stop_idle_reader_fields.
Qed.












(** X25: [_shutdown_all_servers] marks the window as closing, after
    which the metrics timer changes nothing.  When some server was
    [Running] or [Starting], then on return, whatever happened while
    waiting, no runtime holds a reader and no stop worker is registered.
    When none was, it returns after asking the idle readers to stop: the
    registered stop workers stay. *)
Theorem shutdown_all_servers_cleans keys events w :
  let w' := _shutdown_all_servers keys events w in
  is_closing w' = true /\
  (forall samples, _refresh_metrics samples w' = w') /\
  ((exists sid, sid ∈ keys /\ wants_stop w sid = true) ->
   stop_workers w' = ∅ /\
   forall sid srv, servers w' !! sid = Some srv -> reader srv = None) /\
  ((forall sid, sid ∈ keys -> wants_stop w sid = false) ->
   w' = fold_left stop_idle_reader keys (set_is_closing true w) /\
   stop_workers w' = stop_workers w).
Proof.
  cbv zeta.
  pose proof (shutdown_is_closing keys events w) as C.
  split; [exact C|]. split.
  { intros samples. unfold _refresh_metrics. rewrite C. reflexivity. }
  unfold _shutdown_all_servers. split.
  - intros (sid & Hin & Hw).
    destruct (filter (fun sid => wants_stop (set_is_closing true w) sid = true) keys)
      as [|s l] eqn:F.
    { exfalso. apply (filter_nil_not_elem_of _ _ sid F); [exact Hw|exact Hin]. }
    simpl. split; [reflexivity|].
    intros k srv Hk. rewrite lookup_fmap in Hk.
    destruct (servers _ !! k) as [srv0|]; [|discriminate]. simpl in Hk.
    injection Hk as <-. unfold drop_reader. destruct (reader srv0) eqn:R; [reflexivity|exact R].
  - intros Hnone.
    rewrite (filter_wants_stop_none keys w Hnone).
    split; [reflexivity|].
    destruct (stop_idle_reader_fields keys (set_is_closing true w)) as (_ & -> & _).
    reflexivity.
Qed.

Lemma shutdown_all_servers_cleans_witness :
  stop_workers (_shutdown_all_servers ["a1"; "b2"] [] demo_two) = ∅.
Proof.
  refine (proj1 (proj1 (proj2 (proj2
    (shutdown_all_servers_cleans ["a1"; "b2"] [] demo_two))) _)).
  exists "a1". split; [apply elem_of_cons; left; reflexivity|vm_compute; reflexivity].
Defined.

(** ** The reader thread under a stop request, and the rows of the table *)

Lemma find_row_from_app row rows extra sid :
  find_row_from row (rows ++ extra) sid =
    match find_row_from row rows sid with
    | Some r => Some r
    | None => find_row_from (row + length rows) extra sid
    end.
Proof.
  revert row. induction rows as [|item rows IH]; intros row; cbn [app find_row_from length].
  - rewrite Nat.add_0_r. reflexivity.
  - replace (row + S (length rows))%nat with (S row + length rows)%nat by lia.
    destruct item as [data|]; [destruct (String.eqb data sid)|]; auto.
Qed.

Lemma find_row_from_range row rows sid r :
  find_row_from row rows sid = Some r ->
  (row <= r < row + length rows)%nat /\ rows !! (r - row)%nat = Some (Some sid).
Proof.
  revert row. induction rows as [|item rows IH]; intros row; cbn [find_row_from length];
    [discriminate|].
  assert (Next : find_row_from (S row) rows sid = Some r ->
                 (row <= r < row + S (length rows))%nat /\
                 (item :: rows) !! (r - row)%nat = Some (Some sid)).
  { intros H. apply IH in H. destruct H as [Hr Hl]. split; [lia|].
    replace (r - row)%nat with (S (r - S row)) by lia. exact Hl. }
  destruct item as [data|]; [|exact Next].
  destruct (String.eqb_spec data sid) as [->|_]; [|exact Next].
  intros [= <-]. split; [lia|]. rewrite Nat.sub_diag. reflexivity.
Qed.

(** X26: once the reader thread notices the stop request, at a line
    before which the request was not set, it has emitted one line event
    for each earlier line, in order; the line at which the request is
    noticed and everything after it are dropped, and the only further
    signal is the single [process_finished], carrying the wait result,
    or -1, as the signed 32-bit integer of the signal; no exception
    leaves [run]. *)
Theorem reader_stops_at_request server_id pre line rest w :
  Forall (fun st => exists l, st = Yield l false) pre ->
  LogReaderThread_run server_id
    {| re_stdout := Some (pre ++ Yield line true :: rest); re_wait := w |}
  = (map (line_received server_id) (yielded pre)
       ++ [process_finished server_id (c_int (default (-1) w))], false).
Proof.
  intros H. unfold LogReaderThread_run. cbn [re_stdout re_wait].
  assert (L : read_loop server_id (pre ++ Yield line true :: rest)
              = (map (line_received server_id) (yielded pre), false)).
  { induction H as [|st pre [l ->] _ IH]; [reflexivity|].
    cbn [app read_loop yielded map]. rewrite IH. reflexivity. }
  rewrite L. destruct w; reflexivity.
Qed.

Lemma reader_stops_at_request_witness :
  LogReaderThread_run "a1" {| re_stdout := Some stopped_stream; re_wait := Some 0 |}
  = ([line_received "a1" "one"; line_received "a1" "two"; process_finished "a1" 0], false).
Proof.
  apply (reader_stops_at_request "a1" [Yield "one" false; Yield "two" false]
           "three" [Yield "four" false] (Some 0)).
  repeat constructor; eexists; reflexivity.
Defined.

(** X27: after [add_server_row] appends a row for an id, [find_row_by_id]
    answers for every id what it answered before where it found a row,
    and finds the new row, at the index [add_server_row] returned, exactly
    for the added id when no earlier row carries it; a row it finds lies
    within the table and its first item carries the id asked for. *)
Theorem added_row_is_found rows sid sid' :
  find_row_by_id (fst (add_server_row rows sid)) sid' =
    match find_row_by_id rows sid' with
    | Some r => Some r
    | None => if String.eqb sid sid' then Some (snd (add_server_row rows sid)) else None
    end /\
  (forall r, find_row_by_id rows sid' = Some r ->
             (r < length rows)%nat /\ rows !! r = Some (Some sid')).
Proof.
  unfold find_row_by_id, add_server_row. cbn [fst snd]. split.
  - rewrite find_row_from_app. cbn [find_row_from]. destruct (String.eqb sid sid'); reflexivity.
  - intros r H. apply find_row_from_range in H. rewrite Nat.sub_0_r in H.
    destruct H as [H1 H2]. split; [lia|exact H2].
Qed.

Lemma added_row_is_found_witness :
  find_row_by_id (fst (add_server_row [Some "a1"; None; Some "b2"] "c3")) "c3" = Some 3%nat /\
  ([Some "a1"; None; Some "b2"] : list (option string)) !! 2%nat = Some (Some "b2").
Proof.
  split.
  - exact (proj1 (added_row_is_found [Some "a1"; None; Some "b2"] "c3" "c3")).
  - exact (proj2 (proj2 (added_row_is_found [Some "a1"; None; Some "b2"] "c3" "b2")
                    2%nat eq_refl)).
Defined.

(** ** Finding the engine executable *)

Lemma find_engine_name files n :
  List.find is_engine_name files = Some n -> In n files /\ is_engine_name n = true.
Proof. intros H. apply find_some in H. exact H. Qed.

Lemma walk_find_sound join d :
  forall level root r,
    walk_find join level root d = Some r ->
    exists dirs n,
      in_tree dirs n d /\ is_engine_name n = true /\
      r = join (fold_left join dirs root) n /\
      (level + length dirs <= 6)%nat.
Proof.
  induction d as [files subdirs IH] using Dir_tree_ind. intros level root r.
  cbn [walk_find]. destruct (Nat.ltb_spec 5 (walk_depth level)) as [Hd|Hd]; [discriminate|].
  unfold walk_depth in Hd.
  destruct (List.find is_engine_name files) as [n|] eqn:F.
  - intros [= <-]. apply find_engine_name in F. destruct F as [Hin Hn].
    exists [], n. repeat split; [constructor; exact Hin|exact Hn|simpl; lia].
  - clear F. induction IH as [|[dirname sub] rest Hsub _ IHrest]; [discriminate|].
    cbn [snd] in Hsub.
    destruct (walk_find join (S level) (join root dirname) sub) as [r'|] eqn:W.
    + intros [= <-]. apply Hsub in W. destruct W as (dirs & n & Ht & Hn & -> & Hl).
      exists (dirname :: dirs), n. repeat split; auto.
      * apply (in_tree_below files _ dirname sub); [left; reflexivity|exact Ht].
      * simpl. lia.
    + intros H. apply IHrest in H. destruct H as (dirs & n & Ht & Hn & -> & Hl).
      exists dirs, n. repeat split; auto.
      inversion Ht; subst.
      * constructor. assumption.
      * apply (in_tree_below files _ dirname0 sub0); [right; assumption|assumption].
Qed.

Lemma walk_find_complete join d :
  forall level root dirs n,
    in_tree dirs n d -> is_engine_name n = true ->
    (level + length dirs <= 6)%nat ->
    exists r, walk_find join level root d = Some r.
Proof.
  induction d as [files subdirs IH] using Dir_tree_ind. intros level root dirs n Ht Hn Hl.
  cbn [walk_find]. destruct (Nat.ltb_spec 5 (walk_depth level)) as [Hd|Hd];
    [unfold walk_depth in Hd; lia|].
  destruct (List.find is_engine_name files) as [m|] eqn:F; [eauto|].
  inversion Ht as [? ? ? Hin|? ? dirname sub dirs' ? Hin Hsub]; subst.
  - exfalso. apply (find_none _ _ F) in Hin. congruence.
  - clear F Ht. simpl in Hl.
    induction IH as [|[dn sb] rest Hs _ IHrest]; [destruct Hin|].
    cbn [snd] in Hs.
    destruct (walk_find join (S level) (join root dn) sb) as [r'|] eqn:W; [eauto|].
    destruct Hin as [E|Hin]; [|exact (IHrest Hin)].
    injection E as -> ->.
    destruct (Hs (S level) (join root dirname) dirs' n Hsub Hn) as [r Hr]; [lia|].
    congruence.
Qed.

(** X28: for a non-empty path that is not a file,
    [resolve_engine_executable] answers [None] exactly when none of the
    platform's candidate paths exists and the walked tree holds no file
    with one of the four editor names in the folder itself or at most six
    directories below it; and a path it answers is either an existing
    candidate or the join of the folder, the directories down to such a
    file, and the file's name. *)
Theorem resolve_engine_executable_finds join env path :
  Py.truthy path = true ->
  fs_isfile env = false ->
  (resolve_engine_executable join env path = None <->
     (forall c, In c (candidates join env) -> fs_exists env c = false) /\
     (forall d dirs n, fs_tree env = Some d -> in_tree dirs n d ->
                       is_engine_name n = true -> (6 < length dirs)%nat)) /\
  (forall r, resolve_engine_executable join env path = Some r ->
     (In r (candidates join env) /\ fs_exists env r = true) \/
     (exists d dirs n,
        fs_tree env = Some d /\ in_tree dirs n d /\ is_engine_name n = true /\
        (length dirs <= 6)%nat /\
        r = join (fold_left join dirs (fs_abspath env)) n)).
Proof.
  intros Hp Hf. unfold resolve_engine_executable. rewrite Hp, Hf. cbn [negb].
  destruct (List.find (fs_exists env) (candidates join env)) as [c|] eqn:F.
  - apply find_some in F. split.
    + split; [discriminate|]. intros [Hc _]. destruct F as [Hin Hex].
      rewrite (Hc c Hin) in Hex. discriminate.
    + intros r [= <-]. left. exact F.
  - assert (Hc : forall c, In c (candidates join env) -> fs_exists env c = false).
    { intros c Hin. exact (find_none _ _ F c Hin). }
    destruct (fs_tree env) as [d|].
    + split.
      * split.
        -- intros W. split; [exact Hc|]. intros d' dirs n [= <-] Ht Hn.
           destruct (Nat.lt_ge_cases 6 (length dirs)) as [L|L]; [exact L|].
           destruct (walk_find_complete join d 0%nat (fs_abspath env) dirs n Ht Hn) as [r Hr];
             [simpl; lia|congruence].
        -- intros [_ Hd].
           destruct (walk_find join 0 (fs_abspath env) d) as [r|] eqn:W; [|reflexivity].
           apply walk_find_sound in W. destruct W as (dirs & n & Ht & Hn & _ & Hl).
           specialize (Hd d dirs n eq_refl Ht Hn). simpl in Hl. lia.
      * intros r W. right. apply walk_find_sound in W.
        destruct W as (dirs & n & Ht & Hn & -> & Hl). exists d, dirs, n.
        repeat split; auto.
    + split; [|discriminate]. split; [|reflexivity].
      intros _. split; [exact Hc|]. intros d dirs n [=].
Qed.

Lemma resolve_engine_executable_finds_witness :
  resolve_engine_executable posix_join demo_fs "/opt/UE" = Some "/opt/UE/Engine/Binaries/Linux/UnrealEditor" /\
  exists d dirs n,
    fs_tree demo_fs = Some d /\ in_tree dirs n d /\ is_engine_name n = true /\
    (length dirs <= 6)%nat /\
    "/opt/UE/Engine/Binaries/Linux/UnrealEditor" = posix_join (fold_left posix_join dirs (fs_abspath demo_fs)) n.
Proof.
  split; [reflexivity|].
  destruct (proj2 (resolve_engine_executable_finds posix_join demo_fs "/opt/UE" eq_refl eq_refl)
              "/opt/UE/Engine/Binaries/Linux/UnrealEditor" eq_refl) as [[Hin _]|H].
  - destruct Hin.
  - exact H.
Defined.
